(** * keep-core tBTC client: DKG result submission, redemption transactions
    and the SPV maintainer

  A shallow embedding of the Go code of package [tbtc] (the node with its
  member-fate decision and its DKG result submitter, the DKG result
  submitter of dkg_submit.go, the redemption action of redemption.go),
  package [tbtcpg] (the look-back of the moving funds task) and package
  [spv] (the maintainer proving deposit sweeps), with the properties the
  specification states about them.

  Conventions.
  - Go's fixed-width integers are integers of [Z] together with the
    wrap-around of the operation that produced them ([GoInt]).
  - A Go function returning [(T, error)] returns an [outcome T]; a run-time
    panic (index out of range, integer division by zero) is the third
    constructor.
  - Calls to the chain, Bitcoin and block-counter interfaces, whose
    implementations live outside the embedded files, are fields of an
    environment record or variables of a section. *)

From Stdlib Require Import ZArith List Lia Bool Ascii String.
From Stdlib Require Strings.Byte.
From Stdlib Require Import Sorting.Sorted Sorting.Permutation.
From stdpp Require Import base gmap list strings sorting.
Import ListNotations.

Local Open Scope Z_scope.

(* ===================================================================== *)
(** ** Go integers and results                                            *)
(* ===================================================================== *)

Module GoInt.

(** [uint64]: arithmetic modulo [2^64]. *)
Definition uint64 (z : Z) : Z := z mod 2 ^ 64.

(** [uint8]: arithmetic modulo [2^8]. *)
Definition uint8 (z : Z) : Z := z mod 2 ^ 8.

(** [int64]: two's complement, the representative in [-2^63, 2^63). *)
Definition int64 (z : Z) : Z := (z + 2 ^ 63) mod 2 ^ 64 - 2 ^ 63.

Definition is_uint64 (z : Z) : Prop := 0 <= z < 2 ^ 64.
Definition is_uint8 (z : Z) : Prop := 0 <= z < 2 ^ 8.
Definition is_int64 (z : Z) : Prop := - 2 ^ 63 <= z < 2 ^ 63.

End GoInt.

(** Bytes compare by value: [bytes.Equal] and [==] on byte arrays. *)
#[global] Instance byte_eq_dec : EqDecision Byte.byte := Byte.byte_eq_dec.

Definition bytesEqual (a b : list Byte.byte) : bool := bool_decide (a = b).

(** Total of a list of amounts, as a plain integer. *)
Definition sumZ (l : list Z) : Z := fold_right Z.add 0 l.

(** An [error] value: the format string of the [fmt.Errorf] call that built
  it and, where the call wraps another error, that cause. *)
Inductive error : Type :=
| Errorf (format : string)
| Wrapf (format : string) (cause : error).

(** What a call of a Go function comes to. *)
Inductive outcome (A : Type) : Type :=
| Ok (a : A)
| Err (e : error)
| Panic (reason : string).

Arguments Ok {A} a.
Arguments Err {A} e.
Arguments Panic {A} reason.

Definition is_ok {A} (o : outcome A) : bool :=
  match o with Ok _ => true | _ => false end.

Definition is_err {A} (o : outcome A) : bool :=
  match o with Err _ => true | _ => false end.

(** Sequencing of calls: the first error or panic ends the run. *)
Definition bind {A B} (o : outcome A) (k : A -> outcome B) : outcome B :=
  match o with
  | Ok a => k a
  | Err e => Err e
  | Panic r => Panic r
  end.

Notation "x <- o ;; k" := (bind o (fun x => k))
  (at level 100, o at next level, right associativity).

(** [if err != nil { return fmt.Errorf(format, err) }] *)
Definition wrap_err {A} (format : string) (o : outcome A) : outcome A :=
  match o with
  | Err e => Err (Wrapf format e)
  | _ => o
  end.

(* ===================================================================== *)
(** ** pkg/bitcoin: the types the embedded code handles                   *)
(* ===================================================================== *)

Module Bitcoin.

Definition Script : Type := list Byte.byte.
Definition Hash : Type := list Byte.byte.

Record TransactionOutpoint : Type := {
  TransactionHash : Hash;
  OutputIndex : Z                      (* uint32 *)
}.

Record UnspentTransactionOutput : Type := {
  Outpoint : TransactionOutpoint;
  Value : Z                            (* int64 *)
}.

Record TransactionInput : Type := {
  InputOutpoint : TransactionOutpoint;
  SignatureScript : list Byte.byte;
  Witness : list (list Byte.byte);
  Sequence : Z                         (* uint32 *)
}.

Record TransactionOutput : Type := {
  OutputValue : Z;                     (* int64 *)
  PublicKeyScript : Script
}.

Record Transaction : Type := {
  Version : Z;
  Inputs : list TransactionInput;
  Outputs : list TransactionOutput;
  Locktime : Z
}.

(** [*ecdsa.PublicKey] *)
Record PublicKey : Type := { X : Z; Y : Z }.

(** The [bitcoin.Chain] handle, with the calls the embedded code makes
    directly ([GetTransaction], [GetTransactionsForPublicKeyHash]) and the
    check [TransactionBuilder.AddPublicKeyHashInput] runs against it. *)
Record Chain : Type := {
  GetTransaction : Hash -> outcome Transaction;
  GetTransactionsForPublicKeyHash :
    list Byte.byte -> Z -> outcome (list Transaction);
  checkPublicKeyHashInput : UnspentTransactionOutput -> option error
}.

(** Modelled from the spec: [bitcoin.TransactionBuilder] is declared in
    pkg/bitcoin, outside the embedded files. The spec has the redemption
    transaction as one input (the main UTXO), the outputs in the order they
    were added and the fee as inputs minus outputs; the builder records just
    that. Whether an UTXO is accepted as a public-key-hash input is the
    chain's answer [checkPublicKeyHashInput]. *)
Record TransactionBuilder : Type := {
  builderChain : Chain;
  builderInputs : list UnspentTransactionOutput;
  builderOutputs : list TransactionOutput
}.

Definition NewTransactionBuilder (chain : Chain) : TransactionBuilder :=
  {| builderChain := chain; builderInputs := []; builderOutputs := [] |}.

Definition AddPublicKeyHashInput
  (builder : TransactionBuilder) (utxo : UnspentTransactionOutput)
  : outcome TransactionBuilder :=
  match checkPublicKeyHashInput (builderChain builder) utxo with
  | Some e => Err e
  | None =>
      Ok {| builderChain := builderChain builder;
            builderInputs := builderInputs builder ++ [utxo];
            builderOutputs := builderOutputs builder |}
  end.

Definition TotalInputsValue (builder : TransactionBuilder) : Z :=
  fold_left (fun total utxo => GoInt.int64 (total + Value utxo))
            (builderInputs builder) 0.

Definition AddOutput
  (builder : TransactionBuilder) (output : TransactionOutput)
  : TransactionBuilder :=
  {| builderChain := builderChain builder;
     builderInputs := builderInputs builder;
     builderOutputs := builderOutputs builder ++ [output] |}.

End Bitcoin.

(* ===================================================================== *)
(** ** pkg/tbtc/redemption.go                                             *)
(* ===================================================================== *)

Module Redemption.
Import Bitcoin.

(** [type RedemptionTransactionShape uint8], with its two [iota] names. *)
Definition RedemptionTransactionShape : Type := Z.
Definition RedemptionChangeFirst : RedemptionTransactionShape := 0.
Definition RedemptionChangeLast : RedemptionTransactionShape := 1.

Record RedemptionRequest : Type := {
  Redeemer : string;
  RedeemerOutputScript : Script;
  RequestedAmount : Z;                 (* uint64 *)
  TreasuryFee : Z;                     (* uint64 *)
  TxMaxFee : Z;                        (* uint64 *)
  RequestedAt : Z
}.

(** [type redemptionFeeDistributionFn func([]*RedemptionRequest) []int64];
    a Go function may panic instead of returning. *)
Definition redemptionFeeDistributionFn : Type :=
  list RedemptionRequest -> outcome (list Z).

(** The body of the [for i := range requests] loop of
    [withRedemptionTotalFee]: [feeShares[i] = feeShare]. *)
Definition feeShareStep
  (requestsLen feePerRequest remainder : Z) (feeShares : list Z) (i : nat)
  : list Z :=
  let feeShare := feePerRequest in
  let feeShare :=
    if Z.of_nat i =? requestsLen - 1
    then GoInt.int64 (feeShare + remainder)
    else feeShare in
  <[ i := feeShare ]> feeShares.

(** [withRedemptionTotalFee]. Go's [%] and [/] on [int64] truncate toward
    zero ([Z.rem], [Z.quot]) and panic on a zero divisor. *)
Definition withRedemptionTotalFee (totalFee : Z) : redemptionFeeDistributionFn :=
  fun requests =>
    let requestsCount := Z.of_nat (length requests) in
    if requestsCount =? 0 then Panic "runtime error: integer divide by zero"
    else
      let remainder := Z.rem totalFee requestsCount in
      let feePerRequest :=
        GoInt.int64 (Z.quot (GoInt.int64 (totalFee - remainder)) requestsCount) in
      let feeShares := replicate (length requests) 0 in
      Ok (fold_left
            (feeShareStep (Z.of_nat (length requests)) feePerRequest remainder)
            (seq 0 (length requests)) feeShares).

(** The variables of [assembleRedemptionTransaction] its first loop
    updates. *)
Record assembly : Type := {
  totalFee : Z;
  totalRedemptionOutputsValue : Z;
  outputs : list TransactionOutput
}.

(** One round of [for i, request := range requests]. *)
Definition redemptionOutputStep
  (feeShares : list Z) (st : assembly) (i : nat) (request : RedemptionRequest)
  : outcome assembly :=
  let redeemableAmount :=
    GoInt.int64 (GoInt.uint64 (RequestedAmount request - TreasuryFee request)) in
  match feeShares !! i with
  | None => Panic "runtime error: index out of range"
  | Some feeShare =>
      let redemptionOutputValue := GoInt.int64 (redeemableAmount - feeShare) in
      let redemptionOutput :=
        {| OutputValue := redemptionOutputValue;
           PublicKeyScript := RedeemerOutputScript request |} in
      Ok {| totalFee := GoInt.int64 (totalFee st + feeShare);
            totalRedemptionOutputsValue :=
              GoInt.int64 (totalRedemptionOutputsValue st + redemptionOutputValue);
            outputs := outputs st ++ [redemptionOutput] |}
  end.

Fixpoint redemptionOutputsLoop
  (feeShares : list Z) (i : nat) (requests : list RedemptionRequest)
  (st : assembly) : outcome assembly :=
  match requests with
  | [] => Ok st
  | request :: rest =>
      st' <- redemptionOutputStep feeShares st i request ;;
      redemptionOutputsLoop feeShares (S i) rest st'
  end.

(** [shape ...RedemptionTransactionShape]: one value given, else the
    default. *)
Definition resolveShape (shape : list RedemptionTransactionShape)
  : RedemptionTransactionShape :=
  match shape with
  | [s] => s
  | _ => RedemptionChangeFirst
  end.

(** The redemption output the specification asks for: it pays the request's
    [RedeemerOutputScript] the amount
    [RequestedAmount - TreasuryFee - feeShare], held in the [int64] field
    [Value] of the output. *)
Definition redemptionOutputFor (request : RedemptionRequest) (feeShare : Z)
  : TransactionOutput :=
  {| OutputValue :=
       GoInt.int64 (RequestedAmount request - TreasuryFee request - feeShare);
     PublicKeyScript := RedeemerOutputScript request |}.

(** One such output per request, in the order of the requests. *)
Definition redemptionOutputsFor
  (requests : list RedemptionRequest) (feeShares : list Z)
  : list TransactionOutput :=
  zip_with redemptionOutputFor requests feeShares.

(** The change value of the specification: total input value minus total
    redemption output value minus total fee, as the [int64] the code holds
    it in. *)
Definition changeValueFor
  (utxo : UnspentTransactionOutput)
  (requests : list RedemptionRequest) (feeShares : list Z) : Z :=
  GoInt.int64
    (Value utxo
     - sumZ (map OutputValue (redemptionOutputsFor requests feeShares))
     - sumZ (take (length requests) feeShares)).

Section Assemble.

(** [bitcoin.PublicKeyHash] and [bitcoin.PayToWitnessPublicKeyHash], of
    pkg/bitcoin. *)
Variable PublicKeyHash : PublicKey -> list Byte.byte.
Variable PayToWitnessPublicKeyHash : list Byte.byte -> outcome Script.

(** The change step: [outputs] with the change output, if there is one, at
    the place the shape asks for. *)
Definition withChangeOutput
  (walletPublicKey : PublicKey) (resolvedShape : RedemptionTransactionShape)
  (changeOutputValue : Z) (outputs : list TransactionOutput)
  : outcome (list TransactionOutput) :=
  if 0 <? changeOutputValue then
    changeOutputScript <-
      wrap_err "cannot compute change output script: [%v]"
        (PayToWitnessPublicKeyHash (PublicKeyHash walletPublicKey)) ;;
    let changeOutput :=
      {| OutputValue := changeOutputValue;
         PublicKeyScript := changeOutputScript |} in
    if resolvedShape =? RedemptionChangeFirst then
      Ok ([changeOutput] ++ outputs)
    else if resolvedShape =? RedemptionChangeLast then
      Ok (outputs ++ [changeOutput])
    else Panic "unknown redemption transaction shape"
  else Ok outputs.

Definition assembleRedemptionTransaction
  (bitcoinChain : Chain)
  (walletPublicKey : PublicKey)
  (walletMainUtxo : option UnspentTransactionOutput)
  (requests : list RedemptionRequest)
  (feeDistribution : redemptionFeeDistributionFn)
  (shape : list RedemptionTransactionShape)
  : outcome TransactionBuilder :=
  let resolvedShape := resolveShape shape in
  match walletMainUtxo with
  | None => Err (Errorf "wallet main UTXO is required")
  | Some utxo =>
      if (length requests <? 1)%nat then
        Err (Errorf "at least one redemption request is required")
      else
        let builder := NewTransactionBuilder bitcoinChain in
        builder <-
          wrap_err "cannot add input pointing to wallet main UTXO: [%v]"
            (AddPublicKeyHashInput builder utxo) ;;
        feeShares <- feeDistribution requests ;;
        st <- redemptionOutputsLoop feeShares 0 requests
                {| totalFee := 0;
                   totalRedemptionOutputsValue := 0;
                   outputs := [] |} ;;
        let changeOutputValue :=
          GoInt.int64
            (GoInt.int64
               (TotalInputsValue builder - totalRedemptionOutputsValue st)
             - totalFee st) in
        outputs <-
          withChangeOutput walletPublicKey resolvedShape
            changeOutputValue (outputs st) ;;
        Ok (fold_left AddOutput outputs builder)
  end.

End Assemble.

End Redemption.

(* ===================================================================== *)
(** ** Look-back windows: SPV maintainer and moving funds                 *)
(* ===================================================================== *)

Module Spv.

(** [hex.EncodeToString] *)
Definition hexDigit (n : N) : Ascii.ascii :=
  match n with
  | 0%N => "0" | 1%N => "1" | 2%N => "2" | 3%N => "3" | 4%N => "4"
  | 5%N => "5" | 6%N => "6" | 7%N => "7" | 8%N => "8" | 9%N => "9"
  | 10%N => "a" | 11%N => "b" | 12%N => "c" | 13%N => "d" | 14%N => "e"
  | _ => "f"
  end%char.

Fixpoint EncodeToString (src : list Byte.byte) : string :=
  match src with
  | [] => EmptyString
  | b :: rest =>
      String (hexDigit (N.shiftr (Byte.to_N b) 4))
        (String (hexDigit (N.land (Byte.to_N b) 15)) (EncodeToString rest))
  end.

(** A deposit as the chain has it; a [time.Time] is its Unix time, and
    [time.Unix(0, 0)] is [0]. *)
Record DepositChainRequest : Type := {
  RevealedAt : Z;
  SweptAt : Z;
  Vault : option string
}.

Record WalletChainData : Type := {
  MainUtxoHash : list Byte.byte
}.

Record DepositSweepProposal : Type := {
  WalletPublicKeyHash : list Byte.byte
}.

Record DepositSweepProposalSubmittedEvent : Type := {
  Proposal : DepositSweepProposal;
  BlockNumber : Z
}.

Record DepositSweepProposalSubmittedEventFilter : Type := {
  StartBlock : Z
}.

Record BlockCounter : Type := {
  CurrentBlock : outcome Z
}.

Record SpvProof : Type := {
  MerkleProof : list Byte.byte;
  TxIndexInBlock : Z;
  BitcoinHeaders : list Byte.byte
}.

(** The calls the maintainer makes on its chain handle. *)
Record Chain : Type := {
  GetBlockCounter : outcome BlockCounter;
  PastDepositSweepProposalSubmittedEvents :
    DepositSweepProposalSubmittedEventFilter ->
    outcome (list DepositSweepProposalSubmittedEvent);
  Deposits : Bitcoin.Hash -> Z -> outcome DepositChainRequest;
  ComputeMainUtxoHash : Bitcoin.UnspentTransactionOutput -> list Byte.byte;
  GetWallet : list Byte.byte -> outcome WalletChainData;
  TxProofDifficultyFactor : outcome Z;
  SubmitDepositSweepProofWithReimbursement :
    Bitcoin.Transaction -> SpvProof ->
    Bitcoin.UnspentTransactionOutput -> string -> option error
}.

(** [startBlock := currentBlock - 40320], on [uint64]. *)
Definition depositSweepFilterStartBlock (currentBlock : Z) : Z :=
  GoInt.uint64 (currentBlock - 40320).

(** One round of the loop of [uniqueWalletPublicKeyHashes]: the cache and
    the list so far, then the event. *)
Definition uniqueStep
  (acc : gset string * list (list Byte.byte))
  (event : DepositSweepProposalSubmittedEvent)
  : gset string * list (list Byte.byte) :=
  let '(cache, publicKeyHashes) := acc in
  let key := WalletPublicKeyHash (Proposal event) in
  let strKey := EncodeToString key in
  if bool_decide (strKey ∈ cache) then (cache, publicKeyHashes)
  else ({[ strKey ]} ∪ cache, publicKeyHashes ++ [key]).

Definition uniqueWalletPublicKeyHashes
  (events : list DepositSweepProposalSubmittedEvent)
  : list (list Byte.byte) :=
  snd (fold_left uniqueStep events (∅, [])).

Section Maintainer.

Variable chain : Chain.
Variable btcChain : Bitcoin.Chain.

(** [Transaction.Hash], [bitcoin.AssembleSpvProof] and
    [parseTransactionInputs], defined outside the embedded files. *)
Variable transactionHash : Bitcoin.Transaction -> Bitcoin.Hash.
Variable AssembleSpvProof :
  Bitcoin.Hash -> Z -> Bitcoin.Chain -> outcome (Bitcoin.Transaction * SpvProof).
Variable parseTransactionInputs :
  Bitcoin.Chain -> Chain -> Bitcoin.Transaction ->
  outcome (Bitcoin.UnspentTransactionOutput * string).

Definition isInputCurrentWalletsMainUTXO
  (fundingTxHash : Bitcoin.Hash) (fundingOutputIndex : Z)
  (walletPublicKeyHash : list Byte.byte) : outcome bool :=
  previousTransaction <-
    wrap_err "failed to get previous transaction: [%v]"
      (Bitcoin.GetTransaction btcChain fundingTxHash) ;;
  match Bitcoin.Outputs previousTransaction !! Z.to_nat fundingOutputIndex with
  | None => Panic "runtime error: index out of range"
  | Some fundingOutput =>
      let fundingOutputValue := Bitcoin.OutputValue fundingOutput in
      let mainUtxoHash :=
        ComputeMainUtxoHash chain
          {| Bitcoin.Outpoint :=
               {| Bitcoin.TransactionHash := fundingTxHash;
                  Bitcoin.OutputIndex := fundingOutputIndex |};
             Bitcoin.Value := fundingOutputValue |} in
      wallet <-
        wrap_err "failed to get wallet: [%v]"
          (GetWallet chain walletPublicKeyHash) ;;
      Ok (bytesEqual mainUtxoHash (MainUtxoHash wallet))
  end.

(** The loop of [isUnprovenDepositSweepTransaction] over the inputs, from
    the value [hasDepositInputs] has so far. *)
Fixpoint depositInputsLoop
  (walletPublicKeyHash : list Byte.byte)
  (inputs : list Bitcoin.TransactionInput) (hasDepositInputs : bool)
  : outcome bool :=
  match inputs with
  | [] => Ok hasDepositInputs
  | input :: rest =>
      let fundingTransactionHash :=
        Bitcoin.TransactionHash (Bitcoin.InputOutpoint input) in
      let fundingOutpointIndex :=
        Bitcoin.OutputIndex (Bitcoin.InputOutpoint input) in
      deposit <-
        wrap_err "failed to get a deposit: [%v]"
          (Deposits chain fundingTransactionHash fundingOutpointIndex) ;;
      if RevealedAt deposit =? 0 then
        match isInputCurrentWalletsMainUTXO
                fundingTransactionHash fundingOutpointIndex
                walletPublicKeyHash with
        | Err _ => Err (Errorf "failed to check if input is the main UTXO")
        | Panic reason => Panic reason
        | Ok isMainUtxo =>
            if negb isMainUtxo then Ok false
            else depositInputsLoop walletPublicKeyHash rest hasDepositInputs
        end
      else if SweptAt deposit =? 0 then
        depositInputsLoop walletPublicKeyHash rest true
      else Ok false
  end.

Definition isUnprovenDepositSweepTransaction
  (transaction : Bitcoin.Transaction) (walletPublicKeyHash : list Byte.byte)
  : outcome bool :=
  if negb (length (Bitcoin.Outputs transaction) =? 1)%nat then Ok false
  else
    let hasDepositInputs := false in
    depositInputsLoop walletPublicKeyHash
      (Bitcoin.Inputs transaction) hasDepositInputs.

(** The inner loop of [getUnprovenDepositSweepTransactions], over the
    transactions of one wallet. *)
Fixpoint walletTransactionsLoop
  (walletPublicKeyHash : list Byte.byte)
  (walletTransactions : list Bitcoin.Transaction)
  (unproven : list Bitcoin.Transaction) : outcome (list Bitcoin.Transaction) :=
  match walletTransactions with
  | [] => Ok unproven
  | transaction :: rest =>
      isUnproven <-
        wrap_err
          "failed to check if transaction is an unproven deposit sweep transaction: [%v]"
          (isUnprovenDepositSweepTransaction transaction walletPublicKeyHash) ;;
      walletTransactionsLoop walletPublicKeyHash rest
        (if isUnproven : bool then unproven ++ [transaction] else unproven)
  end.

(** Its outer loop, over the wallets. *)
Fixpoint walletsLoop
  (walletPublicKeyHashes : list (list Byte.byte))
  (unproven : list Bitcoin.Transaction) : outcome (list Bitcoin.Transaction) :=
  match walletPublicKeyHashes with
  | [] => Ok unproven
  | walletPublicKeyHash :: rest =>
      walletTransactions <-
        wrap_err "failed to get transactions for wallet: [%v]"
          (Bitcoin.GetTransactionsForPublicKeyHash btcChain
             walletPublicKeyHash 5) ;;
      unproven <-
        walletTransactionsLoop walletPublicKeyHash walletTransactions unproven ;;
      walletsLoop rest unproven
  end.

Definition getUnprovenDepositSweepTransactions
  : outcome (list Bitcoin.Transaction) :=
  blockCounter <-
    wrap_err "failed to get block counter: [%v]" (GetBlockCounter chain) ;;
  currentBlock <-
    wrap_err "failed to get current block: [%v]" (CurrentBlock blockCounter) ;;
  let startBlock := depositSweepFilterStartBlock currentBlock in
  depositSweepTransactionProposals <-
    wrap_err
      "failed to get past deposit sweep proposal submitted events: [%v]"
      (PastDepositSweepProposalSubmittedEvents chain
         {| StartBlock := startBlock |}) ;;
  let walletPublicKeyHashes :=
    uniqueWalletPublicKeyHashes depositSweepTransactionProposals in
  walletsLoop walletPublicKeyHashes [].

(** The body of the loop of [proveDepositSweepTransactions]: the proof of
    one transaction, assembled and submitted. Each of its three calls
    returns from the whole function on an error. *)
Definition proveStep
  (requiredConfirmations : Z) (transaction : Bitcoin.Transaction)
  : outcome unit :=
  assembled <-
    wrap_err "failed to assemble SPV proof: [%v]"
      (AssembleSpvProof (transactionHash transaction)
         (GoInt.uint64 (Z.abs requiredConfirmations)) btcChain) ;;
  let proof := snd assembled in
  parsed <-
    wrap_err "error while parsing transaction inputs: [%v]"
      (parseTransactionInputs btcChain chain transaction) ;;
  let '(mainUTXO, vault) := parsed in
  match SubmitDepositSweepProofWithReimbursement chain
          transaction proof mainUTXO vault with
  | Some e =>
      Err (Wrapf
        "failed to submit deposit sweep proof with reimbursement: [%v]" e)
  | None => Ok tt
  end.

(** The loop over the batch. The first component is the list of the
    transactions whose proof has been submitted so far, the effect of the
    run on the chain. *)
Fixpoint proveLoop
  (requiredConfirmations : Z)
  (depositSweepTransactions : list Bitcoin.Transaction)
  (submitted : list Bitcoin.Transaction)
  : list Bitcoin.Transaction * outcome unit :=
  match depositSweepTransactions with
  | [] => (submitted, Ok tt)
  | transaction :: rest =>
      match proveStep requiredConfirmations transaction with
      | Ok _ =>
          proveLoop requiredConfirmations rest (submitted ++ [transaction])
      | Err e => (submitted, Err e)
      | Panic reason => (submitted, Panic reason)
      end
  end.

Definition proveDepositSweepTransactions
  : list Bitcoin.Transaction * outcome unit :=
  match getUnprovenDepositSweepTransactions with
  | Err e =>
      ([], Err (Wrapf
         "failed to get unproven deposit sweep transactions: [%v]" e))
  | Panic reason => ([], Panic reason)
  | Ok depositSweepTransactions =>
      match TxProofDifficultyFactor chain with
      | Err e =>
          ([], Err (Wrapf
             "failed to get transaction proof difficulty factor: [%v]" e))
      | Panic reason => ([], Panic reason)
      | Ok requiredConfirmations =>
          proveLoop requiredConfirmations depositSweepTransactions []
      end
  end.

(** What the chain says of an input, in the words of the specification. An
    input is a revealed deposit when the chain has a deposit for its
    outpoint with a reveal time; swept or unswept by the sweep time of that
    deposit; and the wallet's current main UTXO when the chain has no
    revealed deposit for it and the hash of the UTXO it spends is the
    wallet's main UTXO hash. *)
Definition depositOf (input : Bitcoin.TransactionInput)
  : outcome DepositChainRequest :=
  Deposits chain
    (Bitcoin.TransactionHash (Bitcoin.InputOutpoint input))
    (Bitcoin.OutputIndex (Bitcoin.InputOutpoint input)).

Definition isRevealedDeposit (input : Bitcoin.TransactionInput) : bool :=
  match depositOf input with
  | Ok deposit => negb (RevealedAt deposit =? 0)
  | _ => false
  end.

Definition isUnsweptDeposit (input : Bitcoin.TransactionInput) : bool :=
  match depositOf input with
  | Ok deposit => negb (RevealedAt deposit =? 0) && (SweptAt deposit =? 0)
  | _ => false
  end.

Definition isSweptDeposit (input : Bitcoin.TransactionInput) : bool :=
  match depositOf input with
  | Ok deposit => negb (RevealedAt deposit =? 0) && negb (SweptAt deposit =? 0)
  | _ => false
  end.

Definition isCurrentMainUtxo
  (walletPublicKeyHash : list Byte.byte) (input : Bitcoin.TransactionInput)
  : bool :=
  match depositOf input with
  | Ok deposit =>
      (RevealedAt deposit =? 0) &&
      match isInputCurrentWalletsMainUTXO
              (Bitcoin.TransactionHash (Bitcoin.InputOutpoint input))
              (Bitcoin.OutputIndex (Bitcoin.InputOutpoint input))
              walletPublicKeyHash with
      | Ok isMainUtxo => isMainUtxo
      | _ => false
      end
  | _ => false
  end.

End Maintainer.

(** The batch processing the specification describes: whatever else fails
    in the batch, a transaction of the batch whose own proof can be
    assembled and submitted has its proof submitted by the run. *)
Definition continuesAfterFailure : Prop :=
  forall chain btcChain transactionHash AssembleSpvProof parseTransactionInputs
         batch requiredConfirmations transaction,
    getUnprovenDepositSweepTransactions chain btcChain = Ok batch ->
    TxProofDifficultyFactor chain = Ok requiredConfirmations ->
    In transaction batch ->
    proveStep chain btcChain transactionHash AssembleSpvProof
      parseTransactionInputs requiredConfirmations transaction = Ok tt ->
    In transaction
       (fst (proveDepositSweepTransactions chain btcChain transactionHash
               AssembleSpvProof parseTransactionInputs)).

End Spv.

Module MovingFunds.

Definition MovingFundsCommitmentLookBackBlocks : Z := 216000.

(** [retrieveCommittedTargetWallets]: the filter start block stays at [0]
    unless the current block is beyond the look-back period. *)
Definition filterStartBlock (currentBlockNumber : Z) : Z :=
  let filterStartBlock := 0 in
  if MovingFundsCommitmentLookBackBlocks <? currentBlockNumber
  then GoInt.uint64 (currentBlockNumber - MovingFundsCommitmentLookBackBlocks)
  else filterStartBlock.

End MovingFunds.

(* ===================================================================== *)
(** ** The chain as a task sees it while it waits                         *)
(* ===================================================================== *)

Module Waiting.

(** A task blocked on channels is woken up at some moment of the run of the
    chain. A moment has the height of the chain then, the payload
    [published] of a notification delivered then on the other channel the
    task listens to (a DKG result submitted by another member), whether the
    task's context is done by then, and the side Go's [select] takes when
    two of its channels are ready at once. *)
Record moment (E : Type) : Type := {
  height : Z;                          (* uint64 *)
  published : option E;
  ctxDone : bool;
  otherFirst : bool
}.

Arguments height {E} m.
Arguments published {E} m.
Arguments ctxDone {E} m.
Arguments otherFirst {E} m.

(** What a [select] over a block height waiter and a notification channel
    receives. *)
Inductive received (E : Type) : Type :=
| HeightReached (blockNumber : Z)
| Notified (event : E).

Arguments HeightReached {E} blockNumber.
Arguments Notified {E} event.

(** Modelled from the spec: [BlockCounter.BlockHeightWaiter] and the event
    subscriptions are declared in pkg/chain, outside the embedded files. The
    waiter's channel is ready from the first moment the chain is at the
    requested height or above it, and hands over the height of that moment;
    the notification channel is ready at the moment of a notification. The
    [select] blocks while neither is ready; [None] is a task still blocked
    when the moments run out. *)
Fixpoint select {E} (waitHeight : Z) (timeline : list (moment E))
  : option (received E) :=
  match timeline with
  | [] => None
  | m :: later =>
      match waitHeight <=? height m, published m with
      | true, Some event =>
          Some (if otherFirst m then Notified event
                else HeightReached (height m))
      | true, None => Some (HeightReached (height m))
      | false, Some event => Some (Notified event)
      | false, None => select waitHeight later
      end
  end.

(** Modelled from the spec: [waitForBlockFn] is a field of the submitter set
    outside the embedded files; by the comment of [SubmitResult] it waits
    until the block or until the context is done, whichever comes first. The
    moment it returns at, [None] if it has not returned when the moments run
    out. *)
Fixpoint waitForBlock {E} (block : Z) (timeline : list (moment E))
  : option (moment E) :=
  match timeline with
  | [] => None
  | m :: later =>
      if (block <=? height m) || ctxDone m then Some m
      else waitForBlock block later
  end.

(** A call that may still be blocked when the moments run out. *)
Inductive progress (A : Type) : Type :=
| Returned (o : outcome A)
| Blocked.

Arguments Returned {A} o.
Arguments Blocked {A}.

End Waiting.

(* ===================================================================== *)
(** ** pkg/tbtc node: member fate and the first DKG result submitter      *)
(* ===================================================================== *)

Module Tbtc.

(** [type DKGState int] of pkg/tbtc/chain.go, with its four [iota] names. *)
Inductive DKGState : Type := Idle | AwaitingSeed | AwaitingResult | Challenge.

#[global] Instance DKGState_eq_dec : EqDecision DKGState.
Proof. solve_decision. Defined.

(** [GroupSelectionResult] *)
Record GroupSelectionResult : Type := {
  OperatorsIDs : list Z;
  OperatorsAddresses : list string
}.

(** [DKGChainResult] *)
Record DKGChainResult : Type := {
  SubmitterMemberIndex : Z;
  GroupPublicKey : list Byte.byte;
  MisbehavedMembersIndexes : list Z;
  Signatures : list Byte.byte;
  SigningMembersIndexes : list Z;
  Members : list Z;
  MembersHash : list Byte.byte
}.

End Tbtc.

Module Node.
Import Waiting Tbtc.

(** [ChainConfig]; the node reads [ResultPublicationBlockStep] from it as a
    [uint64]. *)
Record ChainConfig : Type := {
  GroupSize : Z;                       (* int *)
  HonestThreshold : Z;                 (* int *)
  ResultPublicationBlockStep : Z       (* uint64 *)
}.

Definition DishonestThreshold (cc : ChainConfig) : Z :=
  GoInt.int64 (GroupSize cc - HonestThreshold cc).

(** The fields of [DKGResultSubmittedEvent] the node reads. *)
Record DKGResultSubmittedEvent : Type := {
  GroupPublicKeyBytes : list Byte.byte;
  Misbehaved : list Z;                 (* []group.MemberIndex, uint8 *)
  BlockNumber : Z
}.

(** [*dkg.Result], by what its methods return. *)
Record Result : Type := {
  ResultGroupPublicKeyBytes : outcome (list Byte.byte);
  MemberIDs : list Z;
  OperatingMemberIDs : list Z
}.

Record BlockCounter : Type := {
  BlockHeightWaiter : Z -> option error
}.

Record Chain : Type := {
  GetConfig : ChainConfig;
  GetBlockCounter : outcome BlockCounter;
  GetDKGState : outcome DKGState;
  SubmitDKGResult : Z -> Result -> gmap Z (list Byte.byte) -> option error
}.

(** What a run does to the chain and to its subscription, in order. A
    submission is stamped with the height of the chain when it is made. *)
Inductive effect : Type :=
| Unsubscribed
| SubmitDKGResultCalled (atBlock : Z) (memberIndex : Z).

Definition isSubmission (e : effect) : bool :=
  match e with SubmitDKGResultCalled _ _ => true | _ => false end.

Section WithChain.

Variable chain : Chain.

(** [dkg.PrePublicationBlocks], of pkg/tecdsa/dkg. *)
Variable PrePublicationBlocks : Z.

Definition publicationTimeoutBlock (publicationStartBlock : Z) : Z :=
  let config := GetConfig chain in
  GoInt.uint64
    (GoInt.uint64 (publicationStartBlock + PrePublicationBlocks)
     + GoInt.uint64 (GoInt.uint64 (GroupSize config)
                     * ResultPublicationBlockStep config)).

(** [waitForDkgResultEvent]: the [select] is over the event channel and the
    waiter of the timeout block. *)
Definition waitForDkgResultEvent
  (timeline : list (moment DKGResultSubmittedEvent))
  (publicationStartBlock : Z) : progress DKGResultSubmittedEvent :=
  let timeoutBlock := publicationTimeoutBlock publicationStartBlock in
  match GetBlockCounter chain with
  | Err e => Returned (Err e)
  | Panic reason => Returned (Panic reason)
  | Ok blockCounter =>
      match BlockHeightWaiter blockCounter timeoutBlock with
      | Some e => Returned (Err e)
      | None =>
          match select timeoutBlock timeline with
          | None => Blocked
          | Some (Notified dkgResultEvent) => Returned (Ok dkgResultEvent)
          | Some (HeightReached _) =>
              Returned (Err (Errorf "ECDSA DKG result publication timed out"))
          end
      end
  end.

(** [misbehavedSet], filled from the event. *)
Definition misbehavedSetOf (dkgResultEvent : DKGResultSubmittedEvent) : gset Z :=
  fold_left (fun misbehavedSet misbehavedID => {[ misbehavedID ]} ∪ misbehavedSet)
            (Misbehaved dkgResultEvent) ∅.

(** The new view of the operating members: the loop over
    [result.Group.MemberIDs()]. *)
Definition operatingMembersLoop (misbehavedSet : gset Z) (memberIDs : list Z)
  : list Z :=
  fold_left
    (fun operatingMemberIndexes memberID =>
       if bool_decide (memberID ∈ misbehavedSet) then operatingMemberIndexes
       else operatingMemberIndexes ++ [memberID])
    memberIDs [].

Definition decideSigningGroupMemberFate
  (timeline : list (moment DKGResultSubmittedEvent))
  (memberIndex : Z) (publicationStartBlock : Z) (result : Result)
  : progress (list Z) :=
  match waitForDkgResultEvent timeline publicationStartBlock with
  | Blocked => Blocked
  | Returned (Err e) => Returned (Err e)
  | Returned (Panic reason) => Returned (Panic reason)
  | Returned (Ok dkgResultEvent) =>
      Returned (
        groupPublicKeyBytes <- ResultGroupPublicKeyBytes result ;;
        if negb (bytesEqual groupPublicKeyBytes
                   (GroupPublicKeyBytes dkgResultEvent)) then
          Err (Errorf
            "[member:%v] could not stay in the group because the member do not support the same group public key")
        else
          let misbehavedSet := misbehavedSetOf dkgResultEvent in
          if bool_decide (memberIndex ∈ misbehavedSet) then
            Err (Errorf
              "[member:%v] could not stay in the group because the member is considered as misbehaving")
          else
            Ok (operatingMembersLoop misbehavedSet (MemberIDs result)))
  end.

(** [sort.Slice] with the order [<] on member indexes: the slice put in
    ascending order. *)
Definition sortIndexes (operatingMembersIndexes : list Z) : list Z :=
  merge_sort Z.le operatingMembersIndexes.

(** The loop filling [signingGroupOperators]; the index
    [operatingMemberID-1] is computed on [uint8]. *)
Fixpoint signingGroupOperatorsLoop
  (selectedOperators : list string) (i : nat)
  (operatingMembersIndexes : list Z) (signingGroupOperators : list string)
  : outcome (list string) :=
  match operatingMembersIndexes with
  | [] => Ok signingGroupOperators
  | operatingMemberID :: rest =>
      match selectedOperators !! Z.to_nat (GoInt.uint8 (operatingMemberID - 1)) with
      | None => Panic "runtime error: index out of range"
      | Some operator =>
          signingGroupOperatorsLoop selectedOperators (S i) rest
            (<[ i := operator ]> signingGroupOperators)
      end
  end.

Definition resolveFinalSigningGroupOperators
  (selectedOperators : list string) (operatingMembersIndexes : list Z)
  : outcome (list string) :=
  let config := GetConfig chain in
  if negb (Z.of_nat (length selectedOperators) =? GroupSize config)
     || (Z.of_nat (length operatingMembersIndexes) <? HonestThreshold config)
  then Err (Errorf "invalid input parameters")
  else
    let operatingMembersIndexes := sortIndexes operatingMembersIndexes in
    let signingGroupOperators :=
      replicate (length operatingMembersIndexes) EmptyString in
    signingGroupOperatorsLoop selectedOperators 0
      operatingMembersIndexes signingGroupOperators.

(** [setupEligibilityQueue]: the height the waiter is asked for, and the
    two calls that may fail. *)
Definition eligibleBlockHeight (startBlockNumber : Z) (memberIndex : Z) : Z :=
  let blockWaitTime :=
    GoInt.uint64
      (GoInt.uint64 (memberIndex - 1)
       * ResultPublicationBlockStep (GetConfig chain)) in
  GoInt.uint64 (startBlockNumber + blockWaitTime).

Definition setupEligibilityQueue (startBlockNumber : Z) (memberIndex : Z)
  : outcome Z :=
  let eligibleBlockHeight := eligibleBlockHeight startBlockNumber memberIndex in
  blockCounter <-
    wrap_err "could not get block counter [%w]" (GetBlockCounter chain) ;;
  match BlockHeightWaiter blockCounter eligibleBlockHeight with
  | Some e => Err (Wrapf "block height waiter failure [%w]" e)
  | None => Ok eligibleBlockHeight
  end.

(** [dkgResultSubmitter.SubmitResult] of the node. The deferred
    [Unsubscribe] is the last effect of every return past the
    subscription. *)
Definition SubmitResult
  (timeline : list (moment DKGResultSubmittedEvent))
  (memberIndex : Z) (result : Result)
  (signatures : gmap Z (list Byte.byte)) (startBlockNumber : Z)
  : list effect * progress unit :=
  let config := GetConfig chain in
  if Z.of_nat (size signatures) <? HonestThreshold config then
    ([], Returned (Err (Errorf
       "could not submit result with [%v] signatures for signature honest threshold [%v]")))
  else
    match GetDKGState chain with
    | Err e =>
        ([Unsubscribed],
         Returned (Err (Wrapf "could not check DKG state: [%w]" e)))
    | Panic reason => ([Unsubscribed], Returned (Panic reason))
    | Ok dkgState =>
        if negb (bool_decide (dkgState = AwaitingResult)) then
          ([Unsubscribed], Returned (Ok tt))
        else
          match setupEligibilityQueue startBlockNumber memberIndex with
          | Err e =>
              ([Unsubscribed],
               Returned (Err (Wrapf "cannot set up eligibility queue: [%w]" e)))
          | Panic reason => ([Unsubscribed], Returned (Panic reason))
          | Ok submitterEligibleHeight =>
              match select submitterEligibleHeight timeline with
              | None => ([], Blocked)
              | Some (HeightReached blockNumber) =>
                  match ResultGroupPublicKeyBytes result with
                  | Err e =>
                      ([Unsubscribed; Unsubscribed],
                       Returned (Err (Wrapf "cannot get public key bytes [%w]" e)))
                  | Panic reason =>
                      ([Unsubscribed; Unsubscribed], Returned (Panic reason))
                  | Ok publicKeyBytes =>
                      ([Unsubscribed;
                        SubmitDKGResultCalled blockNumber memberIndex;
                        Unsubscribed],
                       Returned
                         match SubmitDKGResult chain memberIndex result signatures with
                         | Some e => Err e
                         | None => Ok tt
                         end)
                  end
              | Some (Notified _) => ([Unsubscribed], Returned (Ok tt))
              end
          end
    end.

End WithChain.

End Node.

(* ===================================================================== *)
(** ** pkg/tbtc/dkg_submit.go                                             *)
(* ===================================================================== *)

Module DkgSubmit.
Import Waiting Tbtc.

(** [GroupParameters], declared next to the chain interfaces of pkg/tbtc. *)
Record GroupParameters : Type := {
  GroupSize : Z;
  GroupQuorum : Z;
  HonestThreshold : Z
}.

(** [*dkg.Result], by what its methods return. *)
Record Result : Type := {
  ResultGroupPublicKey : outcome Bitcoin.PublicKey;
  OperatingMemberIndexes : list Z;
  ResultMisbehavedMembersIndexes : list Z
}.

Record BlockCounter : Type := {
  CurrentBlock : outcome Z
}.

Record Chain : Type := {
  GetDKGState : outcome DKGState;
  AssembleDKGResult :
    Z -> Bitcoin.PublicKey -> list Z -> list Z -> gmap Z (list Byte.byte) ->
    GroupSelectionResult -> outcome DKGChainResult;
  IsDKGResultValid : DKGChainResult -> outcome bool;
  GetBlockCounter : outcome BlockCounter;
  SubmitDKGResult : DKGChainResult -> option error
}.

(** [dkgResultSubmitter]. Its [waitForBlockFn] is [Waiting.waitForBlock],
    together with the error the field's type lets it return. *)
Record dkgResultSubmitter : Type := {
  chain : Chain;
  groupParameters : GroupParameters;
  groupSelectionResult : GroupSelectionResult;
  waitForBlockFnError : option error
}.

Inductive effect : Type :=
| SubmitDKGResultCalled (atBlock : Z) (dkgResult : DKGChainResult).

Section WithDelayStep.

(** The constant [dkgResultSubmissionDelayStepBlocks] of pkg/tbtc. *)
Variable dkgResultSubmissionDelayStepBlocks : Z.

(** The block [SubmitResult] waits for, from the block it reads as the
    current one; [memberIndex-1] is computed on [uint8]. *)
Definition submissionBlockFor (currentBlock : Z) (memberIndex : Z) : Z :=
  let delayBlocks :=
    GoInt.uint64
      (GoInt.uint64 (GoInt.uint8 (memberIndex - 1))
       * dkgResultSubmissionDelayStepBlocks) in
  GoInt.uint64 (currentBlock + delayBlocks).

(** [SubmitResult] up to its wait: the result to submit and the block to
    wait for, or the value to return at once ([Ok None] for [return nil]). *)
Definition prepareSubmission
  (drs : dkgResultSubmitter) (memberIndex : Z) (result : Result)
  (signatures : gmap Z (list Byte.byte))
  : outcome (option (DKGChainResult * Z)) :=
  if Z.of_nat (size signatures) <? GroupQuorum (groupParameters drs) then
    Err (Errorf
      "could not submit result with [%v] signatures for group quorum [%v]")
  else
    dkgState <-
      wrap_err "could not check DKG state: [%w]" (GetDKGState (chain drs)) ;;
    if negb (bool_decide (dkgState = AwaitingResult)) then Ok None
    else
      groupPublicKey <-
        wrap_err "cannot get group public key [%w]"
          (ResultGroupPublicKey result) ;;
      dkgResult <-
        wrap_err "cannot assemble DKG chain result [%w]"
          (AssembleDKGResult (chain drs) memberIndex groupPublicKey
             (OperatingMemberIndexes result)
             (ResultMisbehavedMembersIndexes result)
             signatures (groupSelectionResult drs)) ;;
      isValid <-
        wrap_err "cannot validate DKG result: [%w]"
          (IsDKGResultValid (chain drs) dkgResult) ;;
      if negb isValid then Err (Errorf "invalid DKG result")
      else
        blockCounter <- GetBlockCounter (chain drs) ;;
        currentBlock <-
          wrap_err "cannot get current block: [%v]" (CurrentBlock blockCounter) ;;
        Ok (Some (dkgResult, submissionBlockFor currentBlock memberIndex)).

Definition SubmitResult
  (drs : dkgResultSubmitter) (timeline : list (moment unit))
  (memberIndex : Z) (result : Result) (signatures : gmap Z (list Byte.byte))
  : list effect * progress unit :=
  match prepareSubmission drs memberIndex result signatures with
  | Err e => ([], Returned (Err e))
  | Panic reason => ([], Returned (Panic reason))
  | Ok None => ([], Returned (Ok tt))
  | Ok (Some (dkgResult, submissionBlock)) =>
      match waitForBlock submissionBlock timeline with
      | None => ([], Blocked)
      | Some m =>
          match waitForBlockFnError drs with
          | Some e =>
              ([], Returned (Err (Wrapf
                 "error while waiting for DKG result submission block: [%v]" e)))
          | None =>
              if ctxDone m then ([], Returned (Ok tt))
              else
                ([SubmitDKGResultCalled (height m) dkgResult],
                 Returned
                   match SubmitDKGResult (chain drs) dkgResult with
                   | Some e => Err e
                   | None => Ok tt
                   end)
          end
      end
  end.

End WithDelayStep.

End DkgSubmit.

(* ===================================================================== *)
(** ** pkg/tbtc/redemption.go: the proposal and the action                *)
(* ===================================================================== *)

Module RedemptionAction.
Import Bitcoin Redemption.

Definition redemptionProposalValidityBlocks : Z := 600.
Definition redemptionSigningTimeoutSafetyMarginBlocks : Z := 300.

(** [time.Duration], in nanoseconds. *)
Definition minute : Z := 60 * 1000000000.
Definition redemptionBroadcastTimeout : Z := 15 * minute.
Definition redemptionBroadcastCheckDelay : Z := 1 * minute.

Record RedemptionProposal : Type := {
  RedeemersOutputScripts : list Script;
  RedemptionTxFee : Z                  (* *big.Int *)
}.

Definition ValidityBlocks (rp : RedemptionProposal) : Z :=
  redemptionProposalValidityBlocks.

(** The two chain calls [ValidateRedemptionProposal] makes. The request and
    the found flag [GetPendingRedemptionRequest] returns are one option. *)
Record ProposalChain : Type := {
  GetPendingRedemptionRequest :
    list Byte.byte -> Script -> outcome (option RedemptionRequest);
  ChainValidateRedemptionProposal :
    list Byte.byte -> RedemptionProposal -> option error
}.

(** The loop of [ValidateRedemptionProposal] over the scripts of the
    proposal; [requests[i]] is the request of the [i]-th script. *)
Fixpoint pendingRequestsLoop
  (chain : ProposalChain) (walletPublicKeyHash : list Byte.byte)
  (scripts : list Script) : outcome (list RedemptionRequest) :=
  match scripts with
  | [] => Ok []
  | script :: rest =>
      match GetPendingRedemptionRequest chain walletPublicKeyHash script with
      | Err e =>
          Err (Wrapf
            "cannot get pending redemption request data for request [%v]: [%v]"
            e)
      | Panic reason => Panic reason
      | Ok None =>
          Err (Errorf "request [%v] is not a pending redemption request")
      | Ok (Some request) =>
          requests <- pendingRequestsLoop chain walletPublicKeyHash rest ;;
          Ok (request :: requests)
      end
  end.

Definition ValidateRedemptionProposal
  (walletPublicKeyHash : list Byte.byte) (proposal : RedemptionProposal)
  (chain : ProposalChain) : outcome (list RedemptionRequest) :=
  match ChainValidateRedemptionProposal chain walletPublicKeyHash proposal with
  | Some e => Err (Wrapf "redemption proposal is invalid: [%v]" e)
  | None =>
      pendingRequestsLoop chain walletPublicKeyHash
        (RedeemersOutputScripts proposal)
  end.

(** [wallet], by its public key. *)
Record wallet : Type := {
  publicKey : PublicKey
}.

(** [walletTransactionExecutor], by what its two steps answer. *)
Record walletTransactionExecutor : Type := {
  signTransaction :
    TransactionBuilder -> Z -> Z -> outcome Transaction;
  broadcastTransaction : Transaction -> Z -> Z -> option error
}.

Record redemptionAction : Type := {
  chain : ProposalChain;
  btcChain : Chain;
  redeemingWallet : wallet;
  transactionExecutor : walletTransactionExecutor;
  proposal : RedemptionProposal;
  proposalProcessingStartBlock : Z;    (* uint64 *)
  proposalExpiryBlock : Z;             (* uint64 *)
  signingTimeoutSafetyMarginBlocks : Z; (* uint64 *)
  broadcastTimeout : Z;
  broadcastCheckDelay : Z;
  feeDistribution : redemptionFeeDistributionFn;
  transactionShape : RedemptionTransactionShape
}.

(** [newRedemptionAction]; [proposal.RedemptionTxFee.Int64()] is the
    [int64] of the fee. *)
Definition newRedemptionAction
  (chain : ProposalChain) (btcChain : Chain) (redeemingWallet : wallet)
  (transactionExecutor : walletTransactionExecutor)
  (proposal : RedemptionProposal)
  (proposalProcessingStartBlock proposalExpiryBlock : Z) : redemptionAction :=
  let feeDistribution :=
    withRedemptionTotalFee (GoInt.int64 (RedemptionTxFee proposal)) in
  {| chain := chain;
     btcChain := btcChain;
     redeemingWallet := redeemingWallet;
     transactionExecutor := transactionExecutor;
     proposal := proposal;
     proposalProcessingStartBlock := proposalProcessingStartBlock;
     proposalExpiryBlock := proposalExpiryBlock;
     signingTimeoutSafetyMarginBlocks :=
       redemptionSigningTimeoutSafetyMarginBlocks;
     broadcastTimeout := redemptionBroadcastTimeout;
     broadcastCheckDelay := redemptionBroadcastCheckDelay;
     feeDistribution := feeDistribution;
     transactionShape := RedemptionChangeFirst |}.

(** The steps of an action that leave the process: the signing of a
    transaction up to a block, and the broadcast of a signed one. *)
Inductive step : Type :=
| SignTransactionCalled
    (unsignedTx : TransactionBuilder) (startBlock timeoutBlock : Z)
| BroadcastTransactionCalled
    (tx : Transaction) (timeout checkDelay : Z).

Section Execute.

(** [bitcoin.PublicKeyHash], [bitcoin.PayToWitnessPublicKeyHash],
    [DetermineWalletMainUtxo] and [EnsureWalletSyncedBetweenChains], defined
    outside the embedded files. *)
Variable PublicKeyHash : PublicKey -> list Byte.byte.
Variable PayToWitnessPublicKeyHash : list Byte.byte -> outcome Script.
Variable DetermineWalletMainUtxo :
  list Byte.byte -> ProposalChain -> Chain ->
  outcome (option UnspentTransactionOutput).
Variable EnsureWalletSyncedBetweenChains :
  list Byte.byte -> UnspentTransactionOutput -> ProposalChain -> Chain ->
  option error.

(** [redemptionAction.execute], up to the transaction to sign. *)
Definition prepareTransaction (ra : redemptionAction)
  : outcome TransactionBuilder :=
  let walletPublicKeyHash := PublicKeyHash (publicKey (redeemingWallet ra)) in
  validatedRequests <-
    wrap_err "validate proposal step failed: [%v]"
      (ValidateRedemptionProposal walletPublicKeyHash (proposal ra) (chain ra)) ;;
  walletMainUtxo <-
    wrap_err "error while determining wallet's main UTXO: [%v]"
      (DetermineWalletMainUtxo walletPublicKeyHash (chain ra) (btcChain ra)) ;;
  match walletMainUtxo with
  | None => Err (Errorf "redeeming wallet has no main UTXO")
  | Some utxo =>
      match EnsureWalletSyncedBetweenChains
              walletPublicKeyHash utxo (chain ra) (btcChain ra) with
      | Some e =>
          Err (Wrapf
            "error while ensuring wallet state is synced between BTC and host chain: [%v]"
            e)
      | None =>
          unsignedRedemptionTx <-
            wrap_err "error while assembling redemption transaction: [%v]"
              (assembleRedemptionTransaction
                 PublicKeyHash PayToWitnessPublicKeyHash
                 (btcChain ra) (publicKey (redeemingWallet ra))
                 walletMainUtxo validatedRequests
                 (feeDistribution ra) [transactionShape ra]) ;;
          if proposalExpiryBlock ra <? signingTimeoutSafetyMarginBlocks ra
          then Err (Errorf "invalid proposal expiry block")
          else Ok unsignedRedemptionTx
      end
  end.

(** [redemptionAction.execute]: the steps taken, and what it returns. *)
Definition execute (ra : redemptionAction) : list step * outcome unit :=
  match prepareTransaction ra with
  | Err e => ([], Err e)
  | Panic reason => ([], Panic reason)
  | Ok unsignedRedemptionTx =>
      let startBlock := proposalProcessingStartBlock ra in
      let timeoutBlock :=
        GoInt.uint64
          (proposalExpiryBlock ra - signingTimeoutSafetyMarginBlocks ra) in
      let signing :=
        SignTransactionCalled unsignedRedemptionTx startBlock timeoutBlock in
      match signTransaction (transactionExecutor ra)
              unsignedRedemptionTx startBlock timeoutBlock with
      | Err e =>
          ([signing], Err (Wrapf "sign transaction step failed: [%v]" e))
      | Panic reason => ([signing], Panic reason)
      | Ok redemptionTx =>
          ([signing;
            BroadcastTransactionCalled redemptionTx
              (broadcastTimeout ra) (broadcastCheckDelay ra)],
           match broadcastTransaction (transactionExecutor ra) redemptionTx
                   (broadcastTimeout ra) (broadcastCheckDelay ra) with
           | Some e =>
               Err (Wrapf "broadcast transaction step failed: [%v]" e)
           | None => Ok tt
           end)
      end
  end.

End Execute.

End RedemptionAction.

(* ===================================================================== *)
(** ** pkg/sortition/sortition.go                                         *)
(* ===================================================================== *)

Module Sortition.

(** The calls of the monitor that change the chain. *)
Inductive call : Type :=
| RestoreRewardEligibilityCalled
| UpdateOperatorStatusCalled
| JoinSortitionPoolCalled.

#[global] Instance call_eq_dec : EqDecision call.
Proof. solve_decision. Defined.

(** The [sortition.Chain] handle. What a call answers may depend on the
    changing calls made before it, the state the chain is in. *)
Record Chain : Type := {
  OperatorToStakingProvider : list call -> outcome (string * bool);
  IsOperatorInPool : list call -> outcome bool;
  IsOperatorUpToDate : list call -> outcome bool;
  IsPoolLocked : list call -> outcome bool;
  IsEligibleForRewards : list call -> outcome bool;
  CanRestoreRewardEligibility : list call -> outcome bool;
  RestoreRewardEligibility : list call -> option error;
  UpdateOperatorStatus : list call -> option error;
  JoinSortitionPool : list call -> option error
}.

Definition errOperatorUnknown : error :=
  Errorf
    "operator not registered for the staking provider, check Threshold dashboard".

(** A function returning [error] whose reads failed: the calls made so far
    and the error. *)
Definition failed {A} (calls : list call) (o : outcome A) : list call * outcome unit :=
  match o with
  | Err e => (calls, Err e)
  | Panic reason => (calls, Panic reason)
  | Ok _ => (calls, Ok tt)
  end.

Section WithChain.

Variable chain : Chain.

Definition checkRewardsEligibility (calls : list call)
  : list call * outcome unit :=
  match IsEligibleForRewards chain calls with
  | Ok isEligibleForRewards =>
      if isEligibleForRewards then (calls, Ok tt)
      else
        match CanRestoreRewardEligibility chain calls with
        | Ok canRestoreRewardEligibility =>
            if canRestoreRewardEligibility then
              (calls ++ [RestoreRewardEligibilityCalled],
               match RestoreRewardEligibility chain calls with
               | Some e => Err e
               | None => Ok tt
               end)
            else (calls, Ok tt)
        | failure => failed calls failure
        end
  | failure => failed calls failure
  end.

(** [checkOperatorStatus]. The errors of the rewards check, of the update
    and of the join are logged, not returned. *)
Definition checkOperatorStatus (calls : list call)
  : list call * outcome unit :=
  match IsOperatorInPool chain calls with
  | Ok isOperatorInPool =>
      match IsOperatorUpToDate chain calls with
      | Ok isOperatorUpToDate =>
          let '(calls, rewards) :=
            if isOperatorInPool then checkRewardsEligibility calls
            else (calls, Ok tt) in
          match rewards with
          | Panic reason => (calls, Panic reason)
          | _ =>
              if isOperatorUpToDate then (calls, Ok tt)
              else
                match IsPoolLocked chain calls with
                | Ok isLocked =>
                    if isLocked then (calls, Ok tt)
                    else if isOperatorInPool then
                      (calls ++ [UpdateOperatorStatusCalled], Ok tt)
                    else
                      (calls ++ [JoinSortitionPoolCalled], Ok tt)
                | failure => failed calls failure
                end
          end
      | failure => failed calls failure
      end
  | failure => failed calls failure
  end.

(** What wakes the goroutine of [MonitorPool] up. *)
Inductive wake : Type := Tick | Done.

(** The goroutine: a check at every tick, until the context is done (or a
    check panics). *)
Fixpoint monitorLoop (wakes : list wake) (calls : list call) : list call :=
  match wakes with
  | [] => calls
  | Done :: _ => calls
  | Tick :: later =>
      match checkOperatorStatus calls with
      | (calls, Panic _) => calls
      | (calls, _) => monitorLoop later calls
      end
  end.

(** [MonitorPool]: what it returns, and the calls made by it and by the
    goroutine it leaves behind over the given wake-ups. *)
Definition MonitorPool (wakes : list wake) (calls : list call)
  : list call * outcome unit :=
  match OperatorToStakingProvider chain calls with
  | Err e =>
      (calls, Err (Wrapf "could not resolve staking provider: [%w]" e))
  | Panic reason => (calls, Panic reason)
  | Ok (_, isRegistered) =>
      if negb isRegistered then (calls, Err errOperatorUnknown)
      else
        match checkOperatorStatus calls with
        | (calls, Panic reason) => (calls, Panic reason)
        | (calls, _) => (monitorLoop wakes calls, Ok tt)
        end
  end.

End WithChain.

End Sortition.

(* ===================================================================== *)
(** ** The moving funds task (tbtcpg) *)

Module MovingFundsTask.

(** [uint32]: arithmetic modulo [2^32]. *)
Definition uint32 (z : Z) : Z := z mod 2 ^ 32.

Definition ErrMaxBtcTransferZero : error :=
  Errorf "wallet max BTC transfer must be positive".
Definition ErrNotEnoughTargetWallets : error :=
  Errorf "not enough target wallets".
Definition ErrWrongCommitmentHash : error :=
  Errorf "target wallets hash must match commitment hash".
Definition ErrNoExecutingOperator : error :=
  Errorf "task executing operator not found among wallet operators".
Definition ErrTransactionNotIncluded : error :=
  Errorf "transaction not included in blockchain".
Definition ErrFeeTooHigh : error :=
  Errorf "estimated fee exceeds the maximum fee".

(** [chain.Address] *)
Definition Address : Type := string.

(** Modelled from the spec: the wallet states are declared in pkg/tbtc,
    outside the embedded files; the spec gives the lifecycle of a wallet as
    Live, MovingFunds, Closing, then Closed or Terminated. *)
Inductive WalletState : Type :=
| StateLive
| StateMovingFunds
| StateClosing
| StateClosed
| StateTerminated.

#[global] Instance WalletState_eq_dec : EqDecision WalletState.
Proof. solve_decision. Defined.

(** The records of pkg/tbtc the task reads, with the fields it reads. *)
Record WalletChainData : Type := {
  State : WalletState;
  PendingRedemptionsValue : Z;               (* uint64 *)
  PendingMovedFundsSweepRequestsCount : Z;   (* uint32 *)
  MovingFundsTargetWalletsCommitmentHash : list Byte.byte   (* [32]byte *)
}.

Record NewWalletRegisteredEvent : Type := {
  WalletPublicKeyHash : list Byte.byte       (* [20]byte *)
}.

Record MovingFundsCommitmentSubmittedEvent : Type := {
  TargetWallets : list (list Byte.byte)
}.

Record MovingFundsCommitmentSubmittedEventFilter : Type := {
  StartBlock : Z;                            (* uint64 *)
  FilterWalletPublicKeyHash : list (list Byte.byte)
}.

Record MovingFundsProposal : Type := {
  ProposalTargetWallets : list (list Byte.byte);
  MovingFundsTxFee : Z                       (* *big.Int *)
}.

Record CoordinationProposalRequest : Type := {
  RequestWalletPublicKeyHash : list Byte.byte;
  WalletOperators : list Address;
  ExecutingOperator : Address
}.

Record BlockCounter : Type := {
  CurrentBlock : outcome Z;
  WaitForBlockHeight : Z -> option error
}.

(** The arguments of one call of [chain.SubmitMovingFundsCommitment]. *)
Record commitment : Type := {
  commitmentWalletPublicKeyHash : list Byte.byte;
  commitmentMainUTXO : Bitcoin.UnspentTransactionOutput;
  commitmentMembersIDs : list Z;
  commitmentMemberIndex : Z;
  commitmentTargetWallets : list (list Byte.byte)
}.

(** The calls the task makes on its chain handle. [GetWallet] is what the
    chain answers before a commitment is submitted; [GetWalletAtBlock] is
    what it answers to the poll that follows the wait for the given block
    height. Of the wallet parameters the task reads the maximum BTC
    transfer, of the moving funds parameters the maximum total fee. *)
Record Chain : Type := {
  GetWallet : list Byte.byte -> outcome WalletChainData;
  GetWalletAtBlock : Z -> list Byte.byte -> outcome WalletChainData;
  GetWalletParameters : outcome Z;
  GetMovingFundsParameters : outcome Z;
  GetLiveWalletsCount : outcome Z;           (* uint32 *)
  PastNewWalletRegisteredEvents : outcome (list NewWalletRegisteredEvent);
  GetBlockCounter : outcome BlockCounter;
  PastMovingFundsCommitmentSubmittedEvents :
    MovingFundsCommitmentSubmittedEventFilter ->
    outcome (list MovingFundsCommitmentSubmittedEvent);
  ComputeMovingFundsCommitmentHash : list (list Byte.byte) -> list Byte.byte;
  GetOperatorID : Address -> outcome Z;      (* uint32 *)
  ChainSubmitMovingFundsCommitment : commitment -> option error
}.

(** [[32]byte{}] *)
Definition zeroHash : list Byte.byte := replicate 32 Byte.x00.

(** The two closures of [findNewTargetWallets]. Go panics on a zero
    divisor; the one call of [ceilingDivide] comes after the check that
    excludes it. *)
Definition ceilingDivide (x y : Z) : Z :=
  if x =? 0 then 0
  else GoInt.uint64 (1 + GoInt.uint64 (x - 1) / y).

Definition min (x y : Z) : Z :=
  if x <? y then x else y.

(** [new(big.Int).SetBytes]: the bytes as a big-endian number. *)
Definition SetBytes (bytes : list Byte.byte) : Z :=
  fold_left (fun value b => value * 256 + Z.of_N (Byte.to_N b)) bytes 0.

Definition numericOrder (a b : list Byte.byte) : Prop :=
  SetBytes a <= SetBytes b.

#[global] Instance numericOrder_dec : RelDecision numericOrder.
Proof. intros a b. unfold numericOrder. apply _. Defined.

(** [sort.Slice] by the numeric value. The sort of Go is not stable; two
    public key hashes of the same value are the same twenty bytes. *)
Definition sortTargetWallets (targetWallets : list (list Byte.byte))
  : list (list Byte.byte) :=
  merge_sort numericOrder targetWallets.

(** What a run leaves behind and how it ends: the commitments submitted to
    the chain, the block heights waited for, and the answer, if the run
    ends within the rounds allowed to the polling loop. *)
Record run (A : Type) : Type := {
  submitted : list commitment;
  waited : list Z;
  answer : option (outcome A)
}.

Arguments submitted {A} _.
Arguments waited {A} _.
Arguments answer {A} _.

Section Task.

Variable chain : Chain.
Variable btcChain : Bitcoin.Chain.

(** [TransactionSizeEstimator.VirtualSize] of a transaction with one
    witness public key hash input and the given number of witness public
    key hash outputs, [TransactionFeeEstimator.EstimateFee],
    [tbtc.ValidateMovingFundsProposal] and [tbtc.DetermineWalletMainUtxo],
    defined outside the embedded files. *)
Variable VirtualSize : Z -> outcome Z.
Variable EstimateFee : Bitcoin.Chain -> Z -> outcome Z.
Variable ValidateMovingFundsProposal :
  list Byte.byte -> option Bitcoin.UnspentTransactionOutput ->
  MovingFundsProposal -> Chain -> option error.
Variable DetermineWalletMainUtxo :
  list Byte.byte -> Chain -> Bitcoin.Chain ->
  outcome (option Bitcoin.UnspentTransactionOutput).

(** The loop of [findNewTargetWallets], over the events from the newest
    one; [count] is [int(targetWalletsCount)]. A wallet whose data cannot
    be read is logged and passed over. *)
Fixpoint targetWalletsLoop
  (sourceWalletPublicKeyHash : list Byte.byte) (count : Z)
  (events : list NewWalletRegisteredEvent)
  (targetWallets : list (list Byte.byte)) : outcome (list (list Byte.byte)) :=
  match events with
  | [] => Ok targetWallets
  | event :: earlier =>
      let walletPubKeyHash := WalletPublicKeyHash event in
      if bytesEqual walletPubKeyHash sourceWalletPublicKeyHash then
        targetWalletsLoop sourceWalletPublicKeyHash count earlier targetWallets
      else
        match GetWallet chain walletPubKeyHash with
        | Err _ =>
            targetWalletsLoop sourceWalletPublicKeyHash count earlier
              targetWallets
        | Panic reason => Panic reason
        | Ok wallet =>
            let targetWallets :=
              if bool_decide (State wallet = StateLive)
              then targetWallets ++ [walletPubKeyHash]
              else targetWallets in
            if Z.of_nat (length targetWallets) =? count then Ok targetWallets
            else
              targetWalletsLoop sourceWalletPublicKeyHash count earlier
                targetWallets
        end
  end.

Definition findNewTargetWallets
  (sourceWalletPublicKeyHash : list Byte.byte)
  (walletBalance liveWalletsCount : Z) : outcome (list (list Byte.byte)) :=
  walletMaxBtcTransfer <-
    wrap_err "cannot get wallet parameters: [%w]" (GetWalletParameters chain) ;;
  if walletMaxBtcTransfer =? 0 then Err ErrMaxBtcTransferZero
  else
    let targetWalletsCount :=
      min (GoInt.uint64 liveWalletsCount)
          (ceilingDivide walletBalance walletMaxBtcTransfer) in
    events <-
      wrap_err "failed to get past new wallet registered events: [%v]"
        (PastNewWalletRegisteredEvents chain) ;;
    targetWallets <-
      targetWalletsLoop sourceWalletPublicKeyHash
        (GoInt.int64 targetWalletsCount) (rev events) [] ;;
    if negb (Z.of_nat (length targetWallets) =? GoInt.int64 targetWalletsCount)
    then
      Err (Wrapf "%w: required [%v] target wallets; gathered [%v]"
             ErrNotEnoughTargetWallets)
    else Ok (sortTargetWallets targetWallets).

Definition retrieveCommittedTargetWallets
  (sourceWalletPublicKeyHash targetWalletsCommitmentHash : list Byte.byte)
  : outcome (list (list Byte.byte)) :=
  blockCounter <-
    wrap_err "failed to get block counter: [%w]" (GetBlockCounter chain) ;;
  currentBlockNumber <-
    wrap_err "failed to get current block number: [%w]"
      (CurrentBlock blockCounter) ;;
  let filterStartBlock := MovingFunds.filterStartBlock currentBlockNumber in
  let filter :=
    {| StartBlock := filterStartBlock;
       FilterWalletPublicKeyHash := [sourceWalletPublicKeyHash] |} in
  events <-
    wrap_err
      "failed to get past moving funds commitment submitted events: [%w]"
      (PastMovingFundsCommitmentSubmittedEvents chain filter) ;;
  match events with
  | [event] =>
      let targetWallets := TargetWallets event in
      let calculatedHash :=
        ComputeMovingFundsCommitmentHash chain targetWallets in
      if negb (bytesEqual calculatedHash targetWalletsCommitmentHash)
      then Err ErrWrongCommitmentHash
      else Ok targetWallets
  | _ =>
      Err (Errorf
        "unexpected number of moving funds commitment submitted events: [%v]")
  end.

(** [FindTargetWallets]: whether a commitment exists, and the target
    wallets or the error. *)
Definition FindTargetWallets
  (sourceWalletPublicKeyHash targetWalletsCommitmentHash : list Byte.byte)
  (walletBalance liveWalletsCount : Z)
  : bool * outcome (list (list Byte.byte)) :=
  if bytesEqual targetWalletsCommitmentHash zeroHash then
    (false,
     findNewTargetWallets sourceWalletPublicKeyHash
       walletBalance liveWalletsCount)
  else
    (true,
     retrieveCommittedTargetWallets sourceWalletPublicKeyHash
       targetWalletsCommitmentHash).

(** The loop of [GetWalletMembersInfo] from position [index] on. The last
    argument and the first component of the result are the addresses
    [GetOperatorID] has been called with, in the order of the calls. *)
Fixpoint walletMembersLoop
  (executingOperator : Address) (walletOperators : list Address) (index : Z)
  (walletMemberIndex : Z) (operatorIDCache : gmap Address Z)
  (walletMemberIDs : list Z) (fetched : list Address)
  : list Address * outcome (list Z * Z) :=
  match walletOperators with
  | [] => (fetched, Ok (walletMemberIDs, walletMemberIndex))
  | operatorAddress :: later =>
      let walletMemberIndex :=
        if bool_decide (operatorAddress = executingOperator)
           && (walletMemberIndex =? 0)
        then index + 1 else walletMemberIndex in
      match operatorIDCache !! operatorAddress with
      | None =>
          match GetOperatorID chain operatorAddress with
          | Err e =>
              (fetched ++ [operatorAddress],
               Err (Wrapf "failed to get operator ID: [%w]" e))
          | Panic reason => (fetched ++ [operatorAddress], Panic reason)
          | Ok fetchedOperatorID =>
              walletMembersLoop executingOperator later (index + 1)
                walletMemberIndex
                (<[operatorAddress := fetchedOperatorID]> operatorIDCache)
                (walletMemberIDs ++ [fetchedOperatorID])
                (fetched ++ [operatorAddress])
          end
      | Some operatorID =>
          walletMembersLoop executingOperator later (index + 1)
            walletMemberIndex operatorIDCache
            (walletMemberIDs ++ [operatorID]) fetched
      end
  end.

Definition GetWalletMembersInfo
  (walletOperators : list Address) (executingOperator : Address)
  : list Address * outcome (list Z * Z) :=
  match walletMembersLoop executingOperator walletOperators 0 0 ∅ [] [] with
  | (fetched, Ok (walletMemberIDs, walletMemberIndex)) =>
      if walletMemberIndex =? 0 then (fetched, Err ErrNoExecutingOperator)
      else (fetched, Ok (walletMemberIDs, uint32 walletMemberIndex))
  | failure => failure
  end.

(** The polling loop of [SubmitMovingFundsCommitment], from [blockHeight]
    to [lastBlock], for at most [rounds] evaluations of its condition. *)
Fixpoint confirmationLoop
  (rounds : nat) (blockCounter : BlockCounter)
  (walletPublicKeyHash : list Byte.byte) (blockHeight lastBlock : Z)
  (waited : list Z) : list Z * option (outcome unit) :=
  match rounds with
  | O => (waited, None)
  | S rounds =>
      if negb (blockHeight <=? lastBlock)
      then (waited, Some (Err ErrTransactionNotIncluded))
      else
        let waited := waited ++ [blockHeight] in
        match WaitForBlockHeight blockCounter blockHeight with
        | Some e =>
            (waited,
             Some (Err (Wrapf "error while waiting for block height [%w]" e)))
        | None =>
            match GetWalletAtBlock chain blockHeight walletPublicKeyHash with
            | Err e =>
                (waited,
                 Some (Err (Wrapf
                   "error wile getting wallet chain data [%w]" e)))
            | Panic reason => (waited, Some (Panic reason))
            | Ok walletData =>
                if negb (bytesEqual
                           (MovingFundsTargetWalletsCommitmentHash walletData)
                           zeroHash)
                then (waited, Some (Ok tt))
                else
                  confirmationLoop rounds blockCounter walletPublicKeyHash
                    (GoInt.uint64 (blockHeight + 1)) lastBlock waited
            end
        end
  end.

Definition SubmitMovingFundsCommitment
  (rounds : nat) (walletPublicKeyHash : list Byte.byte)
  (walletMainUTXO : option Bitcoin.UnspentTransactionOutput)
  (walletMembersIDs : list Z) (walletMemberIndex : Z)
  (targetWallets : list (list Byte.byte)) : run unit :=
  match walletMainUTXO with
  | None =>
      {| submitted := []; waited := [];
         answer := Some (Panic
           "runtime error: invalid memory address or nil pointer dereference") |}
  | Some mainUTXO =>
      let submission :=
        {| commitmentWalletPublicKeyHash := walletPublicKeyHash;
           commitmentMainUTXO := mainUTXO;
           commitmentMembersIDs := walletMembersIDs;
           commitmentMemberIndex := walletMemberIndex;
           commitmentTargetWallets := targetWallets |} in
      let stopped (o : outcome unit) :=
        {| submitted := [submission]; waited := []; answer := Some o |} in
      match ChainSubmitMovingFundsCommitment chain submission with
      | Some e =>
          stopped (Err (Wrapf
            "error while submitting moving funds commitment to chain: [%w]" e))
      | None =>
          match GetBlockCounter chain with
          | Err e => stopped (Err (Wrapf "error getting block counter [%w]" e))
          | Panic reason => stopped (Panic reason)
          | Ok blockCounter =>
              match CurrentBlock blockCounter with
              | Err e =>
                  stopped (Err (Wrapf "error getting current block [%w]" e))
              | Panic reason => stopped (Panic reason)
              | Ok currentBlock =>
                  let '(waited, answer) :=
                    confirmationLoop rounds blockCounter walletPublicKeyHash
                      (GoInt.uint64 (currentBlock + 1))
                      (GoInt.uint64 (currentBlock + 6)) [] in
                  {| submitted := [submission]; waited := waited;
                     answer := answer |}
              end
          end
      end
  end.

Definition EstimateMovingFundsFee
  (targetWalletsCount txMaxTotalFee : Z) : outcome Z :=
  transactionSize <-
    wrap_err "cannot estimate transaction virtual size: [%v]"
      (VirtualSize targetWalletsCount) ;;
  totalFee <-
    wrap_err "cannot estimate transaction fee: [%v]"
      (EstimateFee btcChain transactionSize) ;;
  if txMaxTotalFee <? GoInt.uint64 totalFee then Err ErrFeeTooHigh
  else Ok totalFee.

(** The fee [ProposeMovingFunds] puts in the proposal. *)
Definition proposalFee
  (targetWallets : list (list Byte.byte)) (fee : Z) : outcome Z :=
  if fee <=? 0 then
    txMaxTotalFee <-
      wrap_err "cannot get moving funds tx max total fee: [%w]"
        (GetMovingFundsParameters chain) ;;
    wrap_err "cannot estimate moving funds transaction fee: [%w]"
      (EstimateMovingFundsFee
         (Z.of_nat (length targetWallets)) txMaxTotalFee)
  else Ok fee.

Definition ProposeMovingFunds
  (walletPublicKeyHash : list Byte.byte)
  (mainUTXO : option Bitcoin.UnspentTransactionOutput)
  (targetWallets : list (list Byte.byte)) (fee : Z)
  : outcome MovingFundsProposal :=
  if (length targetWallets =? 0)%nat
  then Err (Errorf "target wallets list is empty")
  else
    fee <- proposalFee targetWallets fee ;;
    let proposal :=
      {| ProposalTargetWallets := targetWallets; MovingFundsTxFee := fee |} in
    match ValidateMovingFundsProposal
            walletPublicKeyHash mainUTXO proposal chain with
    | Some e =>
        Err (Wrapf "failed to verify moving funds proposal: [%w]" e)
    | None => Ok proposal
    end.

(** The end of [Run] from the target wallets on: the commitment, when none
    exists yet, then the proposal. *)
Definition commitAndPropose
  (rounds : nat) (request : CoordinationProposalRequest)
  (walletMainUtxo : option Bitcoin.UnspentTransactionOutput)
  (commitmentExists : bool) (targetWallets : list (list Byte.byte))
  : run (option MovingFundsProposal) :=
  let walletPublicKeyHash := RequestWalletPublicKeyHash request in
  let committed : run unit :=
    if negb commitmentExists then
      match GetWalletMembersInfo
              (WalletOperators request) (ExecutingOperator request) with
      | (_, Err e) =>
          {| submitted := []; waited := [];
             answer := Some (Err (Wrapf
               "cannot get wallet members IDs: [%w]" e)) |}
      | (_, Panic reason) =>
          {| submitted := []; waited := []; answer := Some (Panic reason) |}
      | (_, Ok (walletMemberIDs, walletMemberIndex)) =>
          let submission :=
            SubmitMovingFundsCommitment rounds walletPublicKeyHash
              walletMainUtxo walletMemberIDs walletMemberIndex targetWallets in
          {| submitted := submitted submission;
             waited := waited submission;
             answer :=
               match answer submission with
               | Some (Err e) =>
                   Some (Err (Wrapf
                     "error while submitting moving funds commitment: [%w]" e))
               | other => other
               end |}
      end
    else {| submitted := []; waited := []; answer := Some (Ok tt) |} in
  {| submitted := submitted committed;
     waited := waited committed;
     answer :=
       match answer committed with
       | Some (Ok _) =>
           Some
             (proposal <-
                wrap_err "cannot prepare moving funds proposal: [%w]"
                  (ProposeMovingFunds walletPublicKeyHash walletMainUtxo
                     targetWallets 0) ;;
              Ok (Some proposal))
       | Some (Err e) => Some (Err e)
       | Some (Panic reason) => Some (Panic reason)
       | None => None
       end |}.

(** [MovingFundsTask.Run]. The proposal and the flag it returns are one
    option. *)
Definition Run (rounds : nat) (request : CoordinationProposalRequest)
  : run (option MovingFundsProposal) :=
  let walletPublicKeyHash := RequestWalletPublicKeyHash request in
  let returns (o : outcome (option MovingFundsProposal)) :=
    {| submitted := []; waited := []; answer := Some o |} in
  match GetWallet chain walletPublicKeyHash with
  | Err e =>
      returns (Err (Wrapf "cannot get source wallet's chain data: [%w]" e))
  | Panic reason => returns (Panic reason)
  | Ok walletChainData =>
      if negb (bool_decide (State walletChainData = StateMovingFunds))
      then returns (Ok None)
      else if 0 <? PendingRedemptionsValue walletChainData
      then returns (Ok None)
      else if 0 <? PendingMovedFundsSweepRequestsCount walletChainData
      then returns (Ok None)
      else
        match DetermineWalletMainUtxo walletPublicKeyHash chain btcChain with
        | Err e =>
            returns (Err (Wrapf "cannot get wallet's main UTXO: [%w]" e))
        | Panic reason => returns (Panic reason)
        | Ok walletMainUtxo =>
            let walletBalance :=
              match walletMainUtxo with
              | Some utxo => Bitcoin.Value utxo
              | None => 0
              end in
            if walletBalance <=? 0 then returns (Ok None)
            else
              match GetLiveWalletsCount chain with
              | Err e =>
                  returns (Err (Wrapf
                    "cannot get Live wallets count: [%w]" e))
              | Panic reason => returns (Panic reason)
              | Ok liveWalletsCount =>
                  if liveWalletsCount =? 0 then returns (Ok None)
                  else
                    let targetWalletsCommitmentHash :=
                      MovingFundsTargetWalletsCommitmentHash
                        walletChainData in
                    match FindTargetWallets walletPublicKeyHash
                            targetWalletsCommitmentHash
                            (GoInt.uint64 walletBalance)
                            liveWalletsCount with
                    | (_, Err e) =>
                        returns (Err (Wrapf
                          "cannot find target wallets: [%w]" e))
                    | (_, Panic reason) => returns (Panic reason)
                    | (commitmentExists, Ok targetWallets) =>
                        commitAndPropose rounds request walletMainUtxo
                          commitmentExists targetWallets
                    end
              end
        end
  end.

End Task.

(** Whether the loop of [findNewTargetWallets] takes a wallet it comes to:
    the wallet is not the source wallet, its data can be read and say that
    it is Live. *)
Definition isLiveTarget
  (chain : Chain) (sourceWalletPublicKeyHash walletPubKeyHash : list Byte.byte)
  : bool :=
  negb (bytesEqual walletPubKeyHash sourceWalletPublicKeyHash) &&
  match GetWallet chain walletPubKeyHash with
  | Ok wallet => bool_decide (State wallet = StateLive)
  | _ => false
  end.

End MovingFundsTask.

(* ===================================================================== *)
(** ** Joining the DKG (node) *)

Module DkgJoin.

(** The calls [joinDKGIfEligible] makes before it starts the members of
    this operator: on the chain and its signing, and on the network
    provider for the broadcast channel named after the seed. An operator
    public key is its bytes. *)
Record Chain : Type := {
  SelectGroup : Z -> outcome (list string);
  GetConfig : Node.ChainConfig;
  OperatorKeyPair : outcome (list Byte.byte);
  PublicKeyToAddress : list Byte.byte -> outcome string;
  BroadcastChannelFor : Z -> option error;
  SetFilter : option error;
  GetBlockCounter : option error
}.

(** The loop that looks for the operator among the selected ones, from
    position [index] on. *)
Fixpoint indexesLoop
  (operatorAddress : string) (selectedSigningGroupOperators : list string)
  (index : Z) (indexes : list Z) : list Z :=
  match selectedSigningGroupOperators with
  | [] => indexes
  | operator :: later =>
      indexesLoop operatorAddress later (index + 1)
        (if bool_decide (operator = operatorAddress)
         then indexes ++ [GoInt.uint8 index]
         else indexes)
  end.

(** [joinDKGIfEligible], up to the start of the members: the member indexes
    a goroutine is started for. A failed call is logged and ends the
    function, but for the filter of the channel, which is only logged. *)
Definition joinDKGIfEligible (chain : Chain) (seed : Z) : outcome (list Z) :=
  match SelectGroup chain seed with
  | Err _ => Ok []
  | Panic reason => Panic reason
  | Ok selectedSigningGroupOperators =>
      let chainConfig := GetConfig chain in
      if Node.GroupSize chainConfig
         <? Z.of_nat (length selectedSigningGroupOperators)
      then Ok []
      else
        match OperatorKeyPair chain with
        | Err _ => Ok []
        | Panic reason => Panic reason
        | Ok operatorPublicKey =>
            match PublicKeyToAddress chain operatorPublicKey with
            | Err _ => Ok []
            | Panic reason => Panic reason
            | Ok operatorAddress =>
                let indexes :=
                  indexesLoop operatorAddress
                    selectedSigningGroupOperators 0 [] in
                if (0 <? length indexes)%nat then
                  match BroadcastChannelFor chain seed with
                  | Some _ => Ok []
                  | None =>
                      match GetBlockCounter chain with
                      | Some _ => Ok []
                      | None =>
                          Ok (map (fun index => GoInt.uint8 (index + 1))
                                  indexes)
                      end
                  end
                else Ok []
            end
        end
  end.

End DkgJoin.

(* ===================================================================== *)
(** ** The control loop of the SPV maintainer *)

Module SpvControl.
Import Spv.

(** One round of the control loop: the chains as they are when the round
    proves the deposit sweeps, and whether the [select] that follows the
    round takes the case of the context being done rather than the one of
    the back-off. A context that is done stays so, and the back-off times
    are positive. *)
Record round : Type := {
  roundChain : Chain;
  roundBtcChain : Bitcoin.Chain;
  contextDone : bool
}.

(** How [maintainSpv] ends: with an error, the [select] after it and the
    rounds left; still looping when the rounds run out; or in a panic. *)
Inductive maintained : Type :=
| Returns (e : error) (done : bool) (later : list round)
| StillRunning
| Panics (reason : string).

Inductive ending : Type :=
| Running
| Stopped
| Crashed (reason : string).

Section Loop.

Variable transactionHash : Bitcoin.Transaction -> Bitcoin.Hash.
Variable AssembleSpvProof :
  Bitcoin.Hash -> Z -> Bitcoin.Chain -> outcome (Bitcoin.Transaction * SpvProof).
Variable parseTransactionInputs :
  Bitcoin.Chain -> Chain -> Bitcoin.Transaction ->
  outcome (Bitcoin.UnspentTransactionOutput * string).

(** [ctx.Err()] of a context that is done. *)
Variable ctxErr : error.

Definition proveRound (r : round)
  : list Bitcoin.Transaction * outcome unit :=
  proveDepositSweepTransactions (roundChain r) (roundBtcChain r)
    transactionHash AssembleSpvProof parseTransactionInputs.

(** [maintainSpv]; the second argument and the first component of the
    result are the transactions whose proof has been submitted. *)
Fixpoint maintainSpv
  (rounds : list round) (submitted : list Bitcoin.Transaction)
  : list Bitcoin.Transaction * maintained :=
  match rounds with
  | [] => (submitted, StillRunning)
  | r :: later =>
      let '(proved, result) := proveRound r in
      let submitted := submitted ++ proved in
      match result with
      | Err e =>
          (submitted,
           Returns
             (Wrapf "error while proving deposit sweep transactions: [%v]" e)
             (contextDone r) later)
      | Panic reason => (submitted, Panics reason)
      | Ok _ =>
          if contextDone r then (submitted, Returns ctxErr true later)
          else maintainSpv later submitted
      end
  end.

(** The loop of [startControlLoop], for at most [restarts] calls of
    [maintainSpv]; the errors are the ones it logs. *)
Fixpoint controlLoop
  (restarts : nat) (rounds : list round)
  (submitted : list Bitcoin.Transaction) (logged : list error)
  : list Bitcoin.Transaction * list error * ending :=
  match restarts with
  | O => (submitted, logged, Running)
  | S restarts =>
      match maintainSpv rounds submitted with
      | (submitted, StillRunning) => (submitted, logged, Running)
      | (submitted, Panics reason) => (submitted, logged, Crashed reason)
      | (submitted, Returns e done later) =>
          let logged := logged ++ [e] in
          if done then (submitted, logged, Stopped)
          else controlLoop restarts later submitted logged
      end
  end.

(** [startControlLoop] over the given rounds. Every call of [maintainSpv]
    that returns has used up a round, so one call more than there are
    rounds is never reached. *)
Definition startControlLoop (rounds : list round)
  : list Bitcoin.Transaction * list error * ending :=
  controlLoop (S (length rounds)) rounds [] [].

(** The error [startControlLoop] logs for a round that fails. *)
Definition roundError (r : round) : list error :=
  match snd (proveRound r) with
  | Err e =>
      [Wrapf "error while proving deposit sweep transactions: [%v]" e]
  | _ => []
  end.

End Loop.

End SpvControl.

(* ===================================================================== *)
(** ** Sample data                                                        *)
(* ===================================================================== *)

Module Sample.
Import Bitcoin Redemption.

Definition request (amount treasuryFee : Z) (script : Script) : RedemptionRequest :=
  {| Redeemer := "0xabc";
     RedeemerOutputScript := script;
     RequestedAmount := amount;
     TreasuryFee := treasuryFee;
     TxMaxFee := 10000;
     RequestedAt := 1700000000 |}.

Definition fourRequests : list RedemptionRequest :=
  [ request 1000000 1000 [Byte.x01];
    request 2000000 2000 [Byte.x02];
    request 3000000 3000 [Byte.x03];
    request 4000000 4000 [Byte.x04] ].

Definition publicKeyHash (key : PublicKey) : list Byte.byte :=
  repeat Byte.xab 20.

Definition payToWitnessPublicKeyHash (publicKeyHash : list Byte.byte)
  : outcome Script :=
  Ok ([Byte.x00; Byte.x14] ++ publicKeyHash).

Definition walletPublicKey : PublicKey := {| X := 11; Y := 22 |}.

Definition btcChain : Chain :=
  {| GetTransaction := fun _ => Err (Errorf "not found");
     GetTransactionsForPublicKeyHash := fun _ _ => Ok [];
     checkPublicKeyHashInput := fun _ => None |}.

Definition mainUtxo (value : Z) : UnspentTransactionOutput :=
  {| Outpoint := {| TransactionHash := repeat Byte.x07 32; OutputIndex := 0 |};
     Value := value |}.

(** A wallet with three recent transactions: two deposit sweeps (the
    second one spending the main UTXO as well) and a transaction with two
    outputs. *)
Definition walletPKH : list Byte.byte := repeat Byte.x11 20.

Definition hashOf (b : Byte.byte) : Hash := repeat b 32.

Definition input (b : Byte.byte) : TransactionInput :=
  {| InputOutpoint := {| TransactionHash := hashOf b; OutputIndex := 0 |};
     SignatureScript := [];
     Witness := [];
     Sequence := 4294967295 |}.

Definition output (value : Z) : TransactionOutput :=
  {| OutputValue := value; PublicKeyScript := [Byte.x00; Byte.x14] |}.

Definition sweep1 : Transaction :=
  {| Version := 1; Inputs := [input Byte.xa1; input Byte.xa2];
     Outputs := [output 30000]; Locktime := 0 |}.

Definition twoOutputs : Transaction :=
  {| Version := 2; Inputs := [input Byte.xa1; input Byte.xa2];
     Outputs := [output 10000; output 20000]; Locktime := 0 |}.

Definition sweep2 : Transaction :=
  {| Version := 3; Inputs := [input Byte.xb0; input Byte.xa4];
     Outputs := [output 45000]; Locktime := 0 |}.

Definition previous : Transaction :=
  {| Version := 9; Inputs := []; Outputs := [output 30000]; Locktime := 0 |}.

Definition spvBtcChain : Chain :=
  {| GetTransaction := fun hash =>
       if bytesEqual hash (hashOf Byte.xb0) then Ok previous
       else Err (Errorf "transaction not found");
     GetTransactionsForPublicKeyHash := fun _ _ =>
       Ok [sweep1; twoOutputs; sweep2];
     checkPublicKeyHashInput := fun _ => None |}.

Definition isDepositHash (hash : Hash) : bool :=
  bytesEqual hash (hashOf Byte.xa1) || bytesEqual hash (hashOf Byte.xa2)
  || bytesEqual hash (hashOf Byte.xa4).

Definition spvChain : Spv.Chain :=
  {| Spv.GetBlockCounter := Ok {| Spv.CurrentBlock := Ok 50000 |};
     Spv.PastDepositSweepProposalSubmittedEvents := fun _ =>
       Ok [ {| Spv.Proposal := {| Spv.WalletPublicKeyHash := walletPKH |};
               Spv.BlockNumber := 49000 |};
            {| Spv.Proposal := {| Spv.WalletPublicKeyHash := walletPKH |};
               Spv.BlockNumber := 49500 |} ];
     Spv.Deposits := fun hash _ =>
       Ok {| Spv.RevealedAt := if isDepositHash hash then 1700000000 else 0;
             Spv.SweptAt := 0;
             Spv.Vault := None |};
     Spv.ComputeMainUtxoHash := fun utxo =>
       TransactionHash (Outpoint utxo);
     Spv.GetWallet := fun _ => Ok {| Spv.MainUtxoHash := hashOf Byte.xb0 |};
     Spv.TxProofDifficultyFactor := Ok 6;
     Spv.SubmitDepositSweepProofWithReimbursement := fun _ _ _ _ => None |}.

Definition transactionHash (transaction : Transaction) : Hash :=
  match Byte.of_N (Z.to_N (Version transaction)) with
  | Some b => hashOf b
  | None => []
  end.

Definition emptyProof : Spv.SpvProof :=
  {| Spv.MerkleProof := []; Spv.TxIndexInBlock := 0; Spv.BitcoinHeaders := [] |}.

(** The proof of the first sweep cannot be assembled; the others can. *)
Definition AssembleSpvProof (hash : Hash) (confirmations : Z) (btcChain : Chain)
  : outcome (Transaction * Spv.SpvProof) :=
  if bytesEqual hash (hashOf Byte.x01)
  then Err (Errorf "not enough confirmations")
  else Ok (previous, emptyProof).

Definition parseTransactionInputs
  (btcChain : Chain) (chain : Spv.Chain) (transaction : Transaction)
  : outcome (UnspentTransactionOutput * string) :=
  Ok (mainUtxo 30000, "0xvault").

(** A group of five, the member with index two reported as misbehaved
    by the result another member got on the chain first. *)
Definition nodeChain : Node.Chain :=
  {| Node.GetConfig :=
       {| Node.GroupSize := 5;
          Node.HonestThreshold := 3;
          Node.ResultPublicationBlockStep := 3 |};
     Node.GetBlockCounter := Ok {| Node.BlockHeightWaiter := fun _ => None |};
     Node.GetDKGState := Ok Tbtc.AwaitingResult;
     Node.SubmitDKGResult := fun _ _ _ => None |}.

Definition groupKey : list Byte.byte := [Byte.xaa; Byte.xbb].

Definition submittedEvent : Node.DKGResultSubmittedEvent :=
  {| Node.GroupPublicKeyBytes := groupKey;
     Node.Misbehaved := [2];
     Node.BlockNumber := 210 |}.

Definition quiet (h : Z) : Waiting.moment Node.DKGResultSubmittedEvent :=
  {| Waiting.height := h; Waiting.published := None;
     Waiting.ctxDone := false; Waiting.otherFirst := false |}.

Definition eventAt (h : Z) : Waiting.moment Node.DKGResultSubmittedEvent :=
  {| Waiting.height := h; Waiting.published := Some submittedEvent;
     Waiting.ctxDone := false; Waiting.otherFirst := false |}.

Definition dkgResult : Node.Result :=
  {| Node.ResultGroupPublicKeyBytes := Ok groupKey;
     Node.MemberIDs := [1; 2; 3; 4; 5];
     Node.OperatingMemberIDs := [1; 2; 3; 4; 5] |}.

Definition selectedOperators : list string :=
  ["member1"; "member2"; "member3"; "member4"; "member5"]%string.

Definition threeSignatures : gmap Z (list Byte.byte) :=
  <[ 1 := [Byte.x01] ]> (<[ 2 := [Byte.x02] ]> (<[ 3 := [Byte.x03] ]> ∅)).

(** The submitter of dkg_submit.go, for a group of five with a quorum of
    four. *)
Definition chainResult : Tbtc.DKGChainResult :=
  {| Tbtc.SubmitterMemberIndex := 3;
     Tbtc.GroupPublicKey := groupKey;
     Tbtc.MisbehavedMembersIndexes := [];
     Tbtc.Signatures := [];
     Tbtc.SigningMembersIndexes := [1; 2; 3; 4];
     Tbtc.Members := [10; 20; 30; 40; 50];
     Tbtc.MembersHash := [] |}.

Definition submitChain (state : Tbtc.DKGState) : DkgSubmit.Chain :=
  {| DkgSubmit.GetDKGState := Ok state;
     DkgSubmit.AssembleDKGResult := fun _ _ _ _ _ _ => Ok chainResult;
     DkgSubmit.IsDKGResultValid := fun _ => Ok true;
     DkgSubmit.GetBlockCounter := Ok {| DkgSubmit.CurrentBlock := Ok 1000 |};
     DkgSubmit.SubmitDKGResult := fun _ => None |}.

Definition submitter (state : Tbtc.DKGState) : DkgSubmit.dkgResultSubmitter :=
  {| DkgSubmit.chain := submitChain state;
     DkgSubmit.groupParameters :=
       {| DkgSubmit.GroupSize := 5;
          DkgSubmit.GroupQuorum := 4;
          DkgSubmit.HonestThreshold := 3 |};
     DkgSubmit.groupSelectionResult :=
       {| Tbtc.OperatorsIDs := [10; 20; 30; 40; 50];
          Tbtc.OperatorsAddresses := selectedOperators |};
     DkgSubmit.waitForBlockFnError := None |}.

Definition submitResult : DkgSubmit.Result :=
  {| DkgSubmit.ResultGroupPublicKey := Ok walletPublicKey;
     DkgSubmit.OperatingMemberIndexes := [1; 2; 3; 4; 5];
     DkgSubmit.ResultMisbehavedMembersIndexes := [] |}.

Definition fourSignatures : gmap Z (list Byte.byte) :=
  <[ 4 := [Byte.x04] ]> threeSignatures.

Definition at_ (h : Z) (done : bool) : Waiting.moment unit :=
  {| Waiting.height := h; Waiting.published := None;
     Waiting.ctxDone := done; Waiting.otherFirst := false |}.

(** A redemption proposal for the four requests, and an executor that
    signs and broadcasts whatever it is handed. *)
Definition proposalChain : RedemptionAction.ProposalChain :=
  {| RedemptionAction.GetPendingRedemptionRequest := fun _ script =>
       Ok (List.find
             (fun r => bytesEqual script (RedeemerOutputScript r))
             fourRequests);
     RedemptionAction.ChainValidateRedemptionProposal := fun _ _ => None |}.

Definition redemptionProposal : RedemptionAction.RedemptionProposal :=
  {| RedemptionAction.RedeemersOutputScripts :=
       [[Byte.x01]; [Byte.x02]; [Byte.x03]; [Byte.x04]];
     RedemptionAction.RedemptionTxFee := 1001 |}.

Definition signedFrom (builder : TransactionBuilder) : Transaction :=
  {| Version := 1;
     Inputs :=
       map (fun utxo =>
              {| InputOutpoint := Outpoint utxo;
                 SignatureScript := [];
                 Witness := [[Byte.x30]];
                 Sequence := 4294967295 |})
           (builderInputs builder);
     Outputs := builderOutputs builder;
     Locktime := 0 |}.

Definition executor : RedemptionAction.walletTransactionExecutor :=
  {| RedemptionAction.signTransaction := fun builder _ _ =>
       Ok (signedFrom builder);
     RedemptionAction.broadcastTransaction := fun _ _ _ => None |}.

Definition redemption : RedemptionAction.redemptionAction :=
  RedemptionAction.newRedemptionAction proposalChain btcChain
    {| RedemptionAction.publicKey := walletPublicKey |}
    executor redemptionProposal 1000 1600.

Definition determineWalletMainUtxo
  (walletPublicKeyHash : list Byte.byte)
  (chain : RedemptionAction.ProposalChain) (btc : Chain)
  : outcome (option UnspentTransactionOutput) :=
  Ok (Some (mainUtxo 20000000)).

Definition ensureWalletSynced
  (walletPublicKeyHash : list Byte.byte) (utxo : UnspentTransactionOutput)
  (chain : RedemptionAction.ProposalChain) (btc : Chain) : option error :=
  None.

(** An operator out of the pool and out of date, the pool unlocked until
    the operator has joined; and one in the pool whose update always fails. *)
Definition joiningChain : Sortition.Chain :=
  {| Sortition.OperatorToStakingProvider := fun _ => Ok ("0xprovider"%string, true);
     Sortition.IsOperatorInPool := fun calls =>
       Ok (bool_decide (Sortition.JoinSortitionPoolCalled ∈ calls));
     Sortition.IsOperatorUpToDate := fun calls =>
       Ok (bool_decide (Sortition.JoinSortitionPoolCalled ∈ calls));
     Sortition.IsPoolLocked := fun _ => Ok false;
     Sortition.IsEligibleForRewards := fun _ => Ok true;
     Sortition.CanRestoreRewardEligibility := fun _ => Ok false;
     Sortition.RestoreRewardEligibility := fun _ => None;
     Sortition.UpdateOperatorStatus := fun _ => None;
     Sortition.JoinSortitionPool := fun _ => None |}.

Definition unregisteredChain : Sortition.Chain :=
  {| Sortition.OperatorToStakingProvider := fun _ => Ok (EmptyString, false);
     Sortition.IsOperatorInPool := fun _ => Ok false;
     Sortition.IsOperatorUpToDate := fun _ => Ok false;
     Sortition.IsPoolLocked := fun _ => Ok false;
     Sortition.IsEligibleForRewards := fun _ => Ok false;
     Sortition.CanRestoreRewardEligibility := fun _ => Ok true;
     Sortition.RestoreRewardEligibility := fun _ => None;
     Sortition.UpdateOperatorStatus := fun _ => None;
     Sortition.JoinSortitionPool := fun _ => None |}.

Definition lockReadFailsChain : Sortition.Chain :=
  {| Sortition.OperatorToStakingProvider := fun _ => Ok ("0xprovider"%string, true);
     Sortition.IsOperatorInPool := fun _ => Ok true;
     Sortition.IsOperatorUpToDate := fun _ => Ok false;
     Sortition.IsPoolLocked := fun _ => Err (Errorf "rpc down");
     Sortition.IsEligibleForRewards := fun _ => Ok false;
     Sortition.CanRestoreRewardEligibility := fun _ => Ok true;
     Sortition.RestoreRewardEligibility := fun _ => Some (Errorf "reverted");
     Sortition.UpdateOperatorStatus := fun _ => None;
     Sortition.JoinSortitionPool := fun _ => None |}.

(** A wallet in the MovingFunds state holding 250000, a maximum transfer of
    100000 and two Live wallets counted by the chain. Of the registered
    wallets, from the newest: one whose data cannot be read, a Live one, the
    source itself, a Closed one, two Live ones. *)
Definition walletHash (b : Byte.byte) : list Byte.byte := repeat b 20.

Definition registered (b : Byte.byte) : MovingFundsTask.NewWalletRegisteredEvent :=
  {| MovingFundsTask.WalletPublicKeyHash := walletHash b |}.

Definition commitmentHash : list Byte.byte := repeat Byte.x77 32.

Definition walletData
  (state : MovingFundsTask.WalletState) (hash : list Byte.byte)
  : MovingFundsTask.WalletChainData :=
  {| MovingFundsTask.State := state;
     MovingFundsTask.PendingRedemptionsValue := 0;
     MovingFundsTask.PendingMovedFundsSweepRequestsCount := 0;
     MovingFundsTask.MovingFundsTargetWalletsCommitmentHash := hash |}.

Definition movingChain (committed : bool) : MovingFundsTask.Chain :=
  {| MovingFundsTask.GetWallet := fun pkh =>
       if bytesEqual pkh walletPKH then
         Ok (walletData MovingFundsTask.StateMovingFunds
               (if committed then commitmentHash
                else MovingFundsTask.zeroHash))
       else if bytesEqual pkh (walletHash Byte.x0b) then
         Ok (walletData MovingFundsTask.StateClosed MovingFundsTask.zeroHash)
       else if bytesEqual pkh (walletHash Byte.x0e) then
         Err (Errorf "rpc down")
       else Ok (walletData MovingFundsTask.StateLive MovingFundsTask.zeroHash);
     MovingFundsTask.GetWalletAtBlock := fun blockHeight _ =>
       Ok (walletData MovingFundsTask.StateMovingFunds
             (if 1003 <=? blockHeight then commitmentHash
              else MovingFundsTask.zeroHash));
     MovingFundsTask.GetWalletParameters := Ok 100000;
     MovingFundsTask.GetMovingFundsParameters := Ok 5000;
     MovingFundsTask.GetLiveWalletsCount := Ok 2;
     MovingFundsTask.PastNewWalletRegisteredEvents :=
       Ok [registered Byte.x0d; registered Byte.x0a; registered Byte.x0b;
           registered Byte.x11; registered Byte.x0c; registered Byte.x0e];
     MovingFundsTask.GetBlockCounter :=
       Ok {| MovingFundsTask.CurrentBlock := Ok 1000;
             MovingFundsTask.WaitForBlockHeight := fun _ => None |};
     MovingFundsTask.PastMovingFundsCommitmentSubmittedEvents := fun _ =>
       Ok [ {| MovingFundsTask.TargetWallets :=
                 [walletHash Byte.x0a; walletHash Byte.x0c] |} ];
     MovingFundsTask.ComputeMovingFundsCommitmentHash := fun _ =>
       commitmentHash;
     MovingFundsTask.GetOperatorID := fun operatorAddress =>
       if String.eqb operatorAddress "0xop1" then Ok 11
       else if String.eqb operatorAddress "0xop2" then Ok 22
       else Err (Errorf "unknown operator");
     MovingFundsTask.ChainSubmitMovingFundsCommitment := fun _ => None |}.

Definition virtualSize (targetWalletsCount : Z) : outcome Z :=
  Ok (68 + 31 * targetWalletsCount).

Definition estimateFee (btcChain : Chain) (transactionSize : Z) : outcome Z :=
  Ok (10 * transactionSize).

Definition validateMovingFundsProposal
  (walletPublicKeyHash : list Byte.byte)
  (mainUTXO : option UnspentTransactionOutput)
  (proposal : MovingFundsTask.MovingFundsProposal)
  (chain : MovingFundsTask.Chain) : option error := None.

Definition movingMainUtxo
  (walletPublicKeyHash : list Byte.byte) (chain : MovingFundsTask.Chain)
  (btcChain : Chain) : outcome (option UnspentTransactionOutput) :=
  Ok (Some (mainUtxo 250000)).

Definition movingRequest : MovingFundsTask.CoordinationProposalRequest :=
  {| MovingFundsTask.RequestWalletPublicKeyHash := walletPKH;
     MovingFundsTask.WalletOperators :=
       ["0xop1"; "0xop2"; "0xop1"; "0xop2"]%string;
     MovingFundsTask.ExecutingOperator := "0xop2"%string |}.

Definition runMovingFunds (committed : bool)
  : MovingFundsTask.run (option MovingFundsTask.MovingFundsProposal) :=
  MovingFundsTask.Run (movingChain committed) btcChain virtualSize estimateFee
    validateMovingFundsProposal movingMainUtxo 7 movingRequest.

(** An operator selected for the second and the fourth seat of a group of
    five. *)
Definition joinChain : DkgJoin.Chain :=
  {| DkgJoin.SelectGroup := fun _ =>
       Ok ["member1"; "operator"; "member3"; "operator"; "member5"]%string;
     DkgJoin.GetConfig :=
       {| Node.GroupSize := 5;
          Node.HonestThreshold := 3;
          Node.ResultPublicationBlockStep := 3 |};
     DkgJoin.OperatorKeyPair := Ok [Byte.x04; Byte.xaa];
     DkgJoin.PublicKeyToAddress := fun _ => Ok "operator"%string;
     DkgJoin.BroadcastChannelFor := fun _ => None;
     DkgJoin.SetFilter := Some (Errorf "filter not set");
     DkgJoin.GetBlockCounter := None |}.

(** Rounds of the SPV control loop: one over the chains whose first sweep
    cannot be proved, one over a Bitcoin chain that lists the second sweep
    alone. *)
Definition laterBtcChain : Chain :=
  {| GetTransaction := GetTransaction spvBtcChain;
     GetTransactionsForPublicKeyHash := fun _ _ => Ok [sweep2];
     checkPublicKeyHashInput := fun _ => None |}.

Definition failingRound (done : bool) : SpvControl.round :=
  {| SpvControl.roundChain := spvChain;
     SpvControl.roundBtcChain := spvBtcChain;
     SpvControl.contextDone := done |}.

Definition provingRound (done : bool) : SpvControl.round :=
  {| SpvControl.roundChain := spvChain;
     SpvControl.roundBtcChain := laterBtcChain;
     SpvControl.contextDone := done |}.

Definition controlLoopOver (rounds : list SpvControl.round)
  : list Transaction * list error * SpvControl.ending :=
  SpvControl.startControlLoop transactionHash AssembleSpvProof
    parseTransactionInputs (Errorf "context canceled") rounds.

(** A sweep whose second input spends an output the funding transaction
    does not have. *)
Definition danglingInput : TransactionInput :=
  {| InputOutpoint := {| TransactionHash := hashOf Byte.xb0; OutputIndex := 3 |};
     SignatureScript := [];
     Witness := [];
     Sequence := 4294967295 |}.

Definition danglingSweep : Transaction :=
  {| Version := 4; Inputs := [input Byte.xa1; danglingInput];
     Outputs := [output 45000]; Locktime := 0 |}.

End Sample.

(* ===================================================================== *)
(** * Properties                                                          *)
(* ===================================================================== *)

(** ** Facts on Go integers *)

Section GoIntFacts.
Import GoInt.

Lemma uint64_range z : is_uint64 (uint64 z).
Proof. unfold is_uint64, uint64. apply Z.mod_pos_bound. lia. Qed.

Lemma uint64_small z : is_uint64 z -> uint64 z = z.
Proof. unfold is_uint64, uint64. intros H. apply Z.mod_small. lia. Qed.

Lemma int64_range z : is_int64 (int64 z).
Proof.
  unfold is_int64, int64.
  pose proof (Z.mod_pos_bound (z + 2 ^ 63) (2 ^ 64)). lia.
Qed.

Lemma int64_small z : is_int64 z -> int64 z = z.
Proof.
  unfold is_int64, int64. intros H.
  rewrite Z.mod_small; lia.
Qed.

(** The wrap-around keeps the value modulo [2^64]. *)
Lemma int64_congr z : (int64 z) mod 2 ^ 64 = z mod 2 ^ 64.
Proof.
  unfold int64.
  rewrite <- (Z.add_opp_r _ (2 ^ 63)).
  rewrite Zplus_mod_idemp_l.
  f_equal. lia.
Qed.

Lemma int64_eq_of_mod x y : x mod 2 ^ 64 = y mod 2 ^ 64 -> int64 x = int64 y.
Proof.
  intros H. unfold int64. f_equal.
  rewrite (Zplus_mod x), H, <- Zplus_mod. reflexivity.
Qed.

Lemma int64_uint64 z : int64 (uint64 z) = int64 z.
Proof. apply int64_eq_of_mod. unfold uint64. apply Zmod_mod. Qed.

Lemma int64_add_l a b : int64 (int64 a + b) = int64 (a + b).
Proof.
  apply int64_eq_of_mod.
  rewrite Zplus_mod, int64_congr, <- Zplus_mod. reflexivity.
Qed.

Lemma int64_add_r a b : int64 (a + int64 b) = int64 (a + b).
Proof.
  apply int64_eq_of_mod.
  rewrite Zplus_mod, int64_congr, <- Zplus_mod. reflexivity.
Qed.

Lemma int64_sub_l a b : int64 (int64 a - b) = int64 (a - b).
Proof.
  apply int64_eq_of_mod.
  rewrite Zminus_mod, int64_congr, <- Zminus_mod. reflexivity.
Qed.

Lemma int64_sub_r a b : int64 (a - int64 b) = int64 (a - b).
Proof.
  apply int64_eq_of_mod.
  rewrite Zminus_mod, int64_congr, <- Zminus_mod. reflexivity.
Qed.

End GoIntFacts.

(** ** Look-back windows *)

(** C10. The SPV maintainer's filter start block is [currentBlock - 40320]
    on [uint64], without a guard: from block 40320 on it is the exact
    difference; below 40320 it wraps to [2^64 - (40320 - currentBlock)], a
    value within 40320 of [2^64] and never [0]. The moving funds look-back
    keeps its start block at [0] on the same blocks (and on every block up
    to its own look-back period). *)
Theorem depositSweepFilterStartBlock_no_lower_bound (currentBlock : Z) :
  GoInt.is_uint64 currentBlock ->
  (40320 <= currentBlock ->
     Spv.depositSweepFilterStartBlock currentBlock = currentBlock - 40320) /\
  (currentBlock < 40320 ->
     Spv.depositSweepFilterStartBlock currentBlock
       = 2 ^ 64 - (40320 - currentBlock) /\
     2 ^ 64 - 40320 <= Spv.depositSweepFilterStartBlock currentBlock < 2 ^ 64 /\
     Spv.depositSweepFilterStartBlock currentBlock <> 0 /\
     MovingFunds.filterStartBlock currentBlock = 0) /\
  (currentBlock <= MovingFunds.MovingFundsCommitmentLookBackBlocks ->
     MovingFunds.filterStartBlock currentBlock = 0) /\
  (MovingFunds.MovingFundsCommitmentLookBackBlocks < currentBlock ->
     MovingFunds.filterStartBlock currentBlock
       = currentBlock - MovingFunds.MovingFundsCommitmentLookBackBlocks).
Proof.
  unfold GoInt.is_uint64, Spv.depositSweepFilterStartBlock,
    MovingFunds.filterStartBlock, MovingFunds.MovingFundsCommitmentLookBackBlocks,
    GoInt.uint64.
  intros Hrange.
  assert (Hwrap : currentBlock < 40320 ->
            (currentBlock - 40320) mod 2 ^ 64 = 2 ^ 64 - (40320 - currentBlock)).
  { intros Hlt.
    replace (currentBlock - 40320)
      with (2 ^ 64 - (40320 - currentBlock) + (-1) * 2 ^ 64) by lia.
    rewrite Z.mod_add by lia. apply Z.mod_small. lia. }
  repeat split.
  - intros Hge. apply Z.mod_small. lia.
  - auto.
  - rewrite Hwrap by assumption. lia.
  - rewrite Hwrap by assumption. lia.
  - rewrite Hwrap by assumption. lia.
  - destruct (216000 <? currentBlock) eqn:E; [apply Z.ltb_lt in E; lia | reflexivity].
  - intros Hle. destruct (216000 <? currentBlock) eqn:E;
      [apply Z.ltb_lt in E; lia | reflexivity].
  - intros Hgt. destruct (216000 <? currentBlock) eqn:E;
      [apply Z.mod_small; lia | apply Z.ltb_ge in E; lia].
Qed.

Lemma depositSweepFilterStartBlock_no_lower_bound_witness :
  GoInt.is_uint64 100 /\
  Spv.depositSweepFilterStartBlock 100 = 2 ^ 64 - (40320 - 100) /\
  MovingFunds.filterStartBlock 100 = 0.
Proof.
  assert (Hr : GoInt.is_uint64 100) by (unfold GoInt.is_uint64; lia).
  split; [exact Hr |].
  destruct (depositSweepFilterStartBlock_no_lower_bound 100 Hr)
    as (_ & Hlow & _).
  destruct Hlow as (Heq & _ & _ & Hmf); [lia |].
  split; [exact Heq | exact Hmf].
Defined.

(** ** Redemption: fee distribution *)

Section FeeDistribution.
Import Redemption.

Lemma sumZ_app l1 l2 : sumZ (l1 ++ l2) = sumZ l1 + sumZ l2.
Proof. induction l1 as [|x l1 IH]; simpl; [reflexivity | rewrite IH; lia]. Qed.

Lemma sumZ_replicate n x : sumZ (replicate n x) = Z.of_nat n * x.
Proof. induction n as [|n IH]; [reflexivity |]. simpl replicate. simpl sumZ. rewrite IH. lia. Qed.

(** Writing [f i] at every index [i < k] of a slice, in order, leaves the
    first [k] cells holding [f 0 .. f (k-1)] and the rest untouched. *)
Lemma fold_left_insert_seq (f : nat -> Z) (k : nat) (l : list Z) :
  (k <= length l)%nat ->
  fold_left (fun s i => <[ i := f i ]> s) (seq 0 k) l
  = map f (seq 0 k) ++ drop k l.
Proof.
  induction k as [|k IH]; intros Hk.
  - simpl. rewrite drop_0. reflexivity.
  - rewrite seq_S, fold_left_app, map_app. simpl.
    rewrite IH by lia.
    destruct (lookup_lt_is_Some_2 l k ltac:(lia)) as [x Hx].
    rewrite (drop_S l x k Hx).
    rewrite insert_app_r_alt by (rewrite length_map, length_seq; lia).
    rewrite length_map, length_seq, Nat.sub_diag. simpl.
    rewrite <- app_assoc. reflexivity.
Qed.

(** The shares [withRedemptionTotalFee] returns, in closed form. *)
Lemma withRedemptionTotalFee_shares (fee : Z) (requests : list RedemptionRequest) :
  requests <> [] ->
  withRedemptionTotalFee fee requests
  = Ok (map (fun i : nat =>
               let remainder := Z.rem fee (Z.of_nat (length requests)) in
               let feePerRequest :=
                 GoInt.int64 (Z.quot (GoInt.int64 (fee - remainder))
                                     (Z.of_nat (length requests))) in
               if Z.of_nat i =? Z.of_nat (length requests) - 1
               then GoInt.int64 (feePerRequest + remainder)
               else feePerRequest)
            (seq 0 (length requests))).
Proof.
  intros Hne. unfold withRedemptionTotalFee.
  destruct (Z.of_nat (length requests) =? 0) eqn:E.
  { apply Z.eqb_eq in E. destruct requests; [congruence | simpl in E; lia]. }
  f_equal. unfold feeShareStep.
  rewrite (fold_left_insert_seq _ (length requests))
    by (rewrite length_replicate; lia).
  rewrite drop_ge by (rewrite length_replicate; lia).
  apply app_nil_r.
Qed.

Lemma map_seq_last_split (a b : Z) (n : nat) :
  map (fun i : nat => if Z.of_nat i =? Z.of_nat (S n) - 1 then b else a)
      (seq 0 (S n))
  = replicate n a ++ [b].
Proof.
  rewrite seq_S, map_app. simpl. f_equal.
  - assert (H : forall k, (k <= n)%nat ->
       map (fun i : nat => if Z.of_nat i =? Z.of_nat (S n) - 1 then b else a)
           (seq 0 k) = replicate k a).
    { induction k as [|k IH]; intros Hk; [reflexivity |].
      rewrite seq_S, map_app, IH by lia. simpl.
      destruct (Z.of_nat k =? Z.of_nat (S n) - 1) eqn:E;
        [apply Z.eqb_eq in E; lia |].
      clear. induction k as [|k IH]; [reflexivity |].
      simpl. rewrite IH. reflexivity. }
    apply H. lia.
  - destruct (Z.of_nat n =? Z.of_nat (S n) - 1) eqn:E;
      [reflexivity | apply Z.eqb_neq in E; lia].
Qed.

(** C2. For [N >= 1] requests and a non-negative total fee (an [int64]),
    [withRedemptionTotalFee] returns [N] shares that add up to the total
    fee; every share but the last is [floor(totalFee / N)] and the last one
    is [floor(totalFee / N) + totalFee mod N]. *)
Theorem withRedemptionTotalFee_conserves_fee
  (fee : Z) (requests : list RedemptionRequest) :
  (1 <= length requests)%nat ->
  0 <= fee < 2 ^ 63 ->
  let N := Z.of_nat (length requests) in
  exists feeShares : list Z,
    withRedemptionTotalFee fee requests = Ok feeShares /\
    length feeShares = length requests /\
    sumZ feeShares = fee /\
    (forall i : nat, (i < length requests - 1)%nat ->
       feeShares !! i = Some (fee / N)) /\
    feeShares !! (length requests - 1)%nat = Some (fee / N + fee mod N).
Proof.
  intros Hlen Hfee N.
  assert (Hne : requests <> []) by (destruct requests; [simpl in Hlen; lia | congruence]).
  rewrite (withRedemptionTotalFee_shares fee requests Hne). cbv zeta.
  fold N.
  assert (HN : 1 <= N) by (unfold N; lia).
  assert (Hrem : Z.rem fee N = fee mod N) by (apply Z.rem_mod_nonneg; lia).
  pose proof (Z.mod_pos_bound fee N ltac:(lia)) as Hmod.
  pose proof (Z.div_mod fee N ltac:(lia)) as Hdm.
  assert (Hdiv0 : 0 <= fee / N) by (apply Z.div_pos; lia).
  assert (Hmul : fee / N <= N * (fee / N)) by nia.
  assert (Hdivle : fee / N <= fee) by lia.
  assert (Hquot : Z.quot (fee - fee mod N) N = fee / N).
  { rewrite Z.quot_div_nonneg by lia.
    replace (fee - fee mod N) with (fee / N * N) by lia.
    apply Z.div_mul. lia. }
  rewrite Hrem.
  rewrite (int64_small (fee - fee mod N)) by (unfold GoInt.is_int64; lia).
  rewrite Hquot.
  rewrite (int64_small (fee / N)) by (unfold GoInt.is_int64; lia).
  rewrite (int64_small (fee / N + fee mod N)) by (unfold GoInt.is_int64; lia).
  destruct (length requests) as [|n] eqn:Hn; [lia |].
  unfold N. rewrite map_seq_last_split.
  eexists. split; [reflexivity |].
  split; [rewrite length_app, length_replicate; simpl; lia |].
  split.
  { rewrite sumZ_app, sumZ_replicate. simpl.
    fold N. unfold N in *. lia. }
  split.
  - intros i Hi. rewrite lookup_app_l by (rewrite length_replicate; lia).
    apply lookup_replicate_2. lia.
  - replace (S n - 1)%nat with n by lia.
    rewrite lookup_app_r by (rewrite length_replicate; lia).
    rewrite length_replicate, Nat.sub_diag. reflexivity.
Qed.

Lemma withRedemptionTotalFee_conserves_fee_witness :
  (1 <= length Sample.fourRequests)%nat /\
  0 <= 1001 < 2 ^ 63 /\
  exists feeShares : list Z,
    withRedemptionTotalFee 1001 Sample.fourRequests = Ok feeShares /\
    sumZ feeShares = 1001 /\
    feeShares !! 0%nat = Some 250 /\
    feeShares !! 3%nat = Some 251.
Proof.
  assert (H1 : (1 <= length Sample.fourRequests)%nat) by (simpl; lia).
  assert (H2 : 0 <= 1001 < 2 ^ 63) by lia.
  split; [exact H1 |]. split; [exact H2 |].
  destruct (withRedemptionTotalFee_conserves_fee 1001 Sample.fourRequests H1 H2)
    as (feeShares & Hrun & _ & Hsum & Hinit & Hlast).
  exists feeShares.
  split; [exact Hrun |]. split; [exact Hsum |].
  split; [apply (Hinit 0%nat); simpl; lia | exact Hlast].
Defined.

End FeeDistribution.

(** ** Redemption: the assembled transaction *)

Section AssembleFacts.
Import Bitcoin Redemption.

Lemma int64_uint64_sub x f :
  GoInt.int64 (GoInt.int64 (GoInt.uint64 x) - f) = GoInt.int64 (x - f).
Proof.
  rewrite int64_sub_l. apply int64_eq_of_mod.
  unfold GoInt.uint64. rewrite Zminus_mod_idemp_l. reflexivity.
Qed.

(** The value the loop writes is the one of [redemptionOutputFor]. *)
Lemma redemptionOutputStep_output feeShares st i request feeShare :
  feeShares !! i = Some feeShare ->
  redemptionOutputStep feeShares st i request
  = Ok {| totalFee := GoInt.int64 (totalFee st + feeShare);
          totalRedemptionOutputsValue :=
            GoInt.int64 (totalRedemptionOutputsValue st
                         + OutputValue (redemptionOutputFor request feeShare));
          outputs := outputs st ++ [redemptionOutputFor request feeShare] |}.
Proof.
  intros Hi. unfold redemptionOutputStep, redemptionOutputFor. rewrite Hi.
  simpl. rewrite int64_uint64_sub. reflexivity.
Qed.

(** The loop runs to its end exactly when there is a fee share for every
    request; it then leaves one output per request, in order, and the two
    running totals. *)
Lemma redemptionOutputsLoop_ok feeShares :
  forall requests i st,
    (i + length requests <= length feeShares)%nat ->
    exists st',
      redemptionOutputsLoop feeShares i requests st = Ok st' /\
      outputs st'
        = outputs st ++ redemptionOutputsFor requests (drop i feeShares) /\
      GoInt.int64 (totalFee st')
        = GoInt.int64 (totalFee st
                       + sumZ (take (length requests) (drop i feeShares))) /\
      GoInt.int64 (totalRedemptionOutputsValue st')
        = GoInt.int64
            (totalRedemptionOutputsValue st
             + sumZ (map OutputValue
                       (redemptionOutputsFor requests (drop i feeShares)))).
Proof.
  induction requests as [|request rest IH]; intros i st Hlen.
  - exists st. simpl. unfold redemptionOutputsFor. simpl.
    rewrite app_nil_r, !Z.add_0_r. auto.
  - simpl in Hlen.
    destruct (lookup_lt_is_Some_2 feeShares i ltac:(lia)) as [feeShare Hi].
    simpl. rewrite (redemptionOutputStep_output _ _ _ _ _ Hi). simpl.
    match goal with
    | |- context [redemptionOutputsLoop _ _ _ ?s] =>
        destruct (IH (S i) s ltac:(lia)) as (st' & Hrun & Hout & Hfee & Hred)
    end.
    rewrite Hrun. exists st'. split; [reflexivity |].
    rewrite (drop_S _ _ _ Hi). unfold redemptionOutputsFor in *. simpl in *.
    split; [rewrite Hout, <- app_assoc; reflexivity |].
    split.
    + rewrite Hfee, int64_add_l. f_equal. lia.
    + rewrite Hred, int64_add_l. f_equal. lia.
Qed.

Lemma redemptionOutputsLoop_shares feeShares :
  forall requests i st st',
    redemptionOutputsLoop feeShares i requests st = Ok st' ->
    requests = [] \/ (i + length requests <= length feeShares)%nat.
Proof.
  induction requests as [|request rest IH]; intros i st st' Hrun; [auto |].
  right. simpl in Hrun.
  destruct (feeShares !! i) as [feeShare|] eqn:Hi.
  - rewrite (redemptionOutputStep_output _ _ _ _ _ Hi) in Hrun. simpl in Hrun.
    apply lookup_lt_Some in Hi.
    destruct (IH _ _ _ Hrun) as [-> | Hle]; simpl; lia.
  - unfold redemptionOutputStep in Hrun. rewrite Hi in Hrun. discriminate.
Qed.

Lemma fold_left_AddOutput outs : forall builder,
  fold_left AddOutput outs builder
  = {| builderChain := builderChain builder;
       builderInputs := builderInputs builder;
       builderOutputs := builderOutputs builder ++ outs |}.
Proof.
  induction outs as [|o outs IH]; intros builder; simpl.
  - rewrite app_nil_r. destruct builder; reflexivity.
  - rewrite IH. simpl. rewrite <- app_assoc. reflexivity.
Qed.

Lemma length_redemptionOutputsFor requests feeShares :
  (length requests <= length feeShares)%nat ->
  length (redemptionOutputsFor requests feeShares) = length requests.
Proof.
  intros H. unfold redemptionOutputsFor. rewrite length_zip_with. lia.
Qed.

End AssembleFacts.

Section AssembleTheorems.
Import Bitcoin Redemption.

Variable PublicKeyHash : PublicKey -> list Byte.byte.
Variable PayToWitnessPublicKeyHash : list Byte.byte -> outcome Script.

Abbreviation assemble :=
  (assembleRedemptionTransaction PublicKeyHash PayToWitnessPublicKeyHash).
Abbreviation changeStep :=
  (withChangeOutput PublicKeyHash PayToWitnessPublicKeyHash).

Lemma mod_of_int64_eq a b :
  GoInt.int64 a = GoInt.int64 b -> a mod 2 ^ 64 = b mod 2 ^ 64.
Proof.
  intros H. rewrite <- (int64_congr a), <- (int64_congr b), H. reflexivity.
Qed.

Lemma int64_change v B C r f :
  GoInt.int64 B = GoInt.int64 r ->
  GoInt.int64 C = GoInt.int64 f ->
  GoInt.int64 (GoInt.int64 (GoInt.int64 v - B) - C) = GoInt.int64 (v - r - f).
Proof.
  intros HB HC. apply mod_of_int64_eq in HB. apply mod_of_int64_eq in HC.
  rewrite int64_sub_l. apply int64_eq_of_mod.
  rewrite (Zminus_mod (GoInt.int64 v - B) C), HC.
  rewrite (Zminus_mod (GoInt.int64 v) B), HB, int64_congr.
  rewrite <- (Zminus_mod v r), <- Zminus_mod. reflexivity.
Qed.

(** [assembleRedemptionTransaction] past its guards: the main UTXO as the
    only input, and the redemption outputs handed to the change step. *)
Lemma assemble_run chain key utxo requests feeDistribution shape feeShares :
  requests <> [] ->
  checkPublicKeyHashInput chain utxo = None ->
  feeDistribution requests = Ok feeShares ->
  (length requests <= length feeShares)%nat ->
  assemble chain key (Some utxo) requests feeDistribution shape
  = (outs <- changeStep key (resolveShape shape)
               (changeValueFor utxo requests feeShares)
               (redemptionOutputsFor requests feeShares) ;;
     Ok {| builderChain := chain;
           builderInputs := [utxo];
           builderOutputs := outs |}).
Proof.
  intros Hne Hacc Hfd Hlen. unfold assembleRedemptionTransaction.
  destruct (length requests <? 1)%nat eqn:E.
  { apply Nat.ltb_lt in E. destruct requests; [congruence | simpl in E; lia]. }
  unfold AddPublicKeyHashInput, NewTransactionBuilder. simpl.
  rewrite Hacc. simpl. rewrite Hfd. simpl.
  match goal with
  | |- context [redemptionOutputsLoop _ _ _ ?s] =>
      destruct (redemptionOutputsLoop_ok feeShares requests 0%nat s
                  ltac:(simpl; lia)) as (st' & Hrun & Hout & Hfee & Hred)
  end.
  rewrite Hrun. rewrite drop_0 in *. cbn [bind].
  cbn [totalFee totalRedemptionOutputsValue outputs] in Hout, Hfee, Hred.
  rewrite app_nil_l in Hout. rewrite Z.add_0_l in Hfee, Hred.
  unfold TotalInputsValue. cbn [builderInputs app fold_left].
  rewrite Z.add_0_l.
  rewrite (int64_change (Value utxo) _ _ _ _ Hred Hfee). rewrite Hout.
  fold (changeValueFor utxo requests feeShares).
  destruct (changeStep key (resolveShape shape)
              (changeValueFor utxo requests feeShares)
              (redemptionOutputsFor requests feeShares)) as [outs| |];
    cbn [bind]; try reflexivity.
  rewrite fold_left_AddOutput. reflexivity.
Qed.

Lemma assemble_inv chain key utxo requests feeDistribution shape builder :
  assemble chain key (Some utxo) requests feeDistribution shape = Ok builder ->
  requests <> [] /\
  checkPublicKeyHashInput chain utxo = None /\
  exists feeShares,
    feeDistribution requests = Ok feeShares /\
    (length requests <= length feeShares)%nat.
Proof.
  unfold assembleRedemptionTransaction. intros Hrun.
  destruct (length requests <? 1)%nat eqn:E; [discriminate |].
  apply Nat.ltb_ge in E.
  split; [intros ->; simpl in E; lia |].
  unfold AddPublicKeyHashInput, NewTransactionBuilder in Hrun.
  cbn [builderChain builderInputs builderOutputs] in Hrun.
  destruct (checkPublicKeyHashInput chain utxo); [discriminate |].
  split; [reflexivity |].
  cbn [wrap_err bind] in Hrun.
  destruct (feeDistribution requests) as [feeShares| |]; try discriminate.
  exists feeShares. split; [reflexivity |].
  cbn [bind] in Hrun.
  match type of Hrun with
  | context [redemptionOutputsLoop ?fs ?i ?rs ?s] =>
      destruct (redemptionOutputsLoop fs i rs s) as [st'| |] eqn:Hloop;
        try discriminate
  end.
  destruct (redemptionOutputsLoop_shares _ _ _ _ _ Hloop) as [-> | Hle];
    simpl in *; lia.
Qed.

(** C3. With no main UTXO, or with no request, the assembly returns an
    error. For a non-empty request list (the builder accepting the main
    UTXO, the fee distribution giving a share per request, the change
    script computable and the shape one of the two named ones) it returns a
    builder whose only input is the main UTXO and whose outputs are, in the
    order of the requests, one output per request paying its
    [RedeemerOutputScript] the value
    [RequestedAmount - TreasuryFee - FeeShare[i]] (as the [int64] of the
    output's value field, so exactly that integer whenever it fits), with at
    most one more output before or after them. *)
Theorem assembleRedemptionTransaction_redemption_outputs
  chain key requests feeDistribution shape :
  assemble chain key None requests feeDistribution shape
    = Err (Errorf "wallet main UTXO is required") /\
  (forall walletMainUtxo,
     is_err (assemble chain key walletMainUtxo [] feeDistribution shape)
     = true) /\
  (forall utxo feeShares,
     requests <> [] ->
     checkPublicKeyHashInput chain utxo = None ->
     feeDistribution requests = Ok feeShares ->
     (length requests <= length feeShares)%nat ->
     is_ok (PayToWitnessPublicKeyHash (PublicKeyHash key)) = true ->
     resolveShape shape = RedemptionChangeFirst
       \/ resolveShape shape = RedemptionChangeLast ->
     exists builder before after,
       assemble chain key (Some utxo) requests feeDistribution shape
         = Ok builder /\
       builderInputs builder = [utxo] /\
       builderOutputs builder
         = before ++ redemptionOutputsFor requests feeShares ++ after /\
       (length before + length after <= 1)%nat /\
       length (redemptionOutputsFor requests feeShares) = length requests /\
       forall (i : nat) request,
         requests !! i = Some request ->
         exists feeShare output,
           feeShares !! i = Some feeShare /\
           redemptionOutputsFor requests feeShares !! i = Some output /\
           PublicKeyScript output = RedeemerOutputScript request /\
           OutputValue output
             = GoInt.int64
                 (RequestedAmount request - TreasuryFee request - feeShare) /\
           (GoInt.is_int64
              (RequestedAmount request - TreasuryFee request - feeShare) ->
            OutputValue output
              = RequestedAmount request - TreasuryFee request - feeShare)).
Proof.
  split; [reflexivity |].
  split; [intros [utxo|]; reflexivity |].
  intros utxo feeShares Hne Hacc Hfd Hlen Hscript Hshape.
  rewrite (assemble_run _ _ _ _ _ _ _ Hne Hacc Hfd Hlen).
  assert (Hrest :
    length (redemptionOutputsFor requests feeShares) = length requests /\
    forall (i : nat) request,
      requests !! i = Some request ->
      exists feeShare output,
        feeShares !! i = Some feeShare /\
        redemptionOutputsFor requests feeShares !! i = Some output /\
        PublicKeyScript output = RedeemerOutputScript request /\
        OutputValue output
          = GoInt.int64
              (RequestedAmount request - TreasuryFee request - feeShare) /\
        (GoInt.is_int64
           (RequestedAmount request - TreasuryFee request - feeShare) ->
         OutputValue output
           = RequestedAmount request - TreasuryFee request - feeShare)).
  { split; [apply length_redemptionOutputsFor; assumption |].
    intros i request Hi.
    destruct (lookup_lt_is_Some_2 feeShares i) as [feeShare Hf].
    { apply lookup_lt_Some in Hi. lia. }
    exists feeShare, (redemptionOutputFor request feeShare).
    split; [assumption |].
    split.
    { unfold redemptionOutputsFor. rewrite lookup_zip_with, Hi. simpl.
      rewrite Hf. reflexivity. }
    split; [reflexivity |]. split; [reflexivity |].
    intros Hfit. simpl. apply int64_small. assumption. }
  unfold withChangeOutput.
  destruct (0 <? changeValueFor utxo requests feeShares).
  - destruct (PayToWitnessPublicKeyHash (PublicKeyHash key))
      as [script| |]; try discriminate.
    cbn [wrap_err bind].
    destruct Hshape as [-> | ->]; cbn [Z.eqb RedemptionChangeFirst
      RedemptionChangeLast Pos.eqb bind].
    + eexists _, [_], []. split; [reflexivity |].
      split; [reflexivity |]. split; [rewrite app_nil_r; reflexivity |].
      split; [simpl; lia | exact Hrest].
    + eexists _, [], [_]. split; [reflexivity |].
      split; [reflexivity |]. split; [reflexivity |].
      split; [simpl; lia | exact Hrest].
  - eexists _, [], []. cbn [bind]. split; [reflexivity |].
    split; [reflexivity |]. split; [rewrite app_nil_r; reflexivity |].
    split; [simpl; lia | exact Hrest].
Qed.

(** C4. In a transaction [assembleRedemptionTransaction] built, with the
    change value the [int64] of total input value minus total redemption
    output value minus total fee: a change output (of that value, locked to
    the P2WPKH script of the wallet public key) is among the outputs exactly
    when the change value is strictly positive; it is then the first output
    under [RedemptionChangeFirst], followed by the redemption outputs, and
    the last one under [RedemptionChangeLast], after them. Without it the
    outputs are the redemption outputs alone. *)
Theorem assembleRedemptionTransaction_change_output
  chain key utxo requests feeDistribution shape builder :
  assemble chain key (Some utxo) requests feeDistribution shape = Ok builder ->
  exists feeShares,
    feeDistribution requests = Ok feeShares /\
    let redemptionOutputs := redemptionOutputsFor requests feeShares in
    let changeValue := changeValueFor utxo requests feeShares in
    length redemptionOutputs = length requests /\
    (0 < changeValue <->
     length (builderOutputs builder) = S (length requests)) /\
    (changeValue <= 0 <-> builderOutputs builder = redemptionOutputs) /\
    (0 < changeValue ->
     exists changeOutputScript,
       PayToWitnessPublicKeyHash (PublicKeyHash key) = Ok changeOutputScript /\
       let changeOutput :=
         {| OutputValue := changeValue;
            PublicKeyScript := changeOutputScript |} in
       (resolveShape shape = RedemptionChangeFirst ->
        builderOutputs builder = changeOutput :: redemptionOutputs /\
        builderOutputs builder !! 0%nat = Some changeOutput) /\
       (resolveShape shape = RedemptionChangeLast ->
        builderOutputs builder = redemptionOutputs ++ [changeOutput] /\
        last (builderOutputs builder) = Some changeOutput)).
Proof.
  intros Hrun.
  destruct (assemble_inv _ _ _ _ _ _ _ Hrun)
    as (Hne & Hacc & feeShares & Hfd & Hlen).
  exists feeShares. split; [assumption |]. cbv zeta.
  rewrite (assemble_run _ _ _ _ _ _ _ Hne Hacc Hfd Hlen) in Hrun.
  pose proof (length_redemptionOutputsFor _ _ Hlen) as Hlo.
  split; [assumption |].
  unfold withChangeOutput in Hrun.
  destruct (0 <? changeValueFor utxo requests feeShares) eqn:Hpos.
  - apply Z.ltb_lt in Hpos.
    destruct (PayToWitnessPublicKeyHash (PublicKeyHash key))
      as [script| |]; try discriminate.
    cbn [wrap_err bind] in Hrun.
    destruct (resolveShape shape =? RedemptionChangeFirst) eqn:Efirst.
    + apply Z.eqb_eq in Efirst. cbn [bind] in Hrun.
      injection Hrun as <-. cbn [builderOutputs].
      split; [split; [intros _; simpl; lia | intros _; assumption] |].
      split.
      { split; [lia |]. intros Heq. apply (f_equal length) in Heq.
        simpl in Heq. lia. }
      intros _. exists script. split; [reflexivity |]. cbv zeta.
      split; [intros _; split; reflexivity |].
      intros Hlast. rewrite Efirst in Hlast. discriminate.
    + destruct (resolveShape shape =? RedemptionChangeLast) eqn:Elast;
        [| discriminate].
      apply Z.eqb_eq in Elast. apply Z.eqb_neq in Efirst. cbn [bind] in Hrun.
      injection Hrun as <-. cbn [builderOutputs].
      split.
      { split; [intros _; rewrite length_app; simpl; lia
               | intros _; assumption]. }
      split.
      { split; [lia |]. intros Heq. apply (f_equal length) in Heq.
        rewrite length_app in Heq. simpl in Heq. lia. }
      intros _. exists script. split; [reflexivity |]. cbv zeta.
      split; [intros Hfirst; contradiction |].
      intros _. split; [reflexivity | apply last_snoc].
  - apply Z.ltb_ge in Hpos. cbn [bind] in Hrun.
    injection Hrun as <-. cbn [builderOutputs].
    split; [split; [lia | intros Heq; lia] |].
    split; [split; [reflexivity | lia] |].
    intros Hgt. lia.
Qed.

End AssembleTheorems.

Section AssembleWitnesses.
Import Bitcoin Redemption.

Abbreviation sampleAssemble :=
  (assembleRedemptionTransaction
     Sample.publicKeyHash Sample.payToWitnessPublicKeyHash).

Lemma assembleRedemptionTransaction_redemption_outputs_witness :
  exists builder,
    sampleAssemble Sample.btcChain Sample.walletPublicKey
      (Some (Sample.mainUtxo 20000000)) Sample.fourRequests
      (withRedemptionTotalFee 1001) [] = Ok builder /\
    builderInputs builder = [Sample.mainUtxo 20000000] /\
    exists output,
      redemptionOutputsFor Sample.fourRequests [250; 250; 250; 251] !! 0%nat
        = Some output /\
      OutputValue output = 998750.
Proof.
  destruct (assembleRedemptionTransaction_redemption_outputs
              Sample.publicKeyHash Sample.payToWitnessPublicKeyHash
              Sample.btcChain Sample.walletPublicKey Sample.fourRequests
              (withRedemptionTotalFee 1001) [])
    as (_ & _ & Hbuild).
  destruct (Hbuild (Sample.mainUtxo 20000000) [250; 250; 250; 251])
    as (builder & before & after & Hrun & Hin & _ & _ & _ & Hout).
  - discriminate.
  - reflexivity.
  - vm_compute. reflexivity.
  - simpl. lia.
  - reflexivity.
  - left. reflexivity.
  - exists builder. split; [exact Hrun |]. split; [exact Hin |].
    destruct (Hout 0%nat (Sample.request 1000000 1000 [Byte.x01]) eq_refl)
      as (feeShare & output & Hshare & Hlookup & _ & _ & Hexact).
    exists output. split; [exact Hlookup |].
    injection Hshare as <-. apply Hexact.
    unfold GoInt.is_int64. simpl. lia.
Defined.

Lemma assembleRedemptionTransaction_change_output_witness :
  exists builder changeOutput,
    sampleAssemble Sample.btcChain Sample.walletPublicKey
      (Some (Sample.mainUtxo 20000000)) Sample.fourRequests
      (withRedemptionTotalFee 1001) [RedemptionChangeLast] = Ok builder /\
    last (builderOutputs builder) = Some changeOutput /\
    OutputValue changeOutput = 10010000.
Proof.
  destruct (sampleAssemble Sample.btcChain Sample.walletPublicKey
              (Some (Sample.mainUtxo 20000000)) Sample.fourRequests
              (withRedemptionTotalFee 1001) [RedemptionChangeLast])
    as [builder| |] eqn:Hrun; [| vm_compute in Hrun; discriminate ..].
  destruct (assembleRedemptionTransaction_change_output _ _ _ _ _ _ _ _ _ Hrun)
    as (feeShares & Hfd & _ & _ & _ & Hchange).
  assert (Hshares : feeShares = [250; 250; 250; 251]).
  { vm_compute in Hfd. injection Hfd as <-. reflexivity. }
  subst feeShares.
  destruct Hchange as (script & _ & _ & Hlast); [vm_compute; reflexivity |].
  destruct (Hlast eq_refl) as [_ Hl].
  exists builder. eexists. split; [reflexivity |].
  split; [exact Hl | vm_compute; reflexivity].
Defined.

End AssembleWitnesses.

(** ** SPV maintainer: the deposit sweep filter *)

Section SweepFilter.
Import Spv.

Variable chain : Chain.
Variable btcChain : Bitcoin.Chain.
Variable walletPublicKeyHash : list Byte.byte.

Abbreviation revealed := (isRevealedDeposit chain).
Abbreviation unswept := (isUnsweptDeposit chain).
Abbreviation swept := (isSweptDeposit chain).
Abbreviation mainUtxo := (isCurrentMainUtxo chain btcChain walletPublicKeyHash).

(** A revealed deposit is swept or unswept, never both, and is not looked
    up as the main UTXO. *)
Lemma input_kinds input :
  revealed input = unswept input || swept input /\
  (unswept input = true -> swept input = false) /\
  (mainUtxo input = true -> revealed input = false).
Proof.
  unfold isRevealedDeposit, isUnsweptDeposit, isSweptDeposit,
    isCurrentMainUtxo.
  destruct (depositOf chain input) as [deposit| |]; [| auto ..].
  destruct (RevealedAt deposit =? 0), (SweptAt deposit =? 0); simpl; auto.
  all: split; [reflexivity |]; split; [auto | discriminate].
Qed.

(** The loop over the inputs answers [true] exactly when every input is an
    unswept deposit or the main UTXO and a deposit has been seen, before the
    loop or in it. *)
Lemma depositInputsLoop_true inputs : forall hasDepositInputs,
  depositInputsLoop chain btcChain walletPublicKeyHash inputs hasDepositInputs
    = Ok true
  <->
  Forall (fun input => unswept input = true \/ mainUtxo input = true) inputs /\
  (hasDepositInputs = true \/ Exists (fun input => unswept input = true) inputs).
Proof.
  induction inputs as [|input rest IH]; intros acc.
  - simpl. split.
    + intros H. injection H as ->. split; [constructor | left; reflexivity].
    + intros [_ [-> | H]]; [reflexivity | inversion H].
  - cbn [depositInputsLoop].
    rewrite Forall_cons_iff, Exists_cons.
    unfold isUnsweptDeposit, isCurrentMainUtxo, depositOf in *.
    destruct (Deposits chain _ _) as [deposit| |]; cbn [wrap_err bind].
    2,3: split; [discriminate | intros [[[H | H] _] _]; discriminate].
    destruct (RevealedAt deposit =? 0); cbn [negb andb].
    + destruct (isInputCurrentWalletsMainUTXO chain btcChain _ _ _)
        as [[|]| |]; cbn [negb].
      * rewrite IH. split.
        -- intros [Hall Hex]. split; [split; [right; reflexivity | exact Hall] |].
           destruct Hex as [-> | Hex]; [left; reflexivity | right; right; exact Hex].
        -- intros [[_ Hall] Hex]. split; [exact Hall |].
           destruct Hex as [-> | [Hex | Hex]];
             [left; reflexivity | discriminate | right; exact Hex].
      * split; [discriminate | intros [[[H | H] _] _]; discriminate].
      * split; [discriminate | intros [[[H | H] _] _]; discriminate].
      * split; [discriminate | intros [[[H | H] _] _]; discriminate].
    + destruct (SweptAt deposit =? 0); cbn [negb andb].
      * rewrite IH. split.
        -- intros [Hall _]. split; [split; [left; reflexivity | exact Hall] |].
           right; left; reflexivity.
        -- intros [[_ Hall] _]. split; [exact Hall | left; reflexivity].
      * split; [discriminate | intros [[[H | H] _] _]; discriminate].
Qed.


End SweepFilter.


(** ** SPV maintainer: proving a batch *)

Section SweepProofs.
Import Spv.

Variable chain : Chain.
Variable btcChain : Bitcoin.Chain.
Variable transactionHash : Bitcoin.Transaction -> Bitcoin.Hash.
Variable AssembleSpvProof :
  Bitcoin.Hash -> Z -> Bitcoin.Chain -> outcome (Bitcoin.Transaction * SpvProof).
Variable parseTransactionInputs :
  Bitcoin.Chain -> Chain -> Bitcoin.Transaction ->
  outcome (Bitcoin.UnspentTransactionOutput * string).

Abbreviation step :=
  (proveStep chain btcChain transactionHash AssembleSpvProof
     parseTransactionInputs).
Abbreviation loop :=
  (proveLoop chain btcChain transactionHash AssembleSpvProof
     parseTransactionInputs).
Abbreviation prove :=
  (proveDepositSweepTransactions chain btcChain transactionHash
     AssembleSpvProof parseTransactionInputs).

(** Transactions that go through are submitted one after the other. *)
Lemma proveLoop_through requiredConfirmations before :
  forall rest submitted,
    Forall (fun transaction => step requiredConfirmations transaction = Ok tt)
           before ->
    loop requiredConfirmations (before ++ rest) submitted
    = loop requiredConfirmations rest (submitted ++ before).
Proof.
  induction before as [|transaction before IH]; intros rest submitted Hall.
  - simpl. rewrite app_nil_r. reflexivity.
  - inversion Hall as [|? ? Hok Hall']; subst.
    cbn [app proveLoop]. rewrite Hok, IH by assumption.
    rewrite <- app_assoc. reflexivity.
Qed.

(** C8, as the code has it. A failure while proving or submitting one
    transaction of the batch ends the processing of the batch:
    [proveDepositSweepTransactions] returns that error at once, with the
    proofs of the transactions before the failing one submitted and none of
    the transactions after it processed. Only a batch without a failure is
    processed to its end. *)
Theorem proveDepositSweepTransactions_stops_at_first_failure
  batch requiredConfirmations :
  getUnprovenDepositSweepTransactions chain btcChain = Ok batch ->
  TxProofDifficultyFactor chain = Ok requiredConfirmations ->
  (forall before failing after e,
     batch = before ++ failing :: after ->
     Forall (fun transaction => step requiredConfirmations transaction = Ok tt)
            before ->
     step requiredConfirmations failing = Err e ->
     prove = (before, Err e)) /\
  (Forall (fun transaction => step requiredConfirmations transaction = Ok tt)
          batch ->
   prove = (batch, Ok tt)).
Proof.
  intros Hbatch Hfactor. unfold proveDepositSweepTransactions.
  rewrite Hbatch, Hfactor. split.
  - intros before failing after e -> Hbefore Hfail.
    rewrite proveLoop_through by assumption.
    cbn [proveLoop app]. rewrite Hfail. reflexivity.
  - intros Hall. rewrite <- (app_nil_r batch) at 1.
    rewrite proveLoop_through by assumption. reflexivity.
Qed.

End SweepProofs.

Lemma proveDepositSweepTransactions_stops_at_first_failure_witness :
  Spv.proveDepositSweepTransactions Sample.spvChain Sample.spvBtcChain
    Sample.transactionHash Sample.AssembleSpvProof Sample.parseTransactionInputs
  = ([],
     Err (Wrapf "failed to assemble SPV proof: [%v]"
            (Errorf "not enough confirmations"))).
Proof.
  assert (Hbatch :
    Spv.getUnprovenDepositSweepTransactions Sample.spvChain Sample.spvBtcChain
    = Ok [Sample.sweep1; Sample.sweep2]) by (vm_compute; reflexivity).
  assert (Hfactor : Spv.TxProofDifficultyFactor Sample.spvChain = Ok 6)
    by reflexivity.
  destruct (proveDepositSweepTransactions_stops_at_first_failure
              Sample.spvChain Sample.spvBtcChain Sample.transactionHash
              Sample.AssembleSpvProof Sample.parseTransactionInputs
              _ _ Hbatch Hfactor) as [Hstop _].
  apply (Hstop [] Sample.sweep1 [Sample.sweep2]).
  - reflexivity.
  - constructor.
  - vm_compute. reflexivity.
Defined.

(** C8, as the specification states it, fails: in the batch
    [sweep1; sweep2], where the proof of [sweep1] cannot be assembled, the
    proof of [sweep2] could be assembled and submitted, and it is not. *)
Lemma proveDepositSweepTransactions_continues_counterexample :
  ~ Spv.continuesAfterFailure.
Proof.
  intros Hclaim.
  specialize (Hclaim Sample.spvChain Sample.spvBtcChain Sample.transactionHash
                Sample.AssembleSpvProof Sample.parseTransactionInputs
                [Sample.sweep1; Sample.sweep2] 6 Sample.sweep2).
  assert (Hin : In Sample.sweep2
                  (fst (Spv.proveDepositSweepTransactions Sample.spvChain
                          Sample.spvBtcChain Sample.transactionHash
                          Sample.AssembleSpvProof
                          Sample.parseTransactionInputs))).
  { apply Hclaim.
    - vm_compute. reflexivity.
    - reflexivity.
    - right. left. reflexivity.
    - vm_compute. reflexivity. }
  vm_compute in Hin. exact Hin.
Qed.

(** ** Node: the fate of a member whose publication failed *)

Section MemberFate.
Import Waiting Tbtc Node.

Variable chain : Chain.
Variable PrePublicationBlocks : Z.

Lemma elem_of_misbehaved_fold (l : list Z) : forall (acc : gset Z) (x : Z),
  x ∈ fold_left (fun (s : gset Z) (y : Z) => {[ y ]} ∪ s) l acc
  <-> x ∈ l \/ x ∈ acc.
Proof.
  induction l as [|y l IH]; intros acc x; simpl.
  - rewrite elem_of_nil. tauto.
  - rewrite IH, elem_of_cons, elem_of_union, elem_of_singleton. tauto.
Qed.

(** The set built from the event holds the misbehaved indexes, no more. *)
Lemma elem_of_misbehavedSetOf event (x : Z) :
  x ∈ misbehavedSetOf event <-> x ∈ Misbehaved event.
Proof.
  unfold misbehavedSetOf. rewrite elem_of_misbehaved_fold.
  rewrite elem_of_empty. tauto.
Qed.

Lemma operatingMembersLoop_filter (misbehaved : list Z) (s : gset Z) :
  (forall x, x ∈ s <-> x ∈ misbehaved) ->
  forall (memberIDs acc : list Z),
    fold_left
      (fun operatingMemberIndexes memberID =>
         if bool_decide (memberID ∈ s) then operatingMemberIndexes
         else operatingMemberIndexes ++ [memberID])
      memberIDs acc
    = acc ++ filter (fun id => id ∉ misbehaved) memberIDs.
Proof.
  intros Hs. induction memberIDs as [|id rest IH]; intros acc; simpl.
  - rewrite app_nil_r. reflexivity.
  - rewrite IH. rewrite filter_cons.
    destruct (decide (id ∉ misbehaved)) as [Hout | Hin].
    + rewrite bool_decide_eq_false_2 by (rewrite Hs; exact Hout).
      rewrite <- app_assoc. reflexivity.
    + rewrite bool_decide_eq_true_2; [reflexivity |].
      rewrite Hs. destruct (decide (id ∈ misbehaved)); [assumption | contradiction].
Qed.

(** The loop writes, from cell [i] on, the operator of each index. *)
Lemma signingGroupOperatorsLoop_ok (selectedOperators : list string) :
  forall (ids : list Z) (i : nat) (signing : list string),
    Forall (fun id =>
              (Z.to_nat (GoInt.uint8 (id - 1)) < length selectedOperators)%nat)
           ids ->
    (i + length ids <= length signing)%nat ->
    exists ops,
      signingGroupOperatorsLoop selectedOperators i ids signing
        = Ok (take i signing ++ ops ++ drop (i + length ids) signing) /\
      Forall2 (fun id op =>
                 selectedOperators !! Z.to_nat (GoInt.uint8 (id - 1)) = Some op)
              ids ops.
Proof.
  induction ids as [|id rest IH]; intros i signing Hall Hlen.
  - exists []. simpl. rewrite Nat.add_0_r, take_drop. split; [reflexivity | constructor].
  - inversion Hall as [|? ? Hid Hrest]; subst. simpl in Hlen.
    destruct (lookup_lt_is_Some_2 _ _ Hid) as [op Hop].
    cbn [signingGroupOperatorsLoop]. rewrite Hop.
    destruct (IH (S i) (<[ i := op ]> signing) Hrest) as (ops & Hrun & Hops).
    { rewrite length_insert. lia. }
    exists (op :: ops). rewrite Hrun. split; [| constructor; assumption].
    f_equal.
    rewrite (take_S_r _ _ op) by (apply list_lookup_insert_eq; lia).
    rewrite take_insert_ge by lia.
    rewrite drop_insert_lt by lia.
    rewrite <- app_assoc. simpl.
    replace (i + S (length rest))%nat with (S (i + length rest)) by lia.
    reflexivity.
Qed.

(** C5. With the event [E] observed and the local result's group public key
    at hand, the decision returns an error when that key differs from the
    one of [E] or when the member's own index is among [E]'s misbehaved
    ones; otherwise it returns the member indexes of
    [result.Group.MemberIDs()] without the misbehaved ones, in their order.
    The final signing group operators (for the selected operators of the
    whole group, enough operating members and indexes within the group) are
    [selectedOperators[i-1]] for the indexes [i] put in ascending order. *)
Theorem decideSigningGroupMemberFate_spec
  timeline memberIndex publicationStartBlock result event localKey :
  waitForDkgResultEvent chain PrePublicationBlocks timeline publicationStartBlock
    = Returned (Ok event) ->
  ResultGroupPublicKeyBytes result = Ok localKey ->
  let decision :=
    decideSigningGroupMemberFate chain PrePublicationBlocks timeline
      memberIndex publicationStartBlock result in
  (localKey <> GroupPublicKeyBytes event ->
   exists e, decision = Returned (Err e)) /\
  (memberIndex ∈ Misbehaved event ->
   exists e, decision = Returned (Err e)) /\
  (localKey = GroupPublicKeyBytes event ->
   memberIndex ∉ Misbehaved event ->
   decision
   = Returned (Ok (filter (fun id => id ∉ Misbehaved event)
                          (MemberIDs result)))) /\
  (forall selectedOperators operatingMemberIndexes,
     Z.of_nat (length selectedOperators) = GroupSize (GetConfig chain) ->
     HonestThreshold (GetConfig chain)
       <= Z.of_nat (length operatingMemberIndexes) ->
     Forall (fun i => 1 <= i <= GroupSize (GetConfig chain) /\ i < 2 ^ 8)
            operatingMemberIndexes ->
     exists signingGroupOperators,
       resolveFinalSigningGroupOperators chain
         selectedOperators operatingMemberIndexes
         = Ok signingGroupOperators /\
       Forall2 (fun i operator =>
                  selectedOperators !! Z.to_nat (i - 1) = Some operator)
               (sortIndexes operatingMemberIndexes) signingGroupOperators /\
       Sorted Z.le (sortIndexes operatingMemberIndexes) /\
       sortIndexes operatingMemberIndexes ≡ₚ operatingMemberIndexes).
Proof.
  intros Hwait Hkey decision. subst decision.
  unfold decideSigningGroupMemberFate. rewrite Hwait, Hkey. cbn [bind].
  unfold bytesEqual.
  split; [| split; [| split]].
  - intros Hne. rewrite bool_decide_eq_false_2 by exact Hne.
    cbn [negb]. eexists. reflexivity.
  - intros Hmis.
    destruct (bool_decide (localKey = GroupPublicKeyBytes event));
      cbn [negb]; [| eexists; reflexivity].
    rewrite bool_decide_eq_true_2
      by (apply elem_of_misbehavedSetOf; exact Hmis).
    eexists. reflexivity.
  - intros Heq Hnot. rewrite bool_decide_eq_true_2 by exact Heq. cbn [negb].
    rewrite bool_decide_eq_false_2
      by (rewrite elem_of_misbehavedSetOf; exact Hnot).
    unfold operatingMembersLoop.
    rewrite (operatingMembersLoop_filter (Misbehaved event))
      by (apply elem_of_misbehavedSetOf).
    reflexivity.
  - intros selected operating Hsel Hthr Hrange.
    unfold resolveFinalSigningGroupOperators.
    rewrite (proj2 (Z.eqb_eq _ _) Hsel), (proj2 (Z.ltb_ge _ _) Hthr).
    cbn [negb orb].
    pose proof (merge_sort_Permutation Z.le operating) as Hperm.
    fold (sortIndexes operating) in Hperm.
    assert (Hsorted : Forall (fun i => 1 <= i <= GroupSize (GetConfig chain)
                                       /\ i < 2 ^ 8)
                             (sortIndexes operating)).
    { rewrite Forall_forall in *. intros i Hi. apply Hrange.
      rewrite <- Hperm. exact Hi. }
    assert (Hidx : forall i, 1 <= i <= GroupSize (GetConfig chain) /\ i < 2 ^ 8 ->
                   GoInt.uint8 (i - 1) = i - 1).
    { intros i Hi. unfold GoInt.uint8. apply Z.mod_small. lia. }
    destruct (signingGroupOperatorsLoop_ok selected (sortIndexes operating) 0%nat
                (replicate (length (sortIndexes operating)) EmptyString))
      as (ops & Hrun & Hops).
    { eapply Forall_impl; [exact Hsorted |]. intros i Hi. cbv beta in *.
      rewrite (Hidx i Hi). lia. }
    { rewrite length_replicate. lia. }
    exists ops. split.
    { rewrite Hrun. f_equal. rewrite take_0. simpl.
      rewrite drop_ge by (rewrite length_replicate; lia).
      apply app_nil_r. }
    split.
    { clear Hrun Hperm. revert Hsorted.
      induction Hops as [|i op ids ops' Hi Hrest IH]; intros Hsorted;
        [constructor |].
      inversion Hsorted as [|? ? Hhead Htail]; subst.
      constructor; [rewrite <- (Hidx i Hhead); exact Hi | apply IH; exact Htail]. }
    split; [apply Sorted_merge_sort; apply _ | exact Hperm].
Qed.

End MemberFate.

Lemma decideSigningGroupMemberFate_spec_witness :
  Node.decideSigningGroupMemberFate Sample.nodeChain 5
    [Sample.quiet 205; Sample.eventAt 210] 3 200 Sample.dkgResult
  = Waiting.Returned (Ok [1; 3; 4; 5]) /\
  exists signingGroupOperators,
    Node.resolveFinalSigningGroupOperators Sample.nodeChain
      Sample.selectedOperators [5; 1; 3] = Ok signingGroupOperators /\
    Forall2 (fun i operator =>
               Sample.selectedOperators !! Z.to_nat (i - 1) = Some operator)
            (Node.sortIndexes [5; 1; 3]) signingGroupOperators.
Proof.
  assert (Hwait :
    Node.waitForDkgResultEvent Sample.nodeChain 5
      [Sample.quiet 205; Sample.eventAt 210] 200
    = Waiting.Returned (Ok Sample.submittedEvent)) by (vm_compute; reflexivity).
  assert (Hkey : Node.ResultGroupPublicKeyBytes Sample.dkgResult
                 = Ok Sample.groupKey) by reflexivity.
  destruct (decideSigningGroupMemberFate_spec Sample.nodeChain 5
              [Sample.quiet 205; Sample.eventAt 210] 3 200 Sample.dkgResult
              Sample.submittedEvent Sample.groupKey Hwait Hkey)
    as (_ & _ & Hstay & Hresolve).
  split.
  - rewrite Hstay; [vm_compute; reflexivity | reflexivity |].
    simpl. rewrite list_elem_of_singleton. lia.
  - destruct (Hresolve Sample.selectedOperators [5; 1; 3])
      as (operators & Hrun & Hops & _).
    + reflexivity.
    + simpl. lia.
    + repeat constructor; simpl; lia.
    + exists operators. split; [exact Hrun | exact Hops].
Defined.

(** ** DKG result submission *)

Section Submission.
Import Waiting Tbtc.

(** The waiter hands over a height at or above the one asked for, the
    height of one of the moments. *)
Lemma select_height_reached {E} (waitHeight : Z) (timeline : list (moment E))
  (blockNumber : Z) :
  select waitHeight timeline = Some (HeightReached blockNumber) ->
  waitHeight <= blockNumber /\
  exists m, In m timeline /\ height m = blockNumber.
Proof.
  induction timeline as [|m later IH]; simpl; [discriminate |].
  destruct (waitHeight <=? height m) eqn:Hready.
  - apply Z.leb_le in Hready.
    destruct (published m) as [event|].
    + destruct (otherFirst m); [discriminate |].
      intros H. injection H as <-. split; [lia | exists m; auto].
    + intros H. injection H as <-. split; [lia | exists m; auto].
  - destruct (published m); [discriminate |].
    intros H. destruct (IH H) as (Hle & m' & Hin & Hm').
    split; [exact Hle | exists m'; auto].
Qed.

(** The [select] receives the notification exactly when, after moments with
    nothing ready, comes one with a notification, the waiter not ready yet
    or passed over by the [select]. *)
Lemma select_notified {E} (waitHeight : Z) (timeline : list (moment E))
  (event : E) :
  select waitHeight timeline = Some (Notified event) <->
  exists before m later,
    timeline = before ++ m :: later /\
    Forall (fun m' => height m' < waitHeight /\ published m' = None) before /\
    published m = Some event /\
    (height m < waitHeight \/ otherFirst m = true).
Proof.
  induction timeline as [|m later IH]; simpl.
  - split; [discriminate |].
    intros (before & m & later & Heq & _). destruct before; discriminate.
  - destruct (waitHeight <=? height m) eqn:Hready;
      [apply Z.leb_le in Hready | apply Z.leb_gt in Hready];
      destruct (published m) as [ev|] eqn:Hpub.
    + destruct (otherFirst m) eqn:Hfirst; split.
      * intros H. injection H as <-. exists [], m, later. auto.
      * intros (before & m' & later' & Heq & Hquiet & Hev & _).
        destruct before as [|m0 before]; simpl in Heq; injection Heq as ? ?; subst.
        -- congruence.
        -- inversion Hquiet as [|? ? [_ Hnone] _]; congruence.
      * discriminate.
      * intros (before & m' & later' & Heq & Hquiet & Hev & Hwhy).
        destruct before as [|m0 before]; simpl in Heq; injection Heq as ? ?; subst.
        -- destruct Hwhy; [lia | congruence].
        -- inversion Hquiet as [|? ? [_ Hnone] _]; congruence.
    + split; [discriminate |].
      intros (before & m' & later' & Heq & Hquiet & Hev & _).
      destruct before as [|m0 before]; simpl in Heq; injection Heq as ? ?; subst.
      * congruence.
      * inversion Hquiet as [|? ? [Hlt _] _]. lia.
    + split.
      * intros H. injection H as <-. exists [], m, later. auto.
      * intros (before & m' & later' & Heq & Hquiet & Hev & _).
        destruct before as [|m0 before]; simpl in Heq; injection Heq as ? ?; subst.
        -- congruence.
        -- inversion Hquiet as [|? ? [_ Hnone] _]; congruence.
    + rewrite IH. split.
      * intros (before & m' & later' & Heq & Hquiet & Hev & Hwhy).
        exists (m :: before), m', later'. split; [rewrite Heq; reflexivity |].
        split; [constructor; auto | auto].
      * intros (before & m' & later' & Heq & Hquiet & Hev & Hwhy).
        destruct before as [|m0 before]; simpl in Heq; injection Heq as ? ?; subst.
        -- congruence.
        -- inversion Hquiet; subst. exists before, m', later'. auto.
Qed.

Lemma waitForBlock_spec {E} (block : Z) (timeline : list (moment E)) (m : moment E) :
  waitForBlock block timeline = Some m ->
  In m timeline /\ (block <= height m \/ ctxDone m = true).
Proof.
  induction timeline as [|m0 later IH]; simpl; [discriminate |].
  destruct ((block <=? height m0) || ctxDone m0) eqn:Hwake.
  - intros H. injection H as <-. split; [auto |].
    apply orb_true_iff in Hwake. destruct Hwake as [H | H];
      [left; apply Z.leb_le; exact H | right; exact H].
  - intros H. destruct (IH H). auto.
Qed.

(** With no overflow, the height the node's submitter waits for is the
    start block plus the member's delay. *)
Lemma eligibleBlockHeight_exact chain startBlockNumber memberIndex :
  0 <= startBlockNumber ->
  0 <= Node.ResultPublicationBlockStep (Node.GetConfig chain) ->
  1 <= memberIndex ->
  startBlockNumber
    + (memberIndex - 1) * Node.ResultPublicationBlockStep (Node.GetConfig chain)
    < 2 ^ 64 ->
  Node.eligibleBlockHeight chain startBlockNumber memberIndex
  = startBlockNumber
    + (memberIndex - 1) * Node.ResultPublicationBlockStep (Node.GetConfig chain).
Proof.
  intros Hstart Hstep Hindex Hfit. unfold Node.eligibleBlockHeight.
  set (step := Node.ResultPublicationBlockStep (Node.GetConfig chain)) in *.
  assert (Hprod : 0 <= (memberIndex - 1) * step) by nia.
  destruct (Z.eq_dec step 0) as [Hzero | Hpos].
  - rewrite Hzero in *. rewrite !Z.mul_0_r.
    rewrite (uint64_small 0) by (unfold GoInt.is_uint64; lia).
    rewrite Z.add_0_r. apply uint64_small. unfold GoInt.is_uint64. lia.
  - assert (Hidx : memberIndex - 1 <= (memberIndex - 1) * step) by nia.
    rewrite (uint64_small (memberIndex - 1)) by (unfold GoInt.is_uint64; lia).
    rewrite (uint64_small ((memberIndex - 1) * step))
      by (unfold GoInt.is_uint64; lia).
    apply uint64_small. unfold GoInt.is_uint64. lia.
Qed.

(** C1. The node's submitter, for a member index [i] of the group and the
    start block [startBlockNumber] it is given, calls [SubmitDKGResult] at
    no block below the eligible height it computes from them, which is
    [startBlockNumber + (i-1) * ResultPublicationBlockStep] (exactly so
    whenever that is a block number, a [uint64]); and as long as the chain
    is below that height it makes no such call. *)
Theorem SubmitResult_not_before_eligible_block
  chain timeline memberIndex result signatures startBlockNumber effects answer :
  GoInt.is_uint64 startBlockNumber ->
  GoInt.is_uint64 (Node.ResultPublicationBlockStep (Node.GetConfig chain)) ->
  1 <= memberIndex <= Node.GroupSize (Node.GetConfig chain) ->
  Node.SubmitResult chain timeline memberIndex result signatures startBlockNumber
    = (effects, answer) ->
  let step := Node.ResultPublicationBlockStep (Node.GetConfig chain) in
  (forall atBlock index,
     In (Node.SubmitDKGResultCalled atBlock index) effects ->
     Node.eligibleBlockHeight chain startBlockNumber memberIndex <= atBlock /\
     (startBlockNumber + (memberIndex - 1) * step < 2 ^ 64 ->
      startBlockNumber + (memberIndex - 1) * step <= atBlock)) /\
  (Forall (fun m =>
             height m < Node.eligibleBlockHeight chain startBlockNumber memberIndex)
          timeline ->
   Forall (fun e => Node.isSubmission e = false) effects).
Proof.
  intros Hstart Hstep Hindex Hrun step. subst step.
  assert (Hcall : forall atBlock index,
    In (Node.SubmitDKGResultCalled atBlock index) effects ->
    select (Node.eligibleBlockHeight chain startBlockNumber memberIndex) timeline
    = Some (HeightReached atBlock)).
  { intros atBlock index Hin. unfold Node.SubmitResult in Hrun.
    destruct (Z.of_nat (size signatures) <? _);
      [injection Hrun as <- _; inversion Hin |].
    destruct (Node.GetDKGState chain) as [state| |];
      [| injection Hrun as <- _; simpl in Hin; intuition discriminate ..].
    destruct (negb (bool_decide (state = AwaitingResult)));
      [injection Hrun as <- _; simpl in Hin; intuition discriminate |].
    unfold Node.setupEligibilityQueue in Hrun.
    destruct (Node.GetBlockCounter chain) as [counter| |]; cbn [wrap_err bind] in Hrun;
      [| injection Hrun as <- _; simpl in Hin; intuition discriminate ..].
    destruct (Node.BlockHeightWaiter counter _);
      [injection Hrun as <- _; simpl in Hin; intuition discriminate |].
    destruct (select _ timeline) as [[blockNumber | event]|];
      [| injection Hrun as <- _; simpl in Hin; intuition discriminate ..].
    destruct (Node.ResultGroupPublicKeyBytes result);
      injection Hrun as <- _; simpl in Hin;
      try (intuition discriminate).
    destruct Hin as [H | [H | [H | []]]]; try discriminate.
    injection H as -> _. reflexivity. }
  split.
  - intros atBlock index Hin.
    destruct (select_height_reached _ _ _ (Hcall atBlock index Hin)) as [Hle _].
    split; [exact Hle |].
    intros Hfit. unfold GoInt.is_uint64 in *.
    rewrite <- (eligibleBlockHeight_exact chain startBlockNumber memberIndex);
      [exact Hle | lia | lia | lia | exact Hfit].
  - intros Hbelow. rewrite Forall_forall. intros e He.
    destruct e as [|atBlock index]; [reflexivity |].
    apply list_elem_of_In in He.
    destruct (select_height_reached _ _ _ (Hcall atBlock index He))
      as (Hle & m & Hm & Hheight).
    apply list_elem_of_In in Hm.
    rewrite Forall_forall in Hbelow. specialize (Hbelow m Hm). simpl in Hbelow. lia.
Qed.

End Submission.

Lemma SubmitResult_not_before_eligible_block_witness :
  Node.SubmitResult Sample.nodeChain
    [Sample.quiet 205; Sample.quiet 207; Sample.quiet 208]
    3 Sample.dkgResult Sample.threeSignatures 200
  = ([Node.Unsubscribed; Node.SubmitDKGResultCalled 207 3; Node.Unsubscribed],
     Waiting.Returned (Ok tt)) /\
  200 + (3 - 1) * 3 <= 207.
Proof.
  assert (Hrun :
    Node.SubmitResult Sample.nodeChain
      [Sample.quiet 205; Sample.quiet 207; Sample.quiet 208]
      3 Sample.dkgResult Sample.threeSignatures 200
    = ([Node.Unsubscribed; Node.SubmitDKGResultCalled 207 3; Node.Unsubscribed],
       Waiting.Returned (Ok tt))) by (vm_compute; reflexivity).
  split; [exact Hrun |].
  destruct (SubmitResult_not_before_eligible_block Sample.nodeChain
              _ 3 Sample.dkgResult Sample.threeSignatures 200 _ _
              ltac:(unfold GoInt.is_uint64; lia)
              ltac:(unfold GoInt.is_uint64; simpl; lia)
              ltac:(simpl; lia) Hrun) as [Hcalls _].
  destruct (Hcalls 207 3 ltac:(simpl; auto)) as [_ Hexact].
  apply Hexact. simpl. lia.
Defined.

Section SubmissionGate.
Import Waiting Tbtc.

Variable dkgResultSubmissionDelayStepBlocks : Z.

Abbreviation submit :=
  (DkgSubmit.SubmitResult dkgResultSubmissionDelayStepBlocks).
Abbreviation prepare := DkgSubmit.prepareSubmission.

(** C6. With fewer signatures than [GroupQuorum], [SubmitResult] returns
    an error and makes no call of [SubmitDKGResult], whatever the chain
    answers; a run that makes the call had at least [GroupQuorum]
    signatures. *)
Theorem SubmitResult_requires_group_quorum
  drs timeline memberIndex result (signatures : gmap Z (list Byte.byte)) :
  (Z.of_nat (size signatures)
     < DkgSubmit.GroupQuorum (DkgSubmit.groupParameters drs) ->
   exists e,
     submit drs timeline memberIndex result signatures
     = ([], Returned (Err e))) /\
  (forall atBlock dkgResult,
     In (DkgSubmit.SubmitDKGResultCalled atBlock dkgResult)
        (fst (submit drs timeline memberIndex result signatures)) ->
     DkgSubmit.GroupQuorum (DkgSubmit.groupParameters drs)
       <= Z.of_nat (size signatures)).
Proof.
  unfold DkgSubmit.SubmitResult, DkgSubmit.prepareSubmission.
  destruct (Z.of_nat (size signatures)
            <? DkgSubmit.GroupQuorum (DkgSubmit.groupParameters drs)) eqn:Hgate.
  - apply Z.ltb_lt in Hgate. split.
    + intros _. eexists. reflexivity.
    + intros atBlock dkgResult Hin. inversion Hin.
  - apply Z.ltb_ge in Hgate. split; [lia | intros; exact Hgate].
Qed.

(** The submitter of the node has the same gate on [HonestThreshold]. *)
Lemma Node_SubmitResult_requires_honest_threshold
  chain timeline memberIndex result (signatures : gmap Z (list Byte.byte))
  startBlockNumber :
  Z.of_nat (size signatures) < Node.HonestThreshold (Node.GetConfig chain) ->
  exists e,
    Node.SubmitResult chain timeline memberIndex result signatures
      startBlockNumber
    = ([], Returned (Err e)).
Proof.
  intros Hgate. unfold Node.SubmitResult.
  rewrite (proj2 (Z.ltb_lt _ _) Hgate). eexists. reflexivity.
Qed.

(** The submitter of dkg_submit.go calls [SubmitDKGResult] at no block
    below the one it computed from the current block it read. *)
Lemma DkgSubmit_not_before_submission_block
  drs timeline memberIndex result signatures dkgResult submissionBlock
  atBlock dkgResult' :
  prepare dkgResultSubmissionDelayStepBlocks drs memberIndex result signatures
    = Ok (Some (dkgResult, submissionBlock)) ->
  In (DkgSubmit.SubmitDKGResultCalled atBlock dkgResult')
     (fst (submit drs timeline memberIndex result signatures)) ->
  submissionBlock <= atBlock /\ dkgResult' = dkgResult.
Proof.
  intros Hprep. unfold DkgSubmit.SubmitResult. rewrite Hprep.
  destruct (waitForBlock submissionBlock timeline) as [m|] eqn:Hwait;
    [| intros []].
  destruct (waitForBlock_spec _ _ _ Hwait) as [_ Hwake].
  destruct (DkgSubmit.waitForBlockFnError drs); [intros [] |].
  destruct (ctxDone m) eqn:Hdone; [intros [] |].
  simpl. intros [H | []]. injection H as <- <-.
  destruct Hwake as [Hle | Hctx]; [auto | congruence].
Qed.

(** C9. Past the signature gate, when [GetDKGState] returns a state other
    than [AwaitingResult], or when another member's submission shows while
    the submitter waits (the notification received by the node's [select];
    the context done by the end of the wait of dkg_submit.go),
    [SubmitResult] returns [nil] and has made no call of
    [SubmitDKGResult]. *)
Theorem SubmitResult_lost_race_returns_nil :
  (forall drs timeline memberIndex result
          (signatures : gmap Z (list Byte.byte)) state,
     DkgSubmit.GroupQuorum (DkgSubmit.groupParameters drs)
       <= Z.of_nat (size signatures) ->
     DkgSubmit.GetDKGState (DkgSubmit.chain drs) = Ok state ->
     state <> AwaitingResult ->
     submit drs timeline memberIndex result signatures
     = ([], Returned (Ok tt))) /\
  (forall drs timeline memberIndex result signatures dkgResult
          submissionBlock m,
     prepare dkgResultSubmissionDelayStepBlocks drs memberIndex result
       signatures = Ok (Some (dkgResult, submissionBlock)) ->
     DkgSubmit.waitForBlockFnError drs = None ->
     waitForBlock submissionBlock timeline = Some m ->
     ctxDone m = true ->
     submit drs timeline memberIndex result signatures
     = ([], Returned (Ok tt))) /\
  (forall chain timeline memberIndex result
          (signatures : gmap Z (list Byte.byte)) startBlockNumber state,
     Node.HonestThreshold (Node.GetConfig chain)
       <= Z.of_nat (size signatures) ->
     Node.GetDKGState chain = Ok state ->
     state <> AwaitingResult ->
     Node.SubmitResult chain timeline memberIndex result signatures
       startBlockNumber
     = ([Node.Unsubscribed], Returned (Ok tt))) /\
  (forall chain timeline memberIndex result
          (signatures : gmap Z (list Byte.byte)) startBlockNumber
          waitHeight event,
     Node.HonestThreshold (Node.GetConfig chain)
       <= Z.of_nat (size signatures) ->
     Node.GetDKGState chain = Ok AwaitingResult ->
     Node.setupEligibilityQueue chain startBlockNumber memberIndex
       = Ok waitHeight ->
     select waitHeight timeline = Some (Notified event) ->
     Node.SubmitResult chain timeline memberIndex result signatures
       startBlockNumber
     = ([Node.Unsubscribed], Returned (Ok tt))).
Proof.
  split; [| split; [| split]].
  - intros drs timeline memberIndex result signatures state Hgate Hstate Hne.
    unfold DkgSubmit.SubmitResult, DkgSubmit.prepareSubmission.
    rewrite (proj2 (Z.ltb_ge _ _) Hgate), Hstate. cbn [wrap_err bind].
    rewrite bool_decide_eq_false_2 by exact Hne. reflexivity.
  - intros drs timeline memberIndex result signatures dkgResult
      submissionBlock m Hprep Hnoerr Hwait Hdone.
    unfold DkgSubmit.SubmitResult.
    rewrite Hprep, Hwait, Hnoerr, Hdone. reflexivity.
  - intros chain timeline memberIndex result signatures start state
      Hgate Hstate Hne.
    unfold Node.SubmitResult.
    rewrite (proj2 (Z.ltb_ge _ _) Hgate), Hstate.
    rewrite bool_decide_eq_false_2 by exact Hne. reflexivity.
  - intros chain timeline memberIndex result signatures start waitHeight event
      Hgate Hstate Hqueue Hselect.
    unfold Node.SubmitResult.
    rewrite (proj2 (Z.ltb_ge _ _) Hgate), Hstate.
    rewrite bool_decide_eq_true_2 by reflexivity. cbn [negb].
    rewrite Hqueue, Hselect. reflexivity.
Qed.

End SubmissionGate.

Lemma SubmitResult_requires_group_quorum_witness :
  Z.of_nat (size Sample.threeSignatures)
    < DkgSubmit.GroupQuorum
        (DkgSubmit.groupParameters (Sample.submitter Tbtc.AwaitingResult)) /\
  exists e,
    DkgSubmit.SubmitResult 15 (Sample.submitter Tbtc.AwaitingResult)
      [Sample.at_ 1000 false; Sample.at_ 1030 false]
      3 Sample.submitResult Sample.threeSignatures
    = ([], Waiting.Returned (Err e)).
Proof.
  assert (Hfew :
    Z.of_nat (size Sample.threeSignatures)
    < DkgSubmit.GroupQuorum
        (DkgSubmit.groupParameters (Sample.submitter Tbtc.AwaitingResult)))
    by (vm_compute; reflexivity).
  split; [exact Hfew |].
  destruct (SubmitResult_requires_group_quorum 15
              (Sample.submitter Tbtc.AwaitingResult)
              [Sample.at_ 1000 false; Sample.at_ 1030 false]
              3 Sample.submitResult Sample.threeSignatures) as [Herr _].
  exact (Herr Hfew).
Defined.

Lemma SubmitResult_lost_race_returns_nil_witness :
  DkgSubmit.SubmitResult 15 (Sample.submitter Tbtc.Challenge)
    [Sample.at_ 1000 false; Sample.at_ 1030 false]
    3 Sample.submitResult Sample.fourSignatures
  = ([], Waiting.Returned (Ok tt)) /\
  DkgSubmit.SubmitResult 15 (Sample.submitter Tbtc.AwaitingResult)
    [Sample.at_ 1000 false; Sample.at_ 1010 true; Sample.at_ 1030 false]
    3 Sample.submitResult Sample.fourSignatures
  = ([], Waiting.Returned (Ok tt)) /\
  Node.SubmitResult Sample.nodeChain
    [Sample.quiet 201; Sample.eventAt 203; Sample.quiet 206]
    3 Sample.dkgResult Sample.threeSignatures 200
  = ([Node.Unsubscribed], Waiting.Returned (Ok tt)).
Proof.
  destruct (SubmitResult_lost_race_returns_nil 15)
    as (Hstate & Hctx & _ & Hnotified).
  split; [| split].
  - apply (Hstate (Sample.submitter Tbtc.Challenge) _ 3 Sample.submitResult
             Sample.fourSignatures Tbtc.Challenge).
    + vm_compute. discriminate.
    + reflexivity.
    + discriminate.
  - apply (Hctx (Sample.submitter Tbtc.AwaitingResult) _ 3 Sample.submitResult
             Sample.fourSignatures Sample.chainResult 1030
             (Sample.at_ 1010 true)).
    + vm_compute. reflexivity.
    + reflexivity.
    + vm_compute. reflexivity.
    + reflexivity.
  - apply (Hnotified Sample.nodeChain _ 3 Sample.dkgResult
             Sample.threeSignatures 200 206 Sample.submittedEvent).
    + vm_compute. discriminate.
    + reflexivity.
    + vm_compute. reflexivity.
    + vm_compute. reflexivity.
Defined.

(* ===================================================================== *)
(** * Further properties                                                  *)
(* ===================================================================== *)

(** ** Redemption: proposal validation *)

Section ProposalValidation.
Import Bitcoin Redemption RedemptionAction.

Lemma pendingRequestsLoop_ok chain walletPublicKeyHash :
  forall scripts requests,
    pendingRequestsLoop chain walletPublicKeyHash scripts = Ok requests
    <->
    Forall2 (fun script request =>
               GetPendingRedemptionRequest chain walletPublicKeyHash script
               = Ok (Some request))
            scripts requests.
Proof.
  induction scripts as [|script rest IH]; intros requests; simpl.
  - split.
    + intros H. injection H as <-. constructor.
    + intros H. inversion H. reflexivity.
  - destruct (GetPendingRedemptionRequest chain walletPublicKeyHash script)
      as [[request|]| |] eqn:Hget.
    + destruct (pendingRequestsLoop chain walletPublicKeyHash rest)
        as [found| |] eqn:Hrest; cbn [bind].
      * split.
        -- intros H. injection H as <-. constructor; [exact Hget |].
           apply IH. reflexivity.
        -- intros H. inversion H as [|? r ? rs Hhead Htail]; subst.
           rewrite Hget in Hhead. injection Hhead as ->.
           apply IH in Htail. injection Htail as ->. reflexivity.
      * split; [discriminate |].
        intros H. inversion H as [|? r ? rs Hhead Htail]; subst.
        apply IH in Htail. discriminate.
      * split; [discriminate |].
        intros H. inversion H as [|? r ? rs Hhead Htail]; subst.
        apply IH in Htail. discriminate.
    + split; [discriminate |].
      intros H. inversion H as [|? r ? rs Hhead Htail]; subst.
      rewrite Hget in Hhead. discriminate.
    + split; [discriminate |].
      intros H. inversion H as [|? r ? rs Hhead Htail]; subst.
      rewrite Hget in Hhead. discriminate.
    + split; [discriminate |].
      intros H. inversion H as [|? r ? rs Hhead Htail]; subst.
      rewrite Hget in Hhead. discriminate.
Qed.

(** X1. [ValidateRedemptionProposal] returns requests exactly when the chain
    accepts the proposal and has a pending request for every script of it;
    the requests are then those pending requests, one per script and in the
    order of the scripts. *)
Theorem ValidateRedemptionProposal_requests
  walletPublicKeyHash proposal chain requests :
  ValidateRedemptionProposal walletPublicKeyHash proposal chain = Ok requests
  <->
  ChainValidateRedemptionProposal chain walletPublicKeyHash proposal = None /\
  Forall2 (fun script request =>
             GetPendingRedemptionRequest chain walletPublicKeyHash script
             = Ok (Some request))
          (RedeemersOutputScripts proposal) requests.
Proof.
  unfold ValidateRedemptionProposal.
  destruct (ChainValidateRedemptionProposal chain walletPublicKeyHash proposal).
  - split; [discriminate | intros [H _]; discriminate].
  - rewrite pendingRequestsLoop_ok. split; [auto | intros [_ H]; exact H].
Qed.

End ProposalValidation.

(** ** Redemption: fee shares of any sign, missing shares, the fee paid *)

Section FeeShares.
Import Bitcoin Redemption.

(** Go's quotient and remainder of an [int64] fee by a positive count. *)
Lemma truncated_division_facts fee N :
  GoInt.is_int64 fee -> 1 <= N ->
  let q := Z.quot fee N in
  let r := Z.rem fee N in
  fee = N * q + r /\
  Z.quot (fee - r) N = q /\
  GoInt.is_int64 (fee - r) /\ GoInt.is_int64 q /\ GoInt.is_int64 (q + r).
Proof.
  intros Hfee HN q r. unfold GoInt.is_int64 in *.
  pose proof (Z.quot_rem' fee N) as Hqr. fold q r in Hqr.
  assert (Hr : (0 <= fee -> 0 <= r < N) /\ (fee <= 0 -> - N < r <= 0)).
  { split; intros Hs.
    - apply Z.rem_bound_pos; lia.
    - pose proof (Z.rem_bound_pos (- fee) N ltac:(lia) ltac:(lia)) as Hb.
      rewrite Z.rem_opp_l in Hb by lia. fold r in Hb. lia. }
  assert (Hq : Z.quot (fee - r) N = q).
  { replace (fee - r) with (q * N) by lia. apply Z.quot_mul. lia. }
  split; [exact Hqr |]. split; [exact Hq |].
  destruct (Z_le_gt_dec 0 fee) as [Hpos | Hneg].
  - assert (0 <= q) by (apply Z.quot_pos; lia).
    destruct Hr as [Hr _]. specialize (Hr Hpos). nia.
  - destruct Hr as [_ Hr]. specialize (Hr ltac:(lia)).
    assert (q <= 0) by nia. nia.
Qed.

(** The shares of [withRedemptionTotalFee], for any [int64] fee. *)
Lemma withRedemptionTotalFee_truncated (fee : Z) (requests : list RedemptionRequest) :
  GoInt.is_int64 fee -> requests <> [] ->
  withRedemptionTotalFee fee requests
  = Ok (replicate (length requests - 1)
          (Z.quot fee (Z.of_nat (length requests)))
        ++ [Z.quot fee (Z.of_nat (length requests))
            + Z.rem fee (Z.of_nat (length requests))]).
Proof.
  intros Hfee Hne.
  rewrite (withRedemptionTotalFee_shares fee requests Hne). cbv zeta.
  assert (HN : 1 <= Z.of_nat (length requests)).
  { destruct requests; [congruence | simpl; lia]. }
  destruct (truncated_division_facts fee _ Hfee HN)
    as (_ & Hq & Hr1 & Hr2 & Hr3).
  rewrite (int64_small _ Hr1), Hq, (int64_small _ Hr2), (int64_small _ Hr3).
  destruct (length requests) as [|n] eqn:Hn; [simpl in HN; lia |].
  rewrite map_seq_last_split. simpl. rewrite Nat.sub_0_r. reflexivity.
Qed.

(** X2. For every [int64] total fee, negative ones too, the shares of
    [withRedemptionTotalFee] add up to the total fee: all but the last are
    the quotient truncated toward zero, and the last one takes the remainder,
    which has the sign of the fee. *)
Theorem withRedemptionTotalFee_truncates_toward_zero
  (fee : Z) (requests : list RedemptionRequest) :
  GoInt.is_int64 fee ->
  (1 <= length requests)%nat ->
  let N := Z.of_nat (length requests) in
  exists feeShares : list Z,
    withRedemptionTotalFee fee requests = Ok feeShares /\
    length feeShares = length requests /\
    sumZ feeShares = fee /\
    (forall i : nat, (i < length requests - 1)%nat ->
       feeShares !! i = Some (Z.quot fee N)) /\
    feeShares !! (length requests - 1)%nat
      = Some (Z.quot fee N + Z.rem fee N) /\
    0 <= Z.rem fee N * fee.
Proof.
  intros Hfee Hlen N.
  assert (Hne : requests <> [])
    by (destruct requests; [simpl in Hlen; lia | congruence]).
  rewrite (withRedemptionTotalFee_truncated fee requests Hfee Hne). fold N.
  eexists. split; [reflexivity |].
  split; [rewrite length_app, length_replicate; simpl; lia |].
  split.
  { rewrite sumZ_app, sumZ_replicate. simpl.
    pose proof (Z.quot_rem' fee N) as Hqr.
    replace (Z.of_nat (length requests - 1)) with (N - 1) by (unfold N; lia).
    lia. }
  split.
  { intros i Hi. rewrite lookup_app_l by (rewrite length_replicate; lia).
    apply lookup_replicate_2. lia. }
  split.
  { rewrite lookup_app_r by (rewrite length_replicate; lia).
    rewrite length_replicate, Nat.sub_diag. reflexivity. }
  apply Z.rem_sign_mul. unfold N. lia.
Qed.

Lemma withRedemptionTotalFee_truncates_toward_zero_witness :
  (1 <= length Sample.fourRequests)%nat /\
  exists feeShares : list Z,
    withRedemptionTotalFee (-7) Sample.fourRequests = Ok feeShares /\
    sumZ feeShares = -7 /\
    feeShares !! 0%nat = Some (-1) /\
    feeShares !! 3%nat = Some (-4).
Proof.
  assert (H1 : (1 <= length Sample.fourRequests)%nat) by (simpl; lia).
  split; [exact H1 |].
  destruct (withRedemptionTotalFee_truncates_toward_zero (-7)
              Sample.fourRequests ltac:(unfold GoInt.is_int64; lia) H1)
    as (feeShares & Hrun & _ & Hsum & Hinit & Hlast & _).
  exists feeShares. split; [exact Hrun |]. split; [exact Hsum |].
  split; [apply (Hinit 0%nat); simpl; lia | exact Hlast].
Defined.

End FeeShares.

Section AssembleEdges.
Import Bitcoin Redemption.

Variable PublicKeyHash : PublicKey -> list Byte.byte.
Variable PayToWitnessPublicKeyHash : list Byte.byte -> outcome Script.

Abbreviation assemble' :=
  (assembleRedemptionTransaction PublicKeyHash PayToWitnessPublicKeyHash).

(** The loop over the requests panics at the first request without a fee
    share. *)
Lemma redemptionOutputsLoop_panics feeShares :
  forall requests i st,
    (length feeShares < i + length requests)%nat ->
    (i <= length feeShares)%nat ->
    redemptionOutputsLoop feeShares i requests st
    = Panic "runtime error: index out of range".
Proof.
  induction requests as [|request rest IH]; intros i st Hshort Hle.
  - simpl in Hshort. lia.
  - simpl in Hshort. cbn [redemptionOutputsLoop].
    destruct (feeShares !! i) as [feeShare|] eqn:Hi.
    + rewrite (redemptionOutputStep_output _ _ _ _ _ Hi). cbn [bind].
      apply lookup_lt_Some in Hi. apply IH; lia.
    + unfold redemptionOutputStep. rewrite Hi. reflexivity.
Qed.

(** X3. The fee shares are not validated: when the fee distribution returns
    fewer shares than there are requests, [assembleRedemptionTransaction]
    neither builds a transaction nor returns an error; it panics on the
    index of the first missing share. *)
Theorem assembleRedemptionTransaction_panics_on_missing_share
  chain key utxo requests feeDistribution shape feeShares :
  checkPublicKeyHashInput chain utxo = None ->
  feeDistribution requests = Ok feeShares ->
  (length feeShares < length requests)%nat ->
  assembleRedemptionTransaction PublicKeyHash PayToWitnessPublicKeyHash
    chain key (Some utxo) requests feeDistribution shape
  = Panic "runtime error: index out of range".
Proof.
  intros Hacc Hfd Hshort. unfold assembleRedemptionTransaction.
  destruct (length requests <? 1)%nat eqn:E;
    [apply Nat.ltb_lt in E; lia |].
  unfold AddPublicKeyHashInput, NewTransactionBuilder.
  cbn [builderChain builderInputs builderOutputs].
  rewrite Hacc. cbn [wrap_err bind]. rewrite Hfd. cbn [bind].
  rewrite redemptionOutputsLoop_panics by (simpl; lia). reflexivity.
Qed.

(** What the outputs of a built transaction are, by the sign of the change
    value. *)
Lemma assemble_outputs chain key utxo requests feeDistribution shape builder :
  assemble' chain key (Some utxo) requests feeDistribution shape = Ok builder ->
  exists feeShares,
    feeDistribution requests = Ok feeShares /\
    (length requests <= length feeShares)%nat /\
    let redemption := redemptionOutputsFor requests feeShares in
    let change := changeValueFor utxo requests feeShares in
    (change <= 0 /\ builderOutputs builder = redemption) \/
    (0 < change /\
     sumZ (map OutputValue (builderOutputs builder))
     = change + sumZ (map OutputValue redemption) /\
     length (builderOutputs builder) = S (length requests)).
Proof.
  intros Hrun.
  destruct (assemble_inv _ _ _ _ _ _ _ _ _ Hrun)
    as (Hne & Hacc & feeShares & Hfd & Hlen).
  exists feeShares. split; [exact Hfd |]. split; [exact Hlen |]. cbv zeta.
  rewrite (assemble_run _ _ _ _ _ _ _ _ _ Hne Hacc Hfd Hlen) in Hrun.
  pose proof (length_redemptionOutputsFor _ _ Hlen) as Hlo.
  unfold withChangeOutput in Hrun.
  destruct (0 <? changeValueFor utxo requests feeShares) eqn:Hpos.
  - apply Z.ltb_lt in Hpos. right. split; [exact Hpos |].
    destruct (PayToWitnessPublicKeyHash (PublicKeyHash key))
      as [script| |]; try discriminate.
    cbn [wrap_err bind] in Hrun.
    destruct (resolveShape shape =? RedemptionChangeFirst).
    + cbn [bind] in Hrun. injection Hrun as <-. cbn [builderOutputs].
      split; [reflexivity | simpl; lia].
    + destruct (resolveShape shape =? RedemptionChangeLast); [| discriminate].
      cbn [bind] in Hrun. injection Hrun as <-. cbn [builderOutputs].
      rewrite map_app, sumZ_app, length_app. simpl. split; lia.
  - apply Z.ltb_ge in Hpos. left. cbn [bind] in Hrun.
    injection Hrun as <-. split; [exact Hpos | reflexivity].
Qed.

(** X4. With the fee distribution of the redemption action, a transaction
    built with a change output pays the total fee of the proposal: the value
    of its input minus the values of its outputs is that fee, as [int64]
    and, when the difference fits, as integers. *)
Theorem assembleRedemptionTransaction_pays_total_fee
  chain key utxo requests fee shape builder :
  GoInt.is_int64 fee ->
  assembleRedemptionTransaction PublicKeyHash PayToWitnessPublicKeyHash
    chain key (Some utxo) requests (withRedemptionTotalFee fee) shape
    = Ok builder ->
  length (builderOutputs builder) = S (length requests) ->
  let paid :=
    Value utxo - sumZ (map OutputValue (builderOutputs builder)) in
  GoInt.int64 paid = fee /\
  (GoInt.is_int64 paid -> paid = fee).
Proof.
  intros Hfee Hrun Hchange paid.
  assert (Hpaid : GoInt.int64 paid = fee).
  { destruct (assemble_outputs _ _ _ _ _ _ _ Hrun)
      as (feeShares & Hfd & Hlen & Hcases).
    destruct (assemble_inv _ _ _ _ _ _ _ _ _ Hrun) as (Hne & _).
    rewrite (withRedemptionTotalFee_truncated fee requests Hfee Hne) in Hfd.
    injection Hfd as <-.
    match type of Hlen with
    | (_ <= length ?l)%nat => set (feeShares := l) in *
    end.
    assert (Hcount : length feeShares = length requests).
    { unfold feeShares. rewrite length_app, length_replicate. simpl.
      destruct requests; [congruence | simpl; lia]. }
    assert (Hsum : sumZ (take (length requests) feeShares) = fee).
    { rewrite take_ge by lia. unfold feeShares.
      rewrite sumZ_app, sumZ_replicate. simpl.
      pose proof (Z.quot_rem' fee (Z.of_nat (length requests))) as Hqr.
      assert (1 <= length requests)%nat
        by (destruct requests; [congruence | simpl; lia]).
      replace (Z.of_nat (length requests - 1))
        with (Z.of_nat (length requests) - 1) by lia.
      lia. }
    cbv zeta in Hcases.
    destruct Hcases as [[_ Houts] | (_ & Hvalues & _)].
    - rewrite Houts, length_redemptionOutputsFor in Hchange by exact Hlen. lia.
    - unfold paid. rewrite Hvalues. unfold changeValueFor. rewrite Hsum.
      set (red := sumZ (map OutputValue (redemptionOutputsFor requests feeShares))).
      replace (Value utxo - (GoInt.int64 (Value utxo - red - fee) + red))
        with (Value utxo - red - GoInt.int64 (Value utxo - red - fee)) by lia.
      rewrite int64_sub_r.
      replace (Value utxo - red - (Value utxo - red - fee)) with fee by lia.
      apply int64_small. exact Hfee. }
  split; [exact Hpaid |].
  intros Hfit. rewrite <- Hpaid. symmetry. apply int64_small. exact Hfit.
Qed.

End AssembleEdges.

Lemma assembleRedemptionTransaction_panics_on_missing_share_witness :
  Redemption.assembleRedemptionTransaction
    Sample.publicKeyHash Sample.payToWitnessPublicKeyHash
    Sample.btcChain Sample.walletPublicKey
    (Some (Sample.mainUtxo 20000000)) Sample.fourRequests
    (fun _ => Ok [250; 250; 250]) []
  = Panic "runtime error: index out of range".
Proof.
  apply (assembleRedemptionTransaction_panics_on_missing_share
           Sample.publicKeyHash Sample.payToWitnessPublicKeyHash
           Sample.btcChain Sample.walletPublicKey
           (Sample.mainUtxo 20000000) Sample.fourRequests
           (fun _ => Ok [250; 250; 250]) [] [250; 250; 250]).
  - reflexivity.
  - reflexivity.
  - simpl. lia.
Defined.

Lemma assembleRedemptionTransaction_pays_total_fee_witness :
  exists builder,
    Redemption.assembleRedemptionTransaction
      Sample.publicKeyHash Sample.payToWitnessPublicKeyHash
      Sample.btcChain Sample.walletPublicKey
      (Some (Sample.mainUtxo 20000000)) Sample.fourRequests
      (Redemption.withRedemptionTotalFee 1001) [] = Ok builder /\
    20000000 - sumZ (map Bitcoin.OutputValue (Bitcoin.builderOutputs builder))
    = 1001.
Proof.
  destruct (Redemption.assembleRedemptionTransaction
              Sample.publicKeyHash Sample.payToWitnessPublicKeyHash
              Sample.btcChain Sample.walletPublicKey
              (Some (Sample.mainUtxo 20000000)) Sample.fourRequests
              (Redemption.withRedemptionTotalFee 1001) [])
    as [builder| |] eqn:Hrun; [| vm_compute in Hrun; discriminate ..].
  exists builder. split; [reflexivity |].
  assert (Hlen : length (Bitcoin.builderOutputs builder) = 5%nat).
  { vm_compute in Hrun. injection Hrun as <-. reflexivity. }
  destruct (assembleRedemptionTransaction_pays_total_fee
              Sample.publicKeyHash Sample.payToWitnessPublicKeyHash
              Sample.btcChain Sample.walletPublicKey
              (Sample.mainUtxo 20000000) Sample.fourRequests 1001 [] builder
              ltac:(unfold GoInt.is_int64; lia) Hrun Hlen) as [_ Hexact].
  apply Hexact.
  vm_compute in Hrun. injection Hrun as <-.
  unfold GoInt.is_int64. simpl. lia.
Defined.

(** ** Redemption: the steps of the action *)

Section ActionSteps.
Import Bitcoin Redemption RedemptionAction.

Variable PublicKeyHash : PublicKey -> list Byte.byte.
Variable PayToWitnessPublicKeyHash : list Byte.byte -> outcome Script.
Variable DetermineWalletMainUtxo :
  list Byte.byte -> ProposalChain -> Chain ->
  outcome (option UnspentTransactionOutput).
Variable EnsureWalletSyncedBetweenChains :
  list Byte.byte -> UnspentTransactionOutput -> ProposalChain -> Chain ->
  option error.

Abbreviation run :=
  (execute PublicKeyHash PayToWitnessPublicKeyHash
     DetermineWalletMainUtxo EnsureWalletSyncedBetweenChains).
Abbreviation prepared :=
  (prepareTransaction PublicKeyHash PayToWitnessPublicKeyHash
     DetermineWalletMainUtxo EnsureWalletSyncedBetweenChains).

Lemma prepareTransaction_margin ra unsignedTx :
  prepared ra = Ok unsignedTx ->
  signingTimeoutSafetyMarginBlocks ra <= proposalExpiryBlock ra.
Proof.
  unfold prepareTransaction. intros H.
  destruct (wrap_err _ (ValidateRedemptionProposal _ _ _)) as [requests| |];
    try discriminate.
  cbn [bind] in H.
  destruct (wrap_err _ (DetermineWalletMainUtxo _ _ _)) as [[utxo|]| |];
    try discriminate.
  cbn [bind] in H.
  destruct (EnsureWalletSyncedBetweenChains _ _ _ _); [discriminate |].
  destruct (wrap_err _ (assembleRedemptionTransaction _ _ _ _ _ _ _ _))
    as [tx| |]; try discriminate.
  cbn [bind] in H.
  destruct (proposalExpiryBlock ra <? signingTimeoutSafetyMarginBlocks ra)
    eqn:E; [discriminate |].
  apply Z.ltb_ge in E. exact E.
Qed.

(** X5. The redemption action signs at most one transaction, the prepared one,
    from the processing start block up to the expiry block less the safety
    margin, a subtraction that never wraps; it broadcasts only the
    transaction the signing returned, after it; and it returns [nil] only
    after a broadcast that went through. *)
Theorem execute_signs_then_broadcasts ra steps answer :
  GoInt.is_uint64 (proposalExpiryBlock ra) ->
  0 <= signingTimeoutSafetyMarginBlocks ra ->
  run ra = (steps, answer) ->
  let startBlock := proposalProcessingStartBlock ra in
  let timeoutBlock :=
    proposalExpiryBlock ra - signingTimeoutSafetyMarginBlocks ra in
  (forall unsignedTx s t,
     In (SignTransactionCalled unsignedTx s t) steps ->
     prepared ra = Ok unsignedTx /\ s = startBlock /\ t = timeoutBlock /\
     0 <= timeoutBlock) /\
  (forall tx timeout delay,
     In (BroadcastTransactionCalled tx timeout delay) steps ->
     exists unsignedTx,
       steps = [SignTransactionCalled unsignedTx startBlock timeoutBlock;
                BroadcastTransactionCalled tx timeout delay] /\
       signTransaction (transactionExecutor ra)
         unsignedTx startBlock timeoutBlock = Ok tx) /\
  (answer = Ok tt ->
   exists tx timeout delay,
     In (BroadcastTransactionCalled tx timeout delay) steps /\
     broadcastTransaction (transactionExecutor ra) tx timeout delay = None).
Proof.
  intros Hexpiry Hmargin Hrun startBlock timeoutBlock.
  unfold execute in Hrun.
  destruct (prepared ra) as [unsignedTx| |] eqn:Hprep;
    [| injection Hrun as <- <-; split; [| split];
       [intros ? ? ? [] | intros ? ? ? [] | discriminate] ..].
  pose proof (prepareTransaction_margin _ _ Hprep) as Hle.
  assert (Hexact :
    GoInt.uint64 (proposalExpiryBlock ra - signingTimeoutSafetyMarginBlocks ra)
    = timeoutBlock).
  { apply uint64_small. unfold GoInt.is_uint64 in *. unfold timeoutBlock. lia. }
  rewrite Hexact in Hrun. fold startBlock in Hrun.
  destruct (signTransaction (transactionExecutor ra)
              unsignedTx startBlock timeoutBlock) as [tx| |] eqn:Hsign;
    injection Hrun as <- <-.
  - split; [| split].
    + intros u s t [H | [H | []]]; [| discriminate].
      injection H as <- <- <-. unfold timeoutBlock. repeat split; lia.
    + intros tx' timeout delay [H | [H | []]]; [discriminate |].
      injection H as <- <- <-. exists unsignedTx. split; [reflexivity | exact Hsign].
    + intros Hok. exists tx, (broadcastTimeout ra), (broadcastCheckDelay ra).
      split; [right; left; reflexivity |].
      destruct (broadcastTransaction _ _ _ _); [discriminate | reflexivity].
  - split; [| split].
    + intros u s t [H | []]. injection H as <- <- <-.
      unfold timeoutBlock. repeat split; lia.
    + intros tx' timeout delay [H | []]. discriminate.
    + discriminate.
  - split; [| split].
    + intros u s t [H | []]. injection H as <- <- <-.
      unfold timeoutBlock. repeat split; lia.
    + intros tx' timeout delay [H | []]. discriminate.
    + discriminate.
Qed.

End ActionSteps.

Lemma execute_signs_then_broadcasts_witness :
  exists unsignedTx tx,
    RedemptionAction.execute
      Sample.publicKeyHash Sample.payToWitnessPublicKeyHash
      Sample.determineWalletMainUtxo Sample.ensureWalletSynced
      Sample.redemption
    = ([RedemptionAction.SignTransactionCalled unsignedTx 1000 1300;
        RedemptionAction.BroadcastTransactionCalled tx
          RedemptionAction.redemptionBroadcastTimeout
          RedemptionAction.redemptionBroadcastCheckDelay],
       Ok tt) /\
    length (Bitcoin.Outputs tx) = 5%nat.
Proof.
  destruct (RedemptionAction.execute
              Sample.publicKeyHash Sample.payToWitnessPublicKeyHash
              Sample.determineWalletMainUtxo Sample.ensureWalletSynced
              Sample.redemption) as [steps answer] eqn:Hrun.
  destruct (execute_signs_then_broadcasts
              Sample.publicKeyHash Sample.payToWitnessPublicKeyHash
              Sample.determineWalletMainUtxo Sample.ensureWalletSynced
              Sample.redemption steps answer
              ltac:(unfold GoInt.is_uint64; vm_compute;
                    split; [discriminate | reflexivity])
              ltac:(vm_compute; discriminate) Hrun)
    as (_ & Hbroadcast & Hnil).
  assert (Hanswer : answer = Ok tt).
  { vm_compute in Hrun. injection Hrun as _ <-. reflexivity. }
  destruct (Hnil Hanswer) as (tx & timeout & delay & Hin & _).
  destruct (Hbroadcast tx timeout delay Hin) as (unsignedTx & Hsteps & _).
  exists unsignedTx, tx. rewrite Hsteps, Hanswer.
  rewrite Hsteps in Hrun. vm_compute in Hrun.
  injection Hrun; intros; subst. split; reflexivity.
Defined.

(** ** Sortition pool monitor *)

Section SortitionMonitor.
Import Sortition.

Variable chain : Chain.

Lemma checkRewardsEligibility_calls calls calls' answer :
  checkRewardsEligibility chain calls = (calls', answer) ->
  calls' = calls \/
  (calls' = calls ++ [RestoreRewardEligibilityCalled] /\
   IsEligibleForRewards chain calls = Ok false /\
   CanRestoreRewardEligibility chain calls = Ok true).
Proof.
  unfold checkRewardsEligibility, failed. intros H.
  destruct (IsEligibleForRewards chain calls) as [[|]| |];
    try (injection H as <- _; left; reflexivity).
  destruct (CanRestoreRewardEligibility chain calls) as [[|]| |];
    try (injection H as <- _; left; reflexivity).
  injection H as <- _. right. auto.
Qed.

(** X6. One check of the operator status changes the chain by at most a
    restoration of the reward eligibility followed by at most one of an
    update and a join. It restores only for an operator in the pool that is
    ineligible and may be restored; it updates only an operator in the pool,
    and joins only for one out of it, in both cases only when the operator
    is not up to date and the pool is not locked. *)
Theorem checkOperatorStatus_guarded_calls calls calls' answer :
  checkOperatorStatus chain calls = (calls', answer) ->
  exists restored changed,
    calls' = calls ++ restored ++ changed /\
    (restored = [] \/
     (restored = [RestoreRewardEligibilityCalled] /\
      IsOperatorInPool chain calls = Ok true /\
      IsEligibleForRewards chain calls = Ok false /\
      CanRestoreRewardEligibility chain calls = Ok true)) /\
    (changed = [] \/
     (changed = [UpdateOperatorStatusCalled] /\
      IsOperatorInPool chain calls = Ok true /\
      IsOperatorUpToDate chain calls = Ok false /\
      IsPoolLocked chain (calls ++ restored) = Ok false) \/
     (changed = [JoinSortitionPoolCalled] /\ restored = [] /\
      IsOperatorInPool chain calls = Ok false /\
      IsOperatorUpToDate chain calls = Ok false /\
      IsPoolLocked chain calls = Ok false)).
Proof.
  unfold checkOperatorStatus, failed. intros H.
  destruct (IsOperatorInPool chain calls) as [inPool| |] eqn:Hpool;
    [| injection H as <- _; exists [], []; rewrite !app_nil_r; auto ..].
  destruct (IsOperatorUpToDate chain calls) as [upToDate| |] eqn:Hdate;
    [| injection H as <- _; exists [], []; rewrite !app_nil_r; auto ..].
  destruct inPool.
  - destruct (checkRewardsEligibility chain calls) as [calls1 rewards] eqn:Hr.
    assert (Hrestored : exists restored,
      calls1 = calls ++ restored /\
      (restored = [] \/
       (restored = [RestoreRewardEligibilityCalled] /\
        Ok true = Ok true /\
        IsEligibleForRewards chain calls = Ok false /\
        CanRestoreRewardEligibility chain calls = Ok true))).
    { destruct (checkRewardsEligibility_calls _ _ _ Hr) as [-> | (-> & He & Hc)].
      - exists []. rewrite app_nil_r. auto.
      - exists [RestoreRewardEligibilityCalled]. split; [reflexivity |].
        right. auto. }
    destruct Hrestored as (restored & -> & Hwhy).
    assert (Hnone : forall r : outcome unit,
      (calls ++ restored, r) = (calls', answer) ->
      exists restored0 changed,
        calls' = calls ++ restored0 ++ changed /\
        (restored0 = [] \/
         (restored0 = [RestoreRewardEligibilityCalled] /\
          Ok true = Ok true /\
          IsEligibleForRewards chain calls = Ok false /\
          CanRestoreRewardEligibility chain calls = Ok true)) /\
        (changed = [] \/
         (changed = [UpdateOperatorStatusCalled] /\
          Ok true = Ok true /\
          Ok upToDate = Ok false /\
          IsPoolLocked chain (calls ++ restored0) = Ok false) \/
         (changed = [JoinSortitionPoolCalled] /\ restored0 = [] /\
          Ok true = Ok false /\
          Ok upToDate = Ok false /\
          IsPoolLocked chain calls = Ok false))).
    { intros r Hr'. injection Hr' as <- _. exists restored, [].
      rewrite app_nil_r. auto. }
    destruct rewards as [u | e | reason]; [| | apply (Hnone _ H)].
    all: destruct upToDate; [apply (Hnone _ H) |].
    all: destruct (IsPoolLocked chain (calls ++ restored)) as [[|]| |] eqn:Hlock;
      try apply (Hnone _ H).
    all: injection H as <- _;
      exists restored, [UpdateOperatorStatusCalled];
      (split; [rewrite app_assoc; reflexivity |]); (split; [exact Hwhy |]);
      right; left; auto.
  - cbn beta iota in H.
    destruct upToDate;
      [injection H as <- _; exists [], []; rewrite !app_nil_r; auto |].
    destruct (IsPoolLocked chain calls) as [[|]| |] eqn:Hlock.
    + injection H as <- _; exists [], []; rewrite !app_nil_r; auto.
    + injection H as <- _. exists [], [JoinSortitionPoolCalled].
      split; [reflexivity |]. split; [auto |]. right. right. auto.
    + injection H as <- _; exists [], []; rewrite !app_nil_r; auto.
    + injection H as <- _; exists [], []; rewrite !app_nil_r; auto.
Qed.

(** X7. A check returns an error only when reading the pool membership, the
    status or the lock fails; a failed restoration, update or join is not
    returned, and neither is a failed read of the reward eligibility. *)
Theorem checkOperatorStatus_returns_read_errors_only calls calls' answer e :
  checkOperatorStatus chain calls = (calls', answer) ->
  answer = Err e ->
  IsOperatorInPool chain calls = Err e \/
  IsOperatorUpToDate chain calls = Err e \/
  IsPoolLocked chain calls' = Err e.
Proof.
  unfold checkOperatorStatus, failed. intros H ->.
  destruct (IsOperatorInPool chain calls) as [inPool| |] eqn:Hpool;
    [| injection H as _ <-; auto | discriminate].
  destruct (IsOperatorUpToDate chain calls) as [upToDate| |] eqn:Hdate;
    [| injection H as _ <-; auto | discriminate].
  right. right.
  destruct (if inPool then checkRewardsEligibility chain calls
            else (calls, Ok tt)) as [calls1 rewards].
  destruct rewards; try discriminate.
  - destruct upToDate; [discriminate |].
    destruct (IsPoolLocked chain calls1) as [[|]| |] eqn:Hlock;
      try discriminate.
    + destruct inPool; discriminate.
    + injection H as <- <-. exact Hlock.
  - destruct upToDate; [discriminate |].
    destruct (IsPoolLocked chain calls1) as [[|]| |] eqn:Hlock;
      try discriminate.
    + destruct inPool; discriminate.
    + injection H as <- <-. exact Hlock.
Qed.

Lemma monitorLoop_stops_at_done wakes later : forall calls,
  monitorLoop chain (wakes ++ Done :: later) calls
  = monitorLoop chain (wakes ++ [Done]) calls.
Proof.
  induction wakes as [|w wakes IH]; intros calls; [reflexivity |].
  destruct w; [| reflexivity]. cbn [app monitorLoop].
  destruct (checkOperatorStatus chain calls) as [calls1 [| |]];
    [apply IH | apply IH | reflexivity].
Qed.

(** X8. [MonitorPool] returns the unknown-operator error for an operator that
    is not registered, without a check and without starting the periodic
    one: no call changes the chain, whatever wakes up later. *)
Theorem MonitorPool_unregistered_operator wakes calls stakingProvider :
  OperatorToStakingProvider chain calls = Ok (stakingProvider, false) ->
  MonitorPool chain wakes calls = (calls, Err errOperatorUnknown).
Proof.
  unfold MonitorPool. intros ->. reflexivity.
Qed.


End SortitionMonitor.

Lemma checkOperatorStatus_guarded_calls_witness :
  Sortition.checkOperatorStatus Sample.joiningChain []
  = ([Sortition.JoinSortitionPoolCalled], Ok tt) /\
  Sortition.IsPoolLocked Sample.joiningChain [] = Ok false.
Proof.
  assert (Hrun : Sortition.checkOperatorStatus Sample.joiningChain []
                 = ([Sortition.JoinSortitionPoolCalled], Ok tt))
    by (vm_compute; reflexivity).
  split; [exact Hrun |].
  destruct (checkOperatorStatus_guarded_calls Sample.joiningChain _ _ _ Hrun)
    as (restored & changed & Hcalls & _ & [-> | [(-> & _) | (_ & _ & _ & _ & H)]]).
  - rewrite app_nil_r in Hcalls. destruct restored as [|c [|]];
      simpl in Hcalls; try discriminate.
    injection Hcalls as <-. reflexivity.
  - destruct restored as [|c [|]]; simpl in Hcalls; discriminate.
  - exact H.
Defined.

Lemma checkOperatorStatus_returns_read_errors_only_witness :
  Sortition.IsOperatorInPool Sample.lockReadFailsChain [] = Err (Errorf "rpc down") \/
  Sortition.IsOperatorUpToDate Sample.lockReadFailsChain [] = Err (Errorf "rpc down") \/
  Sortition.IsPoolLocked Sample.lockReadFailsChain
    [Sortition.RestoreRewardEligibilityCalled] = Err (Errorf "rpc down").
Proof.
  apply (checkOperatorStatus_returns_read_errors_only
           Sample.lockReadFailsChain []
           [Sortition.RestoreRewardEligibilityCalled]
           (Err (Errorf "rpc down")) (Errorf "rpc down"));
    vm_compute; reflexivity.
Defined.

Lemma MonitorPool_unregistered_operator_witness :
  Sortition.MonitorPool Sample.unregisteredChain
    [Sortition.Tick; Sortition.Tick] []
  = ([], Err Sortition.errOperatorUnknown).
Proof.
  apply (MonitorPool_unregistered_operator Sample.unregisteredChain
           [Sortition.Tick; Sortition.Tick] [] EmptyString).
  reflexivity.
Defined.

(** ** SPV maintainer: the wallets and the transactions it looks at *)

Section UniqueWallets.
Import Spv.

Lemma hexDigit_inj (n m : N) :
  (n < 16)%N -> (m < 16)%N -> hexDigit n = hexDigit m -> n = m.
Proof.
  intros Hn Hm.
  rewrite <- (N2Nat.id n), <- (N2Nat.id m).
  assert (Hn' : (N.to_nat n < 16)%nat) by lia.
  assert (Hm' : (N.to_nat m < 16)%nat) by lia.
  generalize dependent (N.to_nat m). generalize dependent (N.to_nat n).
  clear. intros a Ha b Hb.
  do 16 (destruct a as [|a]; [
    do 16 (destruct b as [|b]; [simpl; intros H; first [reflexivity | discriminate H] |]);
    lia |]).
  lia.
Qed.

Lemma byte_of_nibbles (b1 b2 : Byte.byte) :
  N.shiftr (Byte.to_N b1) 4 = N.shiftr (Byte.to_N b2) 4 ->
  N.land (Byte.to_N b1) 15 = N.land (Byte.to_N b2) 15 ->
  b1 = b2.
Proof.
  intros Hhi Hlo.
  assert (Hsome : Some b1 = Some b2); [| injection Hsome; auto].
  rewrite <- (Byte.of_to_N b1), <- (Byte.of_to_N b2). f_equal.
  rewrite !N.shiftr_div_pow2 in Hhi.
  change 15%N with (N.ones 4) in Hlo. rewrite !N.land_ones in Hlo.
  rewrite (N.div_mod (Byte.to_N b1) (2 ^ 4)) by discriminate.
  rewrite (N.div_mod (Byte.to_N b2) (2 ^ 4)) by discriminate.
  rewrite Hhi, Hlo. reflexivity.
Qed.

Lemma nibbles_small (b : Byte.byte) :
  (N.shiftr (Byte.to_N b) 4 < 16)%N /\ (N.land (Byte.to_N b) 15 < 16)%N.
Proof.
  pose proof (Byte.to_N_bounded b) as Hb.
  rewrite N.shiftr_div_pow2.
  change 15%N with (N.ones 4). rewrite N.land_ones.
  split.
  - apply N.Div0.div_lt_upper_bound. simpl. lia.
  - apply N.mod_lt. discriminate.
Qed.

(** The hexadecimal form tells byte strings apart. *)
Lemma EncodeToString_inj (a b : list Byte.byte) :
  EncodeToString a = EncodeToString b -> a = b.
Proof.
  revert b. induction a as [|x a IH]; intros [|y b]; simpl;
    try discriminate; [reflexivity |].
  intros H. injection H as Hhi Hlo Hrest.
  destruct (nibbles_small x) as [Hx1 Hx2].
  destruct (nibbles_small y) as [Hy1 Hy2].
  apply hexDigit_inj in Hhi; [| assumption ..].
  apply hexDigit_inj in Hlo; [| assumption ..].
  f_equal; [apply byte_of_nibbles; assumption | apply IH; exact Hrest].
Qed.

Abbreviation keyOf := (fun event => WalletPublicKeyHash (Proposal event)).

Lemma uniqueStep_invariant events : forall cache hashes,
  (forall s, s ∈ cache <-> exists k, k ∈ hashes /\ s = EncodeToString k) ->
  NoDup hashes ->
  let hashes' := snd (fold_left uniqueStep events (cache, hashes)) in
  NoDup hashes' /\
  (forall k, k ∈ hashes' <-> k ∈ hashes \/ k ∈ map keyOf events) /\
  exists added, hashes' = hashes ++ added /\ sublist added (map keyOf events).
Proof.
  induction events as [|event events IH]; intros cache hashes Hcache Hnodup.
  - simpl. split; [exact Hnodup |]. split.
    + intros k. rewrite elem_of_nil. tauto.
    + exists []. rewrite app_nil_r. split; [reflexivity | constructor].
  - cbn [fold_left map]. cbv zeta.
    set (key := WalletPublicKeyHash (Proposal event)).
    destruct (decide (EncodeToString key ∈ cache)) as [Hseen | Hnew].
    + assert (Hstep : uniqueStep (cache, hashes) event = (cache, hashes)).
      { unfold uniqueStep. fold key.
        rewrite bool_decide_eq_true_2 by exact Hseen. reflexivity. }
      rewrite Hstep.
      assert (Hin : key ∈ hashes).
      { apply Hcache in Hseen. destruct Hseen as (k & Hk & Heq).
        apply EncodeToString_inj in Heq. subst. exact Hk. }
      destruct (IH cache hashes Hcache Hnodup) as (Hnd & Helem & added & Heq & Hsub).
      split; [exact Hnd |]. split.
      * intros k. rewrite Helem, elem_of_cons.
        split; [tauto |]. intros [H | [-> | H]]; auto.
      * exists added. split; [exact Heq |]. apply sublist_cons. exact Hsub.
    + assert (Hstep : uniqueStep (cache, hashes) event
                      = ({[EncodeToString key]} ∪ cache, hashes ++ [key])).
      { unfold uniqueStep. fold key.
        rewrite bool_decide_eq_false_2 by exact Hnew. reflexivity. }
      rewrite Hstep.
      assert (Hnotin : key ∉ hashes).
      { intros Hin. apply Hnew. apply Hcache. exists key. auto. }
      destruct (IH ({[EncodeToString key]} ∪ cache) (hashes ++ [key]))
        as (Hnd & Helem & added & Heq & Hsub).
      * intros s. rewrite elem_of_union, elem_of_singleton, Hcache.
        split.
        -- intros [-> | (k & Hk & ->)].
           ++ exists key. rewrite elem_of_app, list_elem_of_singleton. auto.
           ++ exists k. rewrite elem_of_app. auto.
        -- intros (k & Hk & ->). rewrite elem_of_app, list_elem_of_singleton in Hk.
           destruct Hk as [Hk | ->]; [right; exists k; auto | left; reflexivity].
      * apply NoDup_app. split; [exact Hnodup |]. split.
        -- intros x Hx Hx'. apply list_elem_of_singleton in Hx'. subst. contradiction.
        -- apply NoDup_singleton.
      * split; [exact Hnd |]. split.
        -- intros k. rewrite Helem, elem_of_app, list_elem_of_singleton, elem_of_cons.
           tauto.
        -- exists (key :: added). split.
           ++ rewrite Heq, <- app_assoc. reflexivity.
           ++ apply sublist_skip. exact Hsub.
Qed.


End UniqueWallets.


Section UnprovenBatch.
Import Spv.

Variable chain : Chain.
Variable btcChain : Bitcoin.Chain.

Lemma bind_wrap_err_ok {A B} format (o : outcome A) (k : A -> outcome B) b :
  bind (wrap_err format o) k = Ok b -> exists a, o = Ok a /\ k a = Ok b.
Proof.
  destruct o as [a | e | reason]; simpl; try discriminate.
  intros H. exists a. auto.
Qed.

Lemma walletTransactionsLoop_ok walletPublicKeyHash walletTransactions :
  forall unproven result,
    walletTransactionsLoop chain btcChain walletPublicKeyHash
      walletTransactions unproven = Ok result ->
    exists kept,
      result = unproven ++ kept /\
      sublist kept walletTransactions /\
      forall transaction,
        transaction ∈ kept <->
        transaction ∈ walletTransactions /\
        isUnprovenDepositSweepTransaction chain btcChain
          transaction walletPublicKeyHash = Ok true.
Proof.
  induction walletTransactions as [|tx rest IH]; intros unproven result H.
  - injection H as <-. exists []. rewrite app_nil_r.
    split; [reflexivity |]. split; [constructor |].
    intros transaction. rewrite !elem_of_nil. tauto.
  - cbn [walletTransactionsLoop] in H.
    apply bind_wrap_err_ok in H. destruct H as (isUnproven & Hcheck & H).
    apply IH in H. destruct H as (kept & -> & Hsub & Hkept).
    destruct isUnproven.
    + exists (tx :: kept). split; [rewrite <- app_assoc; reflexivity |].
      split; [apply sublist_skip; exact Hsub |].
      intros transaction. rewrite !elem_of_cons, Hkept.
      split; [intros [-> | []]; auto | intros [[-> | ?] ?]; auto].
    + exists kept. split; [reflexivity |].
      split; [apply sublist_cons; exact Hsub |].
      intros transaction. rewrite elem_of_cons, Hkept.
      split; [intros []; auto | intros [[-> | ?] ?]; auto].
      congruence.
Qed.

Lemma walletsLoop_ok walletPublicKeyHashes :
  forall unproven result,
    walletsLoop chain btcChain walletPublicKeyHashes unproven = Ok result ->
    forall transaction,
      transaction ∈ result <->
      transaction ∈ unproven \/
      exists walletPublicKeyHash walletTransactions,
        walletPublicKeyHash ∈ walletPublicKeyHashes /\
        Bitcoin.GetTransactionsForPublicKeyHash btcChain walletPublicKeyHash 5
        = Ok walletTransactions /\
        transaction ∈ walletTransactions /\
        isUnprovenDepositSweepTransaction chain btcChain
          transaction walletPublicKeyHash = Ok true.
Proof.
  induction walletPublicKeyHashes as [|w rest IH]; intros unproven result H tx.
  - injection H as <-. split; [auto |].
    intros [? | (? & ? & Hin & _)]; [assumption |].
    apply elem_of_nil in Hin. contradiction.
  - cbn [walletsLoop] in H.
    apply bind_wrap_err_ok in H. destruct H as (txs & Htxs & H).
    destruct (walletTransactionsLoop chain btcChain w txs unproven)
      as [unproven' | |] eqn:Hinner; try discriminate.
    simpl in H.
    apply walletTransactionsLoop_ok in Hinner.
    destruct Hinner as (kept & -> & _ & Hkept).
    rewrite (IH _ _ H tx), elem_of_app, Hkept. split.
    + intros [[? | [? ?]] | (w' & txs' & ? & ? & ? & ?)]; [auto | |].
      * right. exists w, txs. rewrite elem_of_cons. auto.
      * right. exists w', txs'. rewrite elem_of_cons. auto.
    + intros [? | (w' & txs' & Hw & Htxs' & ? & ?)]; [auto |].
      apply elem_of_cons in Hw. destruct Hw as [-> | Hw].
      * left. right. rewrite Htxs in Htxs'. injection Htxs' as <-. auto.
      * right. exists w', txs'. auto.
Qed.

(** X11. When [getUnprovenDepositSweepTransactions] returns a batch, the chain
    gave the current block and the proposal events from the start block on,
    and the batch holds exactly the transactions of the wallets of these
    events, among the five latest the Bitcoin chain lists for the wallet,
    that the check finds to be unproven deposit sweeps of that wallet. *)
Theorem getUnprovenDepositSweepTransactions_batch batch :
  getUnprovenDepositSweepTransactions chain btcChain = Ok batch ->
  exists blockCounter currentBlock events,
    GetBlockCounter chain = Ok blockCounter /\
    CurrentBlock blockCounter = Ok currentBlock /\
    PastDepositSweepProposalSubmittedEvents chain
      {| StartBlock := depositSweepFilterStartBlock currentBlock |}
    = Ok events /\
    forall transaction,
      transaction ∈ batch <->
      exists event walletTransactions,
        event ∈ events /\
        Bitcoin.GetTransactionsForPublicKeyHash btcChain
          (WalletPublicKeyHash (Proposal event)) 5 = Ok walletTransactions /\
        transaction ∈ walletTransactions /\
        isUnprovenDepositSweepTransaction chain btcChain transaction
          (WalletPublicKeyHash (Proposal event)) = Ok true.
Proof.
  unfold getUnprovenDepositSweepTransactions. intros H.
  apply bind_wrap_err_ok in H. destruct H as (blockCounter & Hcounter & H).
  apply bind_wrap_err_ok in H. destruct H as (currentBlock & Hcurrent & H).
  cbv zeta in H.
  apply bind_wrap_err_ok in H. destruct H as (events & Hevents & H).
  exists blockCounter, currentBlock, events.
  split; [exact Hcounter |]. split; [exact Hcurrent |].
  split; [exact Hevents |].
  intros transaction. rewrite (walletsLoop_ok _ _ _ H transaction).
  destruct (uniqueStep_invariant events ∅ []) as (_ & Helem & _).
  { intros s. rewrite elem_of_empty. split; [tauto |].
    intros (k & Hk & _). apply elem_of_nil in Hk. exact Hk. }
  { apply NoDup_nil_2. }
  cbv zeta in Helem. fold (uniqueWalletPublicKeyHashes events) in Helem.
  split.
  - intros [Hnil | (w & txs & Hw & Htxs & Hin & Hcheck)];
      [apply elem_of_nil in Hnil; contradiction |].
    apply Helem in Hw. destruct Hw as [Hw | Hw];
      [apply elem_of_nil in Hw; contradiction |].
    apply list_elem_of_fmap in Hw. destruct Hw as (event & -> & Hevent).
    exists event, txs. auto.
  - intros (event & txs & Hevent & Htxs & Hin & Hcheck). right.
    exists (WalletPublicKeyHash (Proposal event)), txs.
    split; [| auto].
    apply Helem. right.
    apply list_elem_of_fmap. exists event. auto.
Qed.

End UnprovenBatch.


Lemma getUnprovenDepositSweepTransactions_batch_witness :
  exists blockCounter currentBlock events,
    Spv.GetBlockCounter Sample.spvChain = Ok blockCounter /\
    Spv.CurrentBlock blockCounter = Ok currentBlock /\
    Spv.PastDepositSweepProposalSubmittedEvents Sample.spvChain
      {| Spv.StartBlock := Spv.depositSweepFilterStartBlock currentBlock |}
    = Ok events /\
    forall transaction,
      transaction ∈ [Sample.sweep1; Sample.sweep2] <->
      exists event walletTransactions,
        event ∈ events /\
        Bitcoin.GetTransactionsForPublicKeyHash Sample.spvBtcChain
          (Spv.WalletPublicKeyHash (Spv.Proposal event)) 5
        = Ok walletTransactions /\
        transaction ∈ walletTransactions /\
        Spv.isUnprovenDepositSweepTransaction Sample.spvChain
          Sample.spvBtcChain transaction
          (Spv.WalletPublicKeyHash (Spv.Proposal event)) = Ok true.
Proof.
  apply (getUnprovenDepositSweepTransactions_batch
           Sample.spvChain Sample.spvBtcChain [Sample.sweep1; Sample.sweep2]).
  vm_compute. reflexivity.
Defined.

(** ** The moving funds task *)

Section TargetWallets.
Import MovingFundsTask.

Variable chain : Chain.

(** X12. The number of target wallets is the balance divided by the maximum
    transfer, rounded up: the least number of transfers of at most the
    maximum that move the whole balance. *)
Theorem ceilingDivide_rounds_up (x y : Z) :
  0 <= x < 2 ^ 64 -> 0 < y ->
  0 <= ceilingDivide x y /\
  (ceilingDivide x y - 1) * y < x <= ceilingDivide x y * y.
Proof.
  intros Hx Hy. unfold ceilingDivide.
  destruct (Z.eqb_spec x 0) as [-> | Hnz]; [lia |].
  rewrite (uint64_small (x - 1)) by (unfold GoInt.is_uint64; lia).
  pose proof (Z.div_mod (x - 1) y ltac:(lia)) as Hdiv.
  pose proof (Z.mod_pos_bound (x - 1) y Hy) as Hmod.
  assert (Hq : 0 <= (x - 1) / y <= x - 1).
  { split; [apply Z.div_pos; lia |].
    apply Z.div_le_upper_bound; [lia | nia]. }
  rewrite (uint64_small (1 + (x - 1) / y)) by (unfold GoInt.is_uint64; lia).
  split; [lia |]. nia.
Qed.

Lemma ceilingDivide_nonneg (x y : Z) : 0 <= ceilingDivide x y.
Proof.
  unfold ceilingDivide. destruct (x =? 0); [lia |].
  unfold GoInt.uint64. apply Z.mod_pos_bound. lia.
Qed.

Lemma take_of_length {A} (k m : nat) (l : list A) :
  length (take k l) = m -> take k l = take m l.
Proof.
  revert k m. induction l as [|x l IH]; intros [|k] [|m]; simpl;
    try reflexivity; try discriminate.
  intros H. injection H as H. f_equal. apply IH. exact H.
Qed.

Lemma targetWalletsLoop_gathers source count events :
  forall targetWallets gathered,
    targetWalletsLoop chain source count events targetWallets = Ok gathered ->
    exists k,
      gathered =
      targetWallets ++
      take k (List.filter (isLiveTarget chain source)
                (map WalletPublicKeyHash events)).
Proof.
  induction events as [|event earlier IH]; intros targetWallets gathered H.
  - injection H as <-. exists 0%nat. rewrite app_nil_r. reflexivity.
  - cbn [targetWalletsLoop] in H. cbn [map List.filter].
    unfold isLiveTarget at 1.
    destruct (bytesEqual (WalletPublicKeyHash event) source); cbn [negb andb].
    + apply IH. exact H.
    + destruct (GetWallet chain (WalletPublicKeyHash event)) as [wallet | e | r];
        [| apply IH; exact H | discriminate].
      cbv zeta in H.
      destruct (bool_decide (State wallet = StateLive)).
      * destruct (Z.of_nat (length (targetWallets ++ [WalletPublicKeyHash event]))
                  =? count).
        -- injection H as <-. exists 1%nat. reflexivity.
        -- apply IH in H. destruct H as (k & ->). exists (S k).
           rewrite <- app_assoc. reflexivity.
      * destruct (Z.of_nat (length targetWallets) =? count).
        -- injection H as <-. exists 0%nat. rewrite app_nil_r. reflexivity.
        -- apply IH. exact H.
Qed.

Lemma targetWalletsLoop_returns source count events :
  (forall event reason,
     event ∈ events ->
     GetWallet chain (WalletPublicKeyHash event) <> Panic reason) ->
  forall targetWallets,
    exists gathered,
      targetWalletsLoop chain source count events targetWallets = Ok gathered.
Proof.
  induction events as [|event earlier IH]; intros Hpanic targetWallets.
  - exists targetWallets. reflexivity.
  - cbn [targetWalletsLoop].
    assert (Hearlier : forall event0 reason,
              event0 ∈ earlier ->
              GetWallet chain (WalletPublicKeyHash event0) <> Panic reason).
    { intros event0 reason Hin. apply Hpanic. apply elem_of_cons. auto. }
    destruct (bytesEqual (WalletPublicKeyHash event) source);
      [apply IH; exact Hearlier |].
    destruct (GetWallet chain (WalletPublicKeyHash event)) as [wallet | e | r]
      eqn:Hget.
    + cbv zeta.
      match goal with |- context [if ?c =? count then _ else _] =>
        destruct (c =? count) end;
        [eexists; reflexivity | apply IH; exact Hearlier].
    + apply IH. exact Hearlier.
    + exfalso. apply (Hpanic event r); [apply elem_of_cons; auto | exact Hget].
Qed.

Lemma numericOrder_total : Total numericOrder.
Proof. intros a b. unfold numericOrder. lia. Qed.

Lemma numericOrder_transitive : Transitive numericOrder.
Proof. intros a b c. unfold numericOrder. lia. Qed.

Lemma targetWalletsCount_small liveWalletsCount x y :
  0 <= liveWalletsCount < 2 ^ 32 ->
  GoInt.int64 (min (GoInt.uint64 liveWalletsCount) (ceilingDivide x y))
  = Z.min liveWalletsCount (ceilingDivide x y).
Proof.
  intros Hlive.
  rewrite (uint64_small liveWalletsCount) by (unfold GoInt.is_uint64; lia).
  pose proof (ceilingDivide_nonneg x y) as Hc.
  assert (Hmin : min liveWalletsCount (ceilingDivide x y)
                 = Z.min liveWalletsCount (ceilingDivide x y)).
  { unfold min. destruct (Z.ltb_spec liveWalletsCount (ceilingDivide x y)); lia. }
  rewrite Hmin. apply int64_small. unfold GoInt.is_int64. lia.
Qed.

(** X13. When [findNewTargetWallets] returns target wallets, the maximum
    transfer is not zero and the wallets are, sorted by their numeric
    value, the newest registered wallets other than the source that the
    chain reports Live, as many of them as the smaller of the number of
    Live wallets and the number of transfers the balance needs. *)
Theorem findNewTargetWallets_newest_live_sorted
  source walletBalance liveWalletsCount targetWallets :
  0 <= liveWalletsCount < 2 ^ 32 ->
  findNewTargetWallets chain source walletBalance liveWalletsCount
  = Ok targetWallets ->
  exists walletMaxBtcTransfer events,
    GetWalletParameters chain = Ok walletMaxBtcTransfer /\
    walletMaxBtcTransfer <> 0 /\
    PastNewWalletRegisteredEvents chain = Ok events /\
    let count :=
      Z.min liveWalletsCount
            (ceilingDivide walletBalance walletMaxBtcTransfer) in
    Z.of_nat (length targetWallets) = count /\
    targetWallets ≡ₚ
      take (Z.to_nat count)
           (List.filter (isLiveTarget chain source)
              (map WalletPublicKeyHash (rev events))) /\
    StronglySorted numericOrder targetWallets.
Proof.
  intros Hlive H. unfold findNewTargetWallets in H.
  apply bind_wrap_err_ok in H. destruct H as (maxTransfer & Hparams & H).
  destruct (Z.eqb_spec maxTransfer 0) as [| Hnz]; [discriminate |].
  cbv zeta in H.
  apply bind_wrap_err_ok in H. destruct H as (events & Hevents & H).
  rewrite targetWalletsCount_small in H by exact Hlive.
  set (count := Z.min liveWalletsCount (ceilingDivide walletBalance maxTransfer))
    in *.
  destruct (targetWalletsLoop chain source count (rev events) [])
    as [gathered | |] eqn:Hloop; try discriminate.
  simpl in H.
  destruct (Z.eqb_spec (Z.of_nat (length gathered)) count) as [Hlen | ];
    [| discriminate].
  injection H as <-.
  exists maxTransfer, events.
  split; [exact Hparams |]. split; [exact Hnz |]. split; [exact Hevents |].
  cbv zeta. fold count.
  pose proof (merge_sort_Permutation numericOrder gathered) as Hperm.
  fold (sortTargetWallets gathered) in Hperm.
  split; [rewrite Hperm; exact Hlen |]. split.
  - rewrite Hperm.
    apply targetWalletsLoop_gathers in Hloop. destruct Hloop as (k & Hk).
    simpl in Hk. rewrite Hk.
    rewrite (take_of_length k (Z.to_nat count)); [reflexivity |].
    rewrite <- Hk. lia.
  - apply StronglySorted_merge_sort;
      [apply numericOrder_transitive | apply numericOrder_total].
Qed.

(** X14. When the registered wallets hold fewer Live wallets other than the
    source than the task needs, [findNewTargetWallets] returns the error
    that wraps [ErrNotEnoughTargetWallets]. *)
Theorem findNewTargetWallets_not_enough
  source walletBalance liveWalletsCount walletMaxBtcTransfer events :
  0 <= liveWalletsCount < 2 ^ 32 ->
  GetWalletParameters chain = Ok walletMaxBtcTransfer ->
  walletMaxBtcTransfer <> 0 ->
  PastNewWalletRegisteredEvents chain = Ok events ->
  (forall event reason,
     event ∈ events ->
     GetWallet chain (WalletPublicKeyHash event) <> Panic reason) ->
  Z.of_nat (length (List.filter (isLiveTarget chain source)
                      (map WalletPublicKeyHash events)))
  < Z.min liveWalletsCount (ceilingDivide walletBalance walletMaxBtcTransfer) ->
  findNewTargetWallets chain source walletBalance liveWalletsCount
  = Err (Wrapf "%w: required [%v] target wallets; gathered [%v]"
           ErrNotEnoughTargetWallets).
Proof.
  intros Hlive Hparams Hnz Hevents Hpanic Hfew.
  unfold findNewTargetWallets. rewrite Hparams. simpl.
  destruct (Z.eqb_spec walletMaxBtcTransfer 0) as [| _]; [contradiction |].
  rewrite Hevents. simpl.
  rewrite targetWalletsCount_small by exact Hlive.
  set (count := Z.min liveWalletsCount
                  (ceilingDivide walletBalance walletMaxBtcTransfer)) in *.
  destruct (targetWalletsLoop_returns source count (rev events)) with
    (targetWallets := @nil (list Byte.byte)) as (gathered & Hloop).
  { intros event reason Hin. apply Hpanic.
    apply list_elem_of_In. apply in_rev. apply list_elem_of_In. exact Hin. }
  rewrite Hloop. simpl.
  apply targetWalletsLoop_gathers in Hloop. destruct Hloop as (k & Hk).
  simpl in Hk.
  assert (Hshort : Z.of_nat (length gathered) < count).
  { rewrite Hk, length_take.
    assert (Hsame :
      length (List.filter (isLiveTarget chain source)
                (map WalletPublicKeyHash (rev events)))
      = length (List.filter (isLiveTarget chain source)
                  (map WalletPublicKeyHash events))).
    { rewrite map_rev, List.filter_rev, length_rev. reflexivity. }
    lia. }
  destruct (Z.eqb_spec (Z.of_nat (length gathered)) count); [lia |].
  reflexivity.
Qed.

End TargetWallets.


Section WalletMembers.
Import MovingFundsTask.

Variable chain : Chain.

Lemma walletMembersLoop_spec executingOperator walletOperators :
  forall index walletMemberIndex cache ids fetched fetched' answer,
    0 <= index ->
    (forall a, a ∈ fetched <-> is_Some (cache !! a)) ->
    (forall a id, cache !! a = Some id -> GetOperatorID chain a = Ok id) ->
    NoDup fetched ->
    walletMembersLoop chain executingOperator walletOperators index
      walletMemberIndex cache ids fetched = (fetched', answer) ->
    NoDup fetched' /\
    (exists more,
       fetched' = fetched ++ more /\ forall a, a ∈ more -> a ∈ walletOperators) /\
    forall ids' walletMemberIndex',
      answer = Ok (ids', walletMemberIndex') ->
      (forall a, a ∈ walletOperators -> a ∈ fetched') /\
      (exists newIds,
         ids' = ids ++ newIds /\
         Forall2 (fun a id => GetOperatorID chain a = Ok id)
                 walletOperators newIds) /\
      (walletMemberIndex <> 0 -> walletMemberIndex' = walletMemberIndex) /\
      (walletMemberIndex = 0 ->
       (walletMemberIndex' = 0 /\ executingOperator ∉ walletOperators) \/
       exists k : nat,
         walletOperators !! k = Some executingOperator /\
         (forall j : nat, (j < k)%nat ->
            walletOperators !! j <> Some executingOperator) /\
         walletMemberIndex' = index + Z.of_nat k + 1).
Proof.
  induction walletOperators as [|a later IH];
    intros index wmi cache ids fetched fetched' answer
           Hindex Hdom Hcache Hnodup H.
  - injection H as <- <-. split; [exact Hnodup |]. split.
    + exists []. rewrite app_nil_r. split; [reflexivity |].
      intros a Ha. exact Ha.
    + intros ids' wmi' Hok. injection Hok as <- <-.
      split; [intros a Ha; apply elem_of_nil in Ha; contradiction |].
      split; [exists []; rewrite app_nil_r; split; [reflexivity | constructor] |].
      split; [reflexivity |].
      intros ->. left. split; [reflexivity | apply not_elem_of_nil].
  - cbn [walletMembersLoop] in H. cbv zeta in H.
    set (wmi1 := if bool_decide (a = executingOperator) && (wmi =? 0)
                 then index + 1 else wmi) in H.
    assert (Hindex' : 0 <= index + 1) by lia.
    (* what the rest of the loop gives, brought back to the whole list *)
    assert (Hrest : forall cache1 ids1 fetched1 id,
      GetOperatorID chain a = Ok id ->
      ids1 = ids ++ [id] ->
      a ∈ fetched1 ->
      (exists more1, fetched1 = fetched ++ more1 /\
                     forall x, x ∈ more1 -> x ∈ a :: later) ->
      (forall x, x ∈ fetched1 <-> is_Some (cache1 !! x)) ->
      (forall x i, cache1 !! x = Some i -> GetOperatorID chain x = Ok i) ->
      NoDup fetched1 ->
      walletMembersLoop chain executingOperator later (index + 1) wmi1
        cache1 ids1 fetched1 = (fetched', answer) ->
      NoDup fetched' /\
      (exists more,
         fetched' = fetched ++ more /\ forall x, x ∈ more -> x ∈ a :: later) /\
      forall ids' wmi',
        answer = Ok (ids', wmi') ->
        (forall x, x ∈ a :: later -> x ∈ fetched') /\
        (exists newIds,
           ids' = ids ++ newIds /\
           Forall2 (fun x i => GetOperatorID chain x = Ok i)
                   (a :: later) newIds) /\
        (wmi <> 0 -> wmi' = wmi) /\
        (wmi = 0 ->
         (wmi' = 0 /\ executingOperator ∉ a :: later) \/
         exists k : nat,
           (a :: later) !! k = Some executingOperator /\
           (forall j : nat, (j < k)%nat ->
              (a :: later) !! j <> Some executingOperator) /\
           wmi' = index + Z.of_nat k + 1)).
    { intros cache1 ids1 fetched1 id Hid -> Hin1 (more1 & -> & Hmore1)
             Hdom1 Hcache1 Hnodup1 Hloop.
      destruct (IH _ _ _ _ _ _ _ Hindex' Hdom1 Hcache1 Hnodup1 Hloop)
        as (Hnd & (more & -> & Hmore) & Hok).
      split; [exact Hnd |]. split.
      - exists (more1 ++ more). split; [rewrite app_assoc; reflexivity |].
        intros x Hx. apply elem_of_app in Hx. destruct Hx as [Hx | Hx];
          [apply Hmore1; exact Hx | apply elem_of_cons; right; apply Hmore; exact Hx].
      - intros ids' wmi' Hanswer.
        destruct (Hok _ _ Hanswer) as (Hall & (newIds & -> & Hids) & Hkeep & Hfirst).
        split.
        + intros x Hx. apply elem_of_cons in Hx. destruct Hx as [-> | Hx];
            [apply elem_of_app; left; exact Hin1 | apply Hall; exact Hx].
        + split.
          * exists (id :: newIds). split; [rewrite <- app_assoc; reflexivity |].
            constructor; assumption.
          * subst wmi1.
            destruct (decide (a = executingOperator)) as [Heq | Hne].
            -- rewrite (bool_decide_eq_true_2 _ Heq) in *. cbn [andb] in *.
               destruct (Z.eqb_spec wmi 0) as [Hz | Hnz].
               ++ split; [intros; contradiction |]. intros _. right.
                  exists 0%nat. split; [simpl; congruence |].
                  split; [intros j Hj; lia |].
                  rewrite Hkeep by lia. lia.
               ++ split; [intros _; apply Hkeep; exact Hnz |].
                  intros; contradiction.
            -- rewrite (bool_decide_eq_false_2 _ Hne) in *. cbn [andb] in *.
               split; [exact Hkeep |].
               intros Hz. destruct (Hfirst Hz) as [[-> Hnot] | (k & Hk & Hbefore & ->)].
               ++ left. split; [reflexivity |].
                  intros Hx. apply elem_of_cons in Hx.
                  destruct Hx as [Hx | Hx]; [congruence | contradiction].
               ++ right. exists (S k). split; [exact Hk |]. split; [| lia].
                  intros [|j] Hj; simpl; [congruence | apply Hbefore; lia]. }
    destruct (cache !! a) as [operatorID |] eqn:Hlookup.
    + apply (Hrest cache (ids ++ [operatorID]) fetched operatorID);
        [apply Hcache; exact Hlookup | reflexivity
        | apply Hdom; rewrite Hlookup; eauto
        | exists []; rewrite app_nil_r; split;
            [reflexivity | intros x Hx; apply elem_of_nil in Hx; contradiction]
        | exact Hdom | exact Hcache | exact Hnodup | exact H].
    + assert (Hnew : a ∉ fetched).
      { intros Hin. apply Hdom in Hin. rewrite Hlookup in Hin.
        destruct Hin as [? Hin]. discriminate. }
      assert (Hnodup1 : NoDup (fetched ++ [a])).
      { apply NoDup_app. split; [exact Hnodup |]. split.
        - intros x Hx Hx'. apply list_elem_of_singleton in Hx'. subst.
          contradiction.
        - apply NoDup_singleton. }
      assert (Hmore1 : exists more1, fetched ++ [a] = fetched ++ more1 /\
                        forall x, x ∈ more1 -> x ∈ a :: later).
      { exists [a]. split; [reflexivity |].
        intros x Hx. apply list_elem_of_singleton in Hx. subst.
        apply elem_of_cons. auto. }
      destruct (GetOperatorID chain a) as [id | e | reason] eqn:Hid.
      * apply (Hrest (<[a := id]> cache) (ids ++ [id]) (fetched ++ [a]) id);
          [reflexivity | reflexivity
          | apply elem_of_app; right; apply list_elem_of_singleton; reflexivity
          | exact Hmore1 | | | exact Hnodup1 | exact H].
        -- intros x. rewrite elem_of_app, list_elem_of_singleton.
           destruct (decide (x = a)) as [-> | Hne].
           ++ rewrite lookup_insert_eq. split; [eauto | auto].
           ++ rewrite lookup_insert_ne by congruence. rewrite Hdom.
              split; [intros [? | ?]; [assumption | contradiction] | auto].
        -- intros x i. destruct (decide (x = a)) as [-> | Hne].
           ++ rewrite lookup_insert_eq. intros Hi. injection Hi as <-. exact Hid.
           ++ rewrite lookup_insert_ne by congruence. apply Hcache.
      * injection H as <- <-. split; [exact Hnodup1 |].
        split; [exact Hmore1 | intros; discriminate].
      * injection H as <- <-. split; [exact Hnodup1 |].
        split; [exact Hmore1 | intros; discriminate].
Qed.

Lemma walletMembersLoop_start executingOperator walletOperators fetched' answer :
  walletMembersLoop chain executingOperator walletOperators 0 0 ∅ [] []
  = (fetched', answer) ->
  NoDup fetched' /\
  (exists more,
     fetched' = [] ++ more /\ forall a, a ∈ more -> a ∈ walletOperators) /\
  forall ids' walletMemberIndex',
    answer = Ok (ids', walletMemberIndex') ->
    (forall a, a ∈ walletOperators -> a ∈ fetched') /\
    (exists newIds,
       ids' = [] ++ newIds /\
       Forall2 (fun a id => GetOperatorID chain a = Ok id)
               walletOperators newIds) /\
    (0 <> 0 -> walletMemberIndex' = 0) /\
    (0 = 0 ->
     (walletMemberIndex' = 0 /\ executingOperator ∉ walletOperators) \/
     exists k : nat,
       walletOperators !! k = Some executingOperator /\
       (forall j : nat, (j < k)%nat ->
          walletOperators !! j <> Some executingOperator) /\
       walletMemberIndex' = 0 + Z.of_nat k + 1).
Proof.
  apply walletMembersLoop_spec.
  - lia.
  - intros a. rewrite lookup_empty, elem_of_nil.
    split; [tauto | intros [? ?]; discriminate].
  - intros a id. rewrite lookup_empty. discriminate.
  - apply NoDup_nil_2.
Qed.

(** X15. When [GetWalletMembersInfo] returns, the member IDs are, position by
    position, the operator IDs the chain gives for the wallet operators,
    and the member index is the position, counted from one, of the first
    occurrence of the executing operator on the list. *)
Theorem GetWalletMembersInfo_ids_and_first_position
  walletOperators executingOperator fetched walletMemberIDs walletMemberIndex :
  GetWalletMembersInfo chain walletOperators executingOperator
  = (fetched, Ok (walletMemberIDs, walletMemberIndex)) ->
  Forall2 (fun operatorAddress operatorID =>
             GetOperatorID chain operatorAddress = Ok operatorID)
          walletOperators walletMemberIDs /\
  exists k : nat,
    walletOperators !! k = Some executingOperator /\
    (forall j : nat, (j < k)%nat ->
       walletOperators !! j <> Some executingOperator) /\
    walletMemberIndex = uint32 (Z.of_nat k + 1).
Proof.
  unfold GetWalletMembersInfo. intros H.
  destruct (walletMembersLoop chain executingOperator walletOperators 0 0 ∅ [] [])
    as [fetched0 [[ids wmi] | e | reason]] eqn:Hloop; try discriminate.
  destruct (Z.eqb_spec wmi 0) as [| Hnz]; [discriminate |].
  injection H as <- <- <-.
  destruct (walletMembersLoop_start _ _ _ _ Hloop)
    as (_ & _ & Hok).
  destruct (Hok _ _ eq_refl) as (_ & (newIds & -> & Hids) & _ & Hfirst).
  split; [exact Hids |].
  destruct (Hfirst eq_refl) as [[-> _] | (k & Hk & Hbefore & ->)];
    [contradiction |].
  exists k. split; [exact Hk |]. split; [exact Hbefore |]. reflexivity.
Qed.

(** X16. [GetWalletMembersInfo] asks the chain for the ID of an operator at most
    once, and only of operators of the wallet; when it returns the IDs, it
    has asked for the ID of every operator of the wallet. *)
Theorem GetWalletMembersInfo_fetches_each_operator_once
  walletOperators executingOperator fetched answer :
  GetWalletMembersInfo chain walletOperators executingOperator
  = (fetched, answer) ->
  NoDup fetched /\
  (forall operatorAddress,
     operatorAddress ∈ fetched -> operatorAddress ∈ walletOperators) /\
  (is_ok answer = true ->
   forall operatorAddress,
     operatorAddress ∈ walletOperators -> operatorAddress ∈ fetched).
Proof.
  unfold GetWalletMembersInfo. intros H.
  destruct (walletMembersLoop chain executingOperator walletOperators 0 0 ∅ [] [])
    as [fetched0 answer0] eqn:Hloop.
  destruct (walletMembersLoop_start _ _ _ _ Hloop)
    as (Hnd & (more & Hmore & Hin) & Hok).
  simpl in Hmore. subst more.
  assert (Hfetched : fetched = fetched0).
  { destruct answer0 as [[ids wmi] | |]; [destruct (wmi =? 0) |..];
      injection H; auto. }
  subst fetched0.
  split; [exact Hnd |]. split; [exact Hin |].
  intros Hisok.
  destruct answer0 as [[ids wmi] | |].
  - destruct (Hok _ _ eq_refl) as (Hall & _). exact Hall.
  - injection H as <-. discriminate.
  - injection H as <-. discriminate.
Qed.

End WalletMembers.


Section Commitment.
Import MovingFundsTask.

Variable chain : Chain.
Variable btcChain : Bitcoin.Chain.
Variable VirtualSize : Z -> outcome Z.
Variable EstimateFee : Bitcoin.Chain -> Z -> outcome Z.
Variable ValidateMovingFundsProposal :
  list Byte.byte -> option Bitcoin.UnspentTransactionOutput ->
  MovingFundsProposal -> Chain -> option error.
Variable DetermineWalletMainUtxo :
  list Byte.byte -> Chain -> Bitcoin.Chain ->
  outcome (option Bitcoin.UnspentTransactionOutput).

(** The heights [first], [first + 1], ... the polling loop waits for. *)
Lemma confirmationLoop_polls blockCounter walletPublicKeyHash lastBlock rounds :
  forall blockHeight waited waited' answer,
    0 <= blockHeight <= lastBlock + 1 ->
    lastBlock + 1 < 2 ^ 64 ->
    (Z.to_nat (lastBlock + 1 - blockHeight) < rounds)%nat ->
    confirmationLoop chain rounds blockCounter walletPublicKeyHash
      blockHeight lastBlock waited = (waited', answer) ->
    exists (o : outcome unit) (k : nat),
      answer = Some o /\
      blockHeight + Z.of_nat k <= lastBlock + 1 /\
      waited' = waited ++ map (fun i => blockHeight + Z.of_nat i) (seq 0 k) /\
      (o = Ok tt ->
       (1 <= k)%nat /\
       exists walletData,
         GetWalletAtBlock chain (blockHeight + Z.of_nat k - 1)
           walletPublicKeyHash = Ok walletData /\
         MovingFundsTargetWalletsCommitmentHash walletData <> zeroHash) /\
      (o = Err ErrTransactionNotIncluded ->
       blockHeight + Z.of_nat k = lastBlock + 1 /\
       forall i : nat, (i < k)%nat ->
         exists walletData,
           GetWalletAtBlock chain (blockHeight + Z.of_nat i)
             walletPublicKeyHash = Ok walletData /\
           MovingFundsTargetWalletsCommitmentHash walletData = zeroHash).
Proof.
  induction rounds as [|rounds IH];
    intros blockHeight waited waited' answer Hrange Hlast Hrounds H; [lia |].
  cbn [confirmationLoop] in H.
  destruct (Z.leb_spec blockHeight lastBlock) as [Hle | Hgt]; cbn [negb] in H.
  - cbv zeta in H.
    destruct (WaitForBlockHeight blockCounter blockHeight) as [e |].
    { injection H as <- <-. eexists; exists 1%nat. split; [reflexivity |].
      split; [lia |]. split; [simpl; rewrite Z.add_0_r; reflexivity |].
      split; intros; discriminate. }
    destruct (GetWalletAtBlock chain blockHeight walletPublicKeyHash)
      as [walletData | e | reason] eqn:Hget.
    + unfold bytesEqual in H.
      destruct (decide (MovingFundsTargetWalletsCommitmentHash walletData
                        = zeroHash)) as [Hzero | Hset].
      * rewrite (bool_decide_eq_true_2 _ Hzero) in H. cbn [negb] in H.
        rewrite uint64_small in H by (unfold GoInt.is_uint64; lia).
        apply IH in H; [| lia | lia | lia].
        destruct H as (o & k & -> & Hk & -> & Hconfirmed & Hmissing).
        exists o, (S k). split; [reflexivity |]. split; [lia |]. split.
        { rewrite <- app_assoc. f_equal. cbn [seq map app].
          rewrite Z.add_0_r. f_equal.
          rewrite <- seq_shift, map_map. apply map_ext. intros i. lia. }
        split.
        -- intros Hok. destruct (Hconfirmed Hok) as (Hone & w & Hw & Hhash).
           split; [lia |]. exists w. split; [| exact Hhash].
           rewrite <- Hw. f_equal. lia.
        -- intros Herr. destruct (Hmissing Herr) as (Hend & Hall).
           split; [lia |]. intros [|i] Hi.
           ++ exists walletData. rewrite Z.add_0_r. auto.
           ++ destruct (Hall i ltac:(lia)) as (w & Hw & Hhash).
              exists w. split; [| exact Hhash]. rewrite <- Hw. f_equal. lia.
      * rewrite (bool_decide_eq_false_2 _ Hset) in H. cbn [negb] in H.
        injection H as <- <-. exists (Ok tt), 1%nat.
        split; [reflexivity |]. split; [lia |].
        split; [simpl; rewrite Z.add_0_r; reflexivity |].
        split; [| intros; discriminate].
        intros _. split; [lia |]. exists walletData.
        split; [| exact Hset]. rewrite <- Hget. f_equal. lia.
    + injection H as <- <-. eexists; exists 1%nat. split; [reflexivity |].
      split; [lia |]. split; [simpl; rewrite Z.add_0_r; reflexivity |].
      split; intros; discriminate.
    + injection H as <- <-. eexists; exists 1%nat. split; [reflexivity |].
      split; [lia |]. split; [simpl; rewrite Z.add_0_r; reflexivity |].
      split; intros; discriminate.
  - injection H as <- <-. exists (Err ErrTransactionNotIncluded), 0%nat.
    split; [reflexivity |]. split; [lia |].
    split; [rewrite app_nil_r; reflexivity |].
    split; [intros; discriminate |].
    intros _. split; [lia |]. intros i Hi. lia.
Qed.

(** X17. [SubmitMovingFundsCommitment] submits the commitment once, then waits
    for at most six block heights, the ones that follow the current block,
    and polls the wallet after each. It returns nil at the first poll that
    shows a commitment hash, and [ErrTransactionNotIncluded] only after six
    polls that show none. *)
Theorem SubmitMovingFundsCommitment_polls_six_blocks
  rounds walletPublicKeyHash mainUTXO walletMembersIDs walletMemberIndex
  targetWallets blockCounter currentBlock :
  GetBlockCounter chain = Ok blockCounter ->
  CurrentBlock blockCounter = Ok currentBlock ->
  0 <= currentBlock -> currentBlock + 6 < 2 ^ 64 - 1 ->
  (7 <= rounds)%nat ->
  let result :=
    SubmitMovingFundsCommitment chain rounds walletPublicKeyHash
      (Some mainUTXO) walletMembersIDs walletMemberIndex targetWallets in
  submitted result =
    [ {| commitmentWalletPublicKeyHash := walletPublicKeyHash;
         commitmentMainUTXO := mainUTXO;
         commitmentMembersIDs := walletMembersIDs;
         commitmentMemberIndex := walletMemberIndex;
         commitmentTargetWallets := targetWallets |} ] /\
  exists (o : outcome unit) (k : nat),
    answer result = Some o /\
    (k <= 6)%nat /\
    waited result
    = map (fun i => currentBlock + 1 + Z.of_nat i) (seq 0 k) /\
    (o = Ok tt ->
     (1 <= k)%nat /\
     exists walletData,
       GetWalletAtBlock chain (currentBlock + Z.of_nat k) walletPublicKeyHash
       = Ok walletData /\
       MovingFundsTargetWalletsCommitmentHash walletData <> zeroHash) /\
    (o = Err ErrTransactionNotIncluded ->
     k = 6%nat /\
     forall i : nat, (i < 6)%nat ->
       exists walletData,
         GetWalletAtBlock chain (currentBlock + 1 + Z.of_nat i)
           walletPublicKeyHash = Ok walletData /\
         MovingFundsTargetWalletsCommitmentHash walletData = zeroHash).
Proof.
  intros Hcounter Hcurrent Hpos Hbound Hrounds result. subst result.
  unfold SubmitMovingFundsCommitment.
  destruct (ChainSubmitMovingFundsCommitment chain _) as [e |].
  { cbn. split; [reflexivity |]. eexists; exists 0%nat.
    split; [reflexivity |]. split; [lia |]. split; [reflexivity |].
    split; intros; discriminate. }
  rewrite Hcounter, Hcurrent.
  rewrite !uint64_small by (unfold GoInt.is_uint64; lia).
  destruct (confirmationLoop chain rounds blockCounter walletPublicKeyHash
              (currentBlock + 1) (currentBlock + 6) [])
    as [waited' answer'] eqn:Hloop.
  cbn. split; [reflexivity |].
  apply confirmationLoop_polls in Hloop; [| lia | lia | lia].
  destruct Hloop as (o & k & -> & Hk & -> & Hconfirmed & Hmissing).
  exists o, k. split; [reflexivity |]. split; [lia |].
  split; [reflexivity |]. split.
  - intros Hok. destruct (Hconfirmed Hok) as (Hone & w & Hw & Hhash).
    split; [exact Hone |]. exists w. split; [| exact Hhash].
    rewrite <- Hw. f_equal. lia.
  - intros Herr. destruct (Hmissing Herr) as (Hend & Hall).
    assert (k = 6%nat) as -> by lia.
    split; [reflexivity | exact Hall].
Qed.

(** X18. A fee [EstimateMovingFundsFee] returns is not above the maximum; it is
    never negative, a negative estimate reading as a fee beyond any maximum
    a signed number can hold. *)
Theorem EstimateMovingFundsFee_within_maximum
  targetWalletsCount txMaxTotalFee fee :
  EstimateMovingFundsFee btcChain VirtualSize EstimateFee
    targetWalletsCount txMaxTotalFee = Ok fee ->
  GoInt.is_int64 fee ->
  txMaxTotalFee < 2 ^ 63 ->
  0 <= fee <= txMaxTotalFee.
Proof.
  unfold EstimateMovingFundsFee. intros H Hfee Hmax.
  apply bind_wrap_err_ok in H. destruct H as (size & _ & H).
  apply bind_wrap_err_ok in H. destruct H as (totalFee & _ & H).
  destruct (Z.ltb_spec txMaxTotalFee (GoInt.uint64 totalFee)) as [| Hle];
    [discriminate |].
  injection H as ->.
  unfold GoInt.is_int64 in Hfee. unfold GoInt.uint64 in Hle.
  destruct (Z.lt_ge_cases fee 0) as [Hneg | Hnonneg].
  - exfalso.
    assert (Hwrap : fee mod 2 ^ 64 = fee + 2 ^ 64).
    { symmetry. apply (Z.mod_unique_pos _ _ (-1)); lia. }
    lia.
  - rewrite Z.mod_small in Hle by lia. lia.
Qed.

(** X19. When [retrieveCommittedTargetWallets] returns target wallets, the chain
    has exactly one commitment event of the source wallet from the start
    block on, the wallets are those of the event, and their hash is the
    commitment hash of the wallet. The start block is the current block
    less the look-back period, and zero when the chain is younger. *)
Theorem retrieveCommittedTargetWallets_single_event
  source targetWalletsCommitmentHash targetWallets :
  retrieveCommittedTargetWallets chain source targetWalletsCommitmentHash
  = Ok targetWallets ->
  exists blockCounter currentBlock event,
    GetBlockCounter chain = Ok blockCounter /\
    CurrentBlock blockCounter = Ok currentBlock /\
    PastMovingFundsCommitmentSubmittedEvents chain
      {| StartBlock := MovingFunds.filterStartBlock currentBlock;
         FilterWalletPublicKeyHash := [source] |} = Ok [event] /\
    TargetWallets event = targetWallets /\
    ComputeMovingFundsCommitmentHash chain targetWallets
    = targetWalletsCommitmentHash /\
    (0 <= currentBlock < 2 ^ 64 ->
     MovingFunds.filterStartBlock currentBlock
     = Z.max 0 (currentBlock - MovingFunds.MovingFundsCommitmentLookBackBlocks)).
Proof.
  unfold retrieveCommittedTargetWallets. intros H.
  apply bind_wrap_err_ok in H. destruct H as (blockCounter & Hcounter & H).
  apply bind_wrap_err_ok in H. destruct H as (currentBlock & Hcurrent & H).
  cbv zeta in H.
  apply bind_wrap_err_ok in H. destruct H as (events & Hevents & H).
  destruct events as [|event [|]]; try discriminate.
  unfold bytesEqual in H.
  destruct (decide (ComputeMovingFundsCommitmentHash chain (TargetWallets event)
                    = targetWalletsCommitmentHash)) as [Hhash | Hhash].
  - rewrite (bool_decide_eq_true_2 _ Hhash) in H. injection H as <-.
    exists blockCounter, currentBlock, event.
    split; [exact Hcounter |]. split; [exact Hcurrent |].
    split; [exact Hevents |]. split; [reflexivity |].
    split; [exact Hhash |].
    intros Hrange.
    unfold MovingFunds.filterStartBlock,
      MovingFunds.MovingFundsCommitmentLookBackBlocks.
    destruct (Z.ltb_spec 216000 currentBlock); [| lia].
    rewrite uint64_small by (unfold GoInt.is_uint64; lia). lia.
  - rewrite (bool_decide_eq_false_2 _ Hhash) in H. discriminate.
Qed.

End Commitment.


Section RunTask.
Import MovingFundsTask.

Variable chain : Chain.
Variable btcChain : Bitcoin.Chain.
Variable VirtualSize : Z -> outcome Z.
Variable EstimateFee : Bitcoin.Chain -> Z -> outcome Z.
Variable ValidateMovingFundsProposal :
  list Byte.byte -> option Bitcoin.UnspentTransactionOutput ->
  MovingFundsProposal -> Chain -> option error.
Variable DetermineWalletMainUtxo :
  list Byte.byte -> Chain -> Bitcoin.Chain ->
  outcome (option Bitcoin.UnspentTransactionOutput).

Abbreviation runTask :=
  (Run chain btcChain VirtualSize EstimateFee ValidateMovingFundsProposal
       DetermineWalletMainUtxo).
Abbreviation commitAndProposeTask :=
  (commitAndPropose chain btcChain VirtualSize EstimateFee
     ValidateMovingFundsProposal).
Abbreviation proposeTask :=
  (ProposeMovingFunds chain btcChain VirtualSize EstimateFee
     ValidateMovingFundsProposal).
Abbreviation estimateTask :=
  (EstimateMovingFundsFee btcChain VirtualSize EstimateFee).

Lemma ProposeMovingFunds_ok walletPublicKeyHash mainUTXO targetWallets fee proposal :
  proposeTask walletPublicKeyHash mainUTXO targetWallets fee = Ok proposal ->
  targetWallets <> [] /\
  ProposalTargetWallets proposal = targetWallets /\
  ValidateMovingFundsProposal walletPublicKeyHash mainUTXO proposal chain
  = None /\
  (0 < fee -> MovingFundsTxFee proposal = fee) /\
  (fee <= 0 ->
   exists txMaxTotalFee,
     GetMovingFundsParameters chain = Ok txMaxTotalFee /\
     estimateTask (Z.of_nat (length targetWallets)) txMaxTotalFee
     = Ok (MovingFundsTxFee proposal)).
Proof.
  unfold ProposeMovingFunds. intros H.
  destruct targetWallets as [|w targetWallets]; [discriminate |].
  cbn [length Nat.eqb] in H.
  destruct (proposalFee chain btcChain VirtualSize EstimateFee
              (w :: targetWallets) fee) as [fee' | |] eqn:Hfee;
    try discriminate.
  simpl in H.
  destruct (ValidateMovingFundsProposal _ _ _ _) eqn:Hvalid;
    [discriminate |].
  injection H as <-. split; [discriminate |]. split; [reflexivity |].
  split; [exact Hvalid |]. cbn [MovingFundsTxFee].
  unfold proposalFee in Hfee.
  destruct (Z.leb_spec fee 0) as [Hle | Hgt].
  - split; [lia |]. intros _.
    apply bind_wrap_err_ok in Hfee. destruct Hfee as (maxFee & Hparams & Hfee).
    exists maxFee. split; [exact Hparams |].
    destruct (EstimateMovingFundsFee _ _ _ _ _); simpl in Hfee;
      congruence.
  - split; [intros _; congruence | lia].
Qed.

Lemma SubmitMovingFundsCommitment_submitted
  rounds walletPublicKeyHash mainUTXO walletMembersIDs walletMemberIndex
  targetWallets :
  submitted (SubmitMovingFundsCommitment chain rounds walletPublicKeyHash
               (Some mainUTXO) walletMembersIDs walletMemberIndex targetWallets)
  = [ {| commitmentWalletPublicKeyHash := walletPublicKeyHash;
         commitmentMainUTXO := mainUTXO;
         commitmentMembersIDs := walletMembersIDs;
         commitmentMemberIndex := walletMemberIndex;
         commitmentTargetWallets := targetWallets |} ].
Proof.
  unfold SubmitMovingFundsCommitment.
  destruct (ChainSubmitMovingFundsCommitment chain _); [reflexivity |].
  destruct (GetBlockCounter chain) as [blockCounter | |]; try reflexivity.
  destruct (CurrentBlock blockCounter) as [currentBlock | |]; try reflexivity.
  destruct (confirmationLoop _ _ _ _ _ _ _). reflexivity.
Qed.

Ltac run_stops H :=
  let Hsubmitted := fresh "Hsubmitted" in
  let Hanswer := fresh "Hanswer" in
  exfalso; destruct H as [Hsubmitted | (? & Hanswer)];
  [apply Hsubmitted; reflexivity | discriminate Hanswer].

(** What [Run] has found when it goes on to the commitment and the
    proposal. *)
Lemma Run_inv rounds request :
  submitted (runTask rounds request) <> [] \/
  (exists proposal,
     answer (runTask rounds request) = Some (Ok (Some proposal))) ->
  exists walletChainData walletMainUtxo liveWalletsCount
         commitmentExists targetWallets,
    GetWallet chain (RequestWalletPublicKeyHash request) = Ok walletChainData /\
    State walletChainData = StateMovingFunds /\
    PendingRedemptionsValue walletChainData <= 0 /\
    PendingMovedFundsSweepRequestsCount walletChainData <= 0 /\
    DetermineWalletMainUtxo (RequestWalletPublicKeyHash request) chain btcChain
    = Ok (Some walletMainUtxo) /\
    0 < Bitcoin.Value walletMainUtxo /\
    GetLiveWalletsCount chain = Ok liveWalletsCount /\
    liveWalletsCount <> 0 /\
    FindTargetWallets chain (RequestWalletPublicKeyHash request)
      (MovingFundsTargetWalletsCommitmentHash walletChainData)
      (GoInt.uint64 (Bitcoin.Value walletMainUtxo)) liveWalletsCount
    = (commitmentExists, Ok targetWallets) /\
    runTask rounds request
    = commitAndProposeTask rounds request (Some walletMainUtxo)
        commitmentExists targetWallets.
Proof.
  unfold Run.
  cbv zeta.
  destruct (GetWallet chain (RequestWalletPublicKeyHash request))
    as [wallet | e | reason] eqn:Hwallet;
    [| intros H; run_stops H ..].
  destruct (decide (State wallet = StateMovingFunds)) as [Hstate | Hstate];
    [rewrite (bool_decide_eq_true_2 _ Hstate)
    | rewrite (bool_decide_eq_false_2 _ Hstate)]; cbn [negb];
    [| intros H; run_stops H].
  destruct (Z.ltb_spec 0 (PendingRedemptionsValue wallet)) as [Hsome | Hredemptions];
    [intros H; run_stops H |].
  destruct (Z.ltb_spec 0 (PendingMovedFundsSweepRequestsCount wallet))
    as [Hsome | Hsweeps];
    [intros H; run_stops H |].
  destruct (DetermineWalletMainUtxo (RequestWalletPublicKeyHash request)
              chain btcChain) as [mainUtxo | e | reason] eqn:Hutxo;
    [| intros H; run_stops H ..].
  destruct mainUtxo as [utxo |];
    [| simpl; intros H; run_stops H].
  destruct (Z.leb_spec (Bitcoin.Value utxo) 0) as [Hnone | Hbalance];
    [intros H; run_stops H |].
  destruct (GetLiveWalletsCount chain) as [live | e | reason] eqn:Hlive;
    [| intros H; run_stops H ..].
  destruct (Z.eqb_spec live 0) as [Hzero | Hnz];
    [intros H; run_stops H |].
  destruct (FindTargetWallets chain (RequestWalletPublicKeyHash request)
              (MovingFundsTargetWalletsCommitmentHash wallet)
              (GoInt.uint64 (Bitcoin.Value utxo)) live)
    as [commitmentExists [targetWallets | e | reason]] eqn:Hfind;
    [| intros H; run_stops H ..].
  intros _.
  exists wallet, utxo, live, commitmentExists, targetWallets.
  repeat (split; [first [assumption | reflexivity] |]). reflexivity.
Qed.

(** X20. [Run] submits a commitment or returns a proposal only for a wallet the
    chain has in the MovingFunds state, with no pending redemption and no
    pending moved funds sweep request, with a main UTXO of a positive value,
    and when the chain counts at least one Live wallet. *)
Theorem Run_acts_only_on_eligible_wallet rounds request :
  submitted (runTask rounds request) <> [] \/
  (exists proposal,
     answer (runTask rounds request) = Some (Ok (Some proposal))) ->
  exists walletChainData walletMainUtxo liveWalletsCount,
    GetWallet chain (RequestWalletPublicKeyHash request) = Ok walletChainData /\
    State walletChainData = StateMovingFunds /\
    PendingRedemptionsValue walletChainData <= 0 /\
    PendingMovedFundsSweepRequestsCount walletChainData <= 0 /\
    DetermineWalletMainUtxo (RequestWalletPublicKeyHash request) chain btcChain
    = Ok (Some walletMainUtxo) /\
    0 < Bitcoin.Value walletMainUtxo /\
    GetLiveWalletsCount chain = Ok liveWalletsCount /\
    liveWalletsCount <> 0.
Proof.
  intros H. apply Run_inv in H.
  destruct H as (wallet & utxo & live & commitmentExists & targetWallets & H).
  exists wallet, utxo, live. tauto.
Qed.

(** X21. [Run] submits at most one commitment, and only for a wallet whose
    commitment hash on the chain is still zero: the commitment is for the
    new target wallets found for the wallet, with the member IDs and the
    member index of the executing operator. *)
Theorem Run_submits_one_commitment rounds request :
  submitted (runTask rounds request) <> [] ->
  exists walletChainData walletMainUtxo liveWalletsCount targetWallets
         fetched walletMemberIDs walletMemberIndex,
    GetWallet chain (RequestWalletPublicKeyHash request) = Ok walletChainData /\
    MovingFundsTargetWalletsCommitmentHash walletChainData = zeroHash /\
    DetermineWalletMainUtxo (RequestWalletPublicKeyHash request) chain btcChain
    = Ok (Some walletMainUtxo) /\
    GetLiveWalletsCount chain = Ok liveWalletsCount /\
    findNewTargetWallets chain (RequestWalletPublicKeyHash request)
      (GoInt.uint64 (Bitcoin.Value walletMainUtxo)) liveWalletsCount
    = Ok targetWallets /\
    GetWalletMembersInfo chain
      (WalletOperators request) (ExecutingOperator request)
    = (fetched, Ok (walletMemberIDs, walletMemberIndex)) /\
    submitted (runTask rounds request)
    = [ {| commitmentWalletPublicKeyHash := RequestWalletPublicKeyHash request;
           commitmentMainUTXO := walletMainUtxo;
           commitmentMembersIDs := walletMemberIDs;
           commitmentMemberIndex := walletMemberIndex;
           commitmentTargetWallets := targetWallets |} ].
Proof.
  intros Hsubmitted.
  destruct (Run_inv rounds request (or_introl Hsubmitted))
    as (wallet & utxo & live & commitmentExists & targetWallets &
        Hwallet & _ & _ & _ & Hutxo & _ & Hlive & _ & Hfind & Hrun).
  rewrite Hrun in Hsubmitted |- *. clear Hrun.
  unfold commitAndPropose in *. cbn [submitted] in *.
  unfold FindTargetWallets, bytesEqual in Hfind.
  destruct (decide (MovingFundsTargetWalletsCommitmentHash wallet = zeroHash))
    as [Hzero | Hset].
  - rewrite (bool_decide_eq_true_2 _ Hzero) in Hfind.
    injection Hfind as <- Hnew. cbn [negb] in *.
    destruct (GetWalletMembersInfo chain (WalletOperators request)
                (ExecutingOperator request))
      as [fetched [[ids index] | e | reason]] eqn:Hmembers;
      cbn [submitted] in *; try congruence.
    exists wallet, utxo, live, targetWallets, fetched, ids, index.
    repeat (split; [first [assumption | reflexivity] |]).
    apply SubmitMovingFundsCommitment_submitted.
  - rewrite (bool_decide_eq_false_2 _ Hset) in Hfind.
    injection Hfind as <- _. cbn [negb submitted] in Hsubmitted. congruence.
Qed.

(** X22. A proposal [Run] returns has passed the validation, names target
    wallets, and carries the fee estimated for that many target wallets
    under the maximum of the chain. Its target wallets are either the ones
    of the commitment the wallet has on the chain, and then nothing is
    submitted, or new ones, and then the run has submitted the commitment
    for them and has seen it confirmed. *)
Theorem Run_proposal_follows_commitment rounds request proposal :
  answer (runTask rounds request) = Some (Ok (Some proposal)) ->
  exists walletChainData walletMainUtxo liveWalletsCount txMaxTotalFee,
    GetWallet chain (RequestWalletPublicKeyHash request) = Ok walletChainData /\
    DetermineWalletMainUtxo (RequestWalletPublicKeyHash request) chain btcChain
    = Ok (Some walletMainUtxo) /\
    GetLiveWalletsCount chain = Ok liveWalletsCount /\
    ProposalTargetWallets proposal <> [] /\
    ValidateMovingFundsProposal (RequestWalletPublicKeyHash request)
      (Some walletMainUtxo) proposal chain = None /\
    GetMovingFundsParameters chain = Ok txMaxTotalFee /\
    estimateTask (Z.of_nat (length (ProposalTargetWallets proposal)))
      txMaxTotalFee = Ok (MovingFundsTxFee proposal) /\
    ((MovingFundsTargetWalletsCommitmentHash walletChainData <> zeroHash /\
      retrieveCommittedTargetWallets chain (RequestWalletPublicKeyHash request)
        (MovingFundsTargetWalletsCommitmentHash walletChainData)
      = Ok (ProposalTargetWallets proposal) /\
      submitted (runTask rounds request) = [] /\
      waited (runTask rounds request) = []) \/
     (MovingFundsTargetWalletsCommitmentHash walletChainData = zeroHash /\
      findNewTargetWallets chain (RequestWalletPublicKeyHash request)
        (GoInt.uint64 (Bitcoin.Value walletMainUtxo)) liveWalletsCount
      = Ok (ProposalTargetWallets proposal) /\
      exists fetched walletMemberIDs walletMemberIndex,
        GetWalletMembersInfo chain
          (WalletOperators request) (ExecutingOperator request)
        = (fetched, Ok (walletMemberIDs, walletMemberIndex)) /\
        let submission :=
          SubmitMovingFundsCommitment chain rounds
            (RequestWalletPublicKeyHash request) (Some walletMainUtxo)
            walletMemberIDs walletMemberIndex
            (ProposalTargetWallets proposal) in
        answer submission = Some (Ok tt) /\
        submitted (runTask rounds request) = submitted submission /\
        waited (runTask rounds request) = waited submission)).
Proof.
  intros Hanswer.
  destruct (Run_inv rounds request (or_intror (ex_intro _ proposal Hanswer)))
    as (wallet & utxo & live & commitmentExists & targetWallets &
        Hwallet & _ & _ & _ & Hutxo & _ & Hlive & _ & Hfind & Hrun).
  rewrite Hrun in Hanswer |- *. clear Hrun.
  unfold commitAndPropose in *. cbn [submitted waited answer] in *.
  assert (Hpropose : forall committed : option (outcome unit),
    match committed with
    | Some (Ok _) =>
        Some
          (proposal0 <-
             wrap_err "cannot prepare moving funds proposal: [%w]"
               (proposeTask (RequestWalletPublicKeyHash request) (Some utxo)
                  targetWallets 0) ;;
           Ok (Some proposal0))
    | Some (Err e) => Some (Err e)
    | Some (Panic reason) => Some (Panic reason)
    | None => None
    end = Some (Ok (Some proposal)) ->
    committed = Some (Ok tt) /\
    proposeTask (RequestWalletPublicKeyHash request) (Some utxo)
      targetWallets 0 = Ok proposal).
  { intros [[[] | e | reason] |] H; try discriminate.
    injection H as H. apply bind_wrap_err_ok in H.
    destruct H as (proposal0 & Hprop & Heq). injection Heq as ->. auto. }
  apply Hpropose in Hanswer. destruct Hanswer as (Hcommitted & Hproposal).
  apply ProposeMovingFunds_ok in Hproposal.
  destruct Hproposal as (Hnonempty & Htargets & Hvalid & _ & Hfee).
  destruct (Hfee ltac:(lia)) as (maxFee & Hparams & Hestimate).
  subst targetWallets.
  exists wallet, utxo, live, maxFee.
  repeat (split; [first [assumption | reflexivity] |]).
  unfold FindTargetWallets, bytesEqual in Hfind.
  destruct (decide (MovingFundsTargetWalletsCommitmentHash wallet = zeroHash))
    as [Hzero | Hset].
  - right. rewrite (bool_decide_eq_true_2 _ Hzero) in Hfind.
    injection Hfind as <- Hnew. cbn [negb] in *.
    split; [exact Hzero |]. split; [exact Hnew |].
    destruct (GetWalletMembersInfo chain (WalletOperators request)
                (ExecutingOperator request))
      as [fetched [[ids index] | e | reason]] eqn:Hmembers;
      cbn [submitted waited answer] in *; try discriminate.
    exists fetched, ids, index. split; [reflexivity |]. cbv zeta.
    split; [| split; reflexivity].
    destruct (answer (SubmitMovingFundsCommitment chain rounds
                        (RequestWalletPublicKeyHash request) (Some utxo)
                        ids index (ProposalTargetWallets proposal)))
      as [[[] | e | reason] |]; try discriminate. reflexivity.
  - left. rewrite (bool_decide_eq_false_2 _ Hset) in Hfind.
    injection Hfind as <- Hretrieved. cbn [negb submitted waited] in *.
    auto.
Qed.

End RunTask.


Lemma ceilingDivide_rounds_up_witness :
  0 <= MovingFundsTask.ceilingDivide 250000 100000 /\
  (MovingFundsTask.ceilingDivide 250000 100000 - 1) * 100000
  < 250000 <= MovingFundsTask.ceilingDivide 250000 100000 * 100000.
Proof.
  apply (ceilingDivide_rounds_up 250000 100000); lia.
Defined.

Lemma findNewTargetWallets_newest_live_sorted_witness :
  exists walletMaxBtcTransfer events,
    MovingFundsTask.GetWalletParameters (Sample.movingChain false)
    = Ok walletMaxBtcTransfer /\
    walletMaxBtcTransfer <> 0 /\
    MovingFundsTask.PastNewWalletRegisteredEvents (Sample.movingChain false)
    = Ok events /\
    let count :=
      Z.min 2 (MovingFundsTask.ceilingDivide 250000 walletMaxBtcTransfer) in
    Z.of_nat (length [Sample.walletHash Byte.x0a; Sample.walletHash Byte.x0c])
    = count /\
    [Sample.walletHash Byte.x0a; Sample.walletHash Byte.x0c] ≡ₚ
      take (Z.to_nat count)
           (List.filter
              (MovingFundsTask.isLiveTarget (Sample.movingChain false)
                 Sample.walletPKH)
              (map MovingFundsTask.WalletPublicKeyHash (rev events))) /\
    StronglySorted MovingFundsTask.numericOrder
      [Sample.walletHash Byte.x0a; Sample.walletHash Byte.x0c].
Proof.
  apply (findNewTargetWallets_newest_live_sorted
           (Sample.movingChain false) Sample.walletPKH 250000 2).
  - lia.
  - vm_compute. reflexivity.
Defined.

Lemma findNewTargetWallets_not_enough_witness :
  MovingFundsTask.findNewTargetWallets (Sample.movingChain false)
    Sample.walletPKH 1000000 5
  = Err (Wrapf "%w: required [%v] target wallets; gathered [%v]"
           MovingFundsTask.ErrNotEnoughTargetWallets).
Proof.
  apply (findNewTargetWallets_not_enough (Sample.movingChain false)
           Sample.walletPKH 1000000 5 100000
           [Sample.registered Byte.x0d; Sample.registered Byte.x0a;
            Sample.registered Byte.x0b; Sample.registered Byte.x11;
            Sample.registered Byte.x0c; Sample.registered Byte.x0e]).
  - lia.
  - reflexivity.
  - discriminate.
  - reflexivity.
  - intros event reason Hin.
    repeat (apply elem_of_cons in Hin; destruct Hin as [-> | Hin];
            [vm_compute; discriminate |]).
    apply elem_of_nil in Hin. contradiction.
  - vm_compute. reflexivity.
Defined.

Lemma GetWalletMembersInfo_ids_and_first_position_witness :
  Forall2 (fun operatorAddress operatorID =>
             MovingFundsTask.GetOperatorID (Sample.movingChain false)
               operatorAddress = Ok operatorID)
          ["0xop1"; "0xop2"; "0xop1"; "0xop2"]%string [11; 22; 11; 22] /\
  exists k : nat,
    ["0xop1"; "0xop2"; "0xop1"; "0xop2"]%string !! k = Some "0xop2"%string /\
    (forall j : nat, (j < k)%nat ->
       ["0xop1"; "0xop2"; "0xop1"; "0xop2"]%string !! j
       <> Some "0xop2"%string) /\
    2 = MovingFundsTask.uint32 (Z.of_nat k + 1).
Proof.
  apply (GetWalletMembersInfo_ids_and_first_position
           (Sample.movingChain false)
           ["0xop1"; "0xop2"; "0xop1"; "0xop2"]%string "0xop2"%string
           ["0xop1"; "0xop2"]%string).
  vm_compute. reflexivity.
Defined.

Lemma GetWalletMembersInfo_fetches_each_operator_once_witness :
  NoDup ["0xop1"; "0xop2"]%string /\
  (forall operatorAddress,
     operatorAddress ∈ ["0xop1"; "0xop2"]%string ->
     operatorAddress ∈ ["0xop1"; "0xop2"; "0xop1"; "0xop2"]%string) /\
  (is_ok (Ok ([11; 22; 11; 22], 2)) = true ->
   forall operatorAddress,
     operatorAddress ∈ ["0xop1"; "0xop2"; "0xop1"; "0xop2"]%string ->
     operatorAddress ∈ ["0xop1"; "0xop2"]%string).
Proof.
  apply (GetWalletMembersInfo_fetches_each_operator_once
           (Sample.movingChain false)
           ["0xop1"; "0xop2"; "0xop1"; "0xop2"]%string "0xop2"%string).
  vm_compute. reflexivity.
Defined.

Lemma SubmitMovingFundsCommitment_polls_six_blocks_witness :
  exists (o : outcome unit) (k : nat),
    MovingFundsTask.answer
      (MovingFundsTask.SubmitMovingFundsCommitment (Sample.movingChain false)
         7 Sample.walletPKH (Some (Sample.mainUtxo 250000)) [11; 22; 11; 22] 2
         [Sample.walletHash Byte.x0a; Sample.walletHash Byte.x0c])
    = Some o /\
    (k <= 6)%nat /\
    MovingFundsTask.waited
      (MovingFundsTask.SubmitMovingFundsCommitment (Sample.movingChain false)
         7 Sample.walletPKH (Some (Sample.mainUtxo 250000)) [11; 22; 11; 22] 2
         [Sample.walletHash Byte.x0a; Sample.walletHash Byte.x0c])
    = map (fun i => 1000 + 1 + Z.of_nat i) (seq 0 k).
Proof.
  destruct (SubmitMovingFundsCommitment_polls_six_blocks
              (Sample.movingChain false) 7 Sample.walletPKH
              (Sample.mainUtxo 250000) [11; 22; 11; 22] 2
              [Sample.walletHash Byte.x0a; Sample.walletHash Byte.x0c]
              {| MovingFundsTask.CurrentBlock := Ok 1000;
                 MovingFundsTask.WaitForBlockHeight := fun _ => None |}
              1000)
    as (_ & o & k & Hanswer & Hk & Hwaited & _);
    [reflexivity | reflexivity | lia | lia | lia |].
  exists o, k. auto.
Defined.

Lemma EstimateMovingFundsFee_within_maximum_witness :
  0 <= 1300 <= 5000.
Proof.
  apply (EstimateMovingFundsFee_within_maximum Sample.btcChain
           Sample.virtualSize Sample.estimateFee 2 5000 1300).
  - reflexivity.
  - unfold GoInt.is_int64. lia.
  - lia.
Defined.

Lemma retrieveCommittedTargetWallets_single_event_witness :
  exists blockCounter currentBlock event,
    MovingFundsTask.GetBlockCounter (Sample.movingChain true)
    = Ok blockCounter /\
    MovingFundsTask.CurrentBlock blockCounter = Ok currentBlock /\
    MovingFundsTask.PastMovingFundsCommitmentSubmittedEvents
      (Sample.movingChain true)
      {| MovingFundsTask.StartBlock :=
           MovingFunds.filterStartBlock currentBlock;
         MovingFundsTask.FilterWalletPublicKeyHash := [Sample.walletPKH] |}
    = Ok [event] /\
    MovingFundsTask.TargetWallets event
    = [Sample.walletHash Byte.x0a; Sample.walletHash Byte.x0c] /\
    MovingFundsTask.ComputeMovingFundsCommitmentHash (Sample.movingChain true)
      [Sample.walletHash Byte.x0a; Sample.walletHash Byte.x0c]
    = Sample.commitmentHash /\
    (0 <= currentBlock < 2 ^ 64 ->
     MovingFunds.filterStartBlock currentBlock
     = Z.max 0 (currentBlock - MovingFunds.MovingFundsCommitmentLookBackBlocks)).
Proof.
  apply (retrieveCommittedTargetWallets_single_event
           (Sample.movingChain true) Sample.walletPKH Sample.commitmentHash).
  vm_compute. reflexivity.
Defined.

Lemma Run_acts_only_on_eligible_wallet_witness :
  exists walletChainData,
    MovingFundsTask.GetWallet (Sample.movingChain false) Sample.walletPKH
    = Ok walletChainData /\
    MovingFundsTask.State walletChainData = MovingFundsTask.StateMovingFunds.
Proof.
  destruct (Run_acts_only_on_eligible_wallet
              (Sample.movingChain false) Sample.btcChain Sample.virtualSize
              Sample.estimateFee Sample.validateMovingFundsProposal
              Sample.movingMainUtxo 7 Sample.movingRequest)
    as (walletChainData & utxo & live & Hwallet & Hstate & _).
  - left. vm_compute. discriminate.
  - exists walletChainData. auto.
Defined.

Lemma Run_submits_one_commitment_witness :
  exists walletMainUtxo walletMemberIDs walletMemberIndex targetWallets,
    MovingFundsTask.submitted (Sample.runMovingFunds false)
    = [ {| MovingFundsTask.commitmentWalletPublicKeyHash := Sample.walletPKH;
           MovingFundsTask.commitmentMainUTXO := walletMainUtxo;
           MovingFundsTask.commitmentMembersIDs := walletMemberIDs;
           MovingFundsTask.commitmentMemberIndex := walletMemberIndex;
           MovingFundsTask.commitmentTargetWallets := targetWallets |} ].
Proof.
  destruct (Run_submits_one_commitment
              (Sample.movingChain false) Sample.btcChain Sample.virtualSize
              Sample.estimateFee Sample.validateMovingFundsProposal
              Sample.movingMainUtxo 7 Sample.movingRequest)
    as (wallet & utxo & live & targetWallets & fetched & ids & index & H).
  - vm_compute. discriminate.
  - exists utxo, ids, index, targetWallets. apply H.
Defined.

Lemma Run_proposal_follows_commitment_witness :
  MovingFundsTask.answer (Sample.runMovingFunds true)
  = Some (Ok (Some
      {| MovingFundsTask.ProposalTargetWallets :=
           [Sample.walletHash Byte.x0a; Sample.walletHash Byte.x0c];
         MovingFundsTask.MovingFundsTxFee := 1300 |})) /\
  MovingFundsTask.submitted (Sample.runMovingFunds true) = [].
Proof.
  assert (Hrun :
    MovingFundsTask.answer (Sample.runMovingFunds true)
    = Some (Ok (Some
        {| MovingFundsTask.ProposalTargetWallets :=
             [Sample.walletHash Byte.x0a; Sample.walletHash Byte.x0c];
           MovingFundsTask.MovingFundsTxFee := 1300 |})))
    by (vm_compute; reflexivity).
  split; [exact Hrun |].
  destruct (Run_proposal_follows_commitment
              (Sample.movingChain true) Sample.btcChain Sample.virtualSize
              Sample.estimateFee Sample.validateMovingFundsProposal
              Sample.movingMainUtxo 7 Sample.movingRequest _ Hrun)
    as (wallet & utxo & live & maxFee & Hwallet & _ & _ & _ & _ & _ & _ &
        [(_ & _ & Hnone & _) | (Hzero & _)]).
  - exact Hnone.
  - exfalso. vm_compute in Hwallet. injection Hwallet as <-.
    vm_compute in Hzero. discriminate.
Defined.


(** ** DKG result submission: what is submitted, and how *)

Section SubmittedResult.
Import Waiting Tbtc.

Variable dkgResultSubmissionDelayStepBlocks : Z.

(** X23. When the submitter of dkg_submit.go calls [SubmitDKGResult], it is its
    only call; the DKG is awaiting the result, the result submitted is the
    one the chain assembled for this member from the group public key, the
    operating and misbehaved members and the signatures, the chain has
    found it valid, and the context is not done at the block of the call. *)
Theorem DkgSubmit_SubmitResult_submits_validated_result
  drs timeline memberIndex result signatures atBlock dkgResult :
  In (DkgSubmit.SubmitDKGResultCalled atBlock dkgResult)
     (fst (DkgSubmit.SubmitResult dkgResultSubmissionDelayStepBlocks
             drs timeline memberIndex result signatures)) ->
  fst (DkgSubmit.SubmitResult dkgResultSubmissionDelayStepBlocks
         drs timeline memberIndex result signatures)
  = [DkgSubmit.SubmitDKGResultCalled atBlock dkgResult] /\
  DkgSubmit.GetDKGState (DkgSubmit.chain drs) = Ok AwaitingResult /\
  (exists groupPublicKey,
     DkgSubmit.ResultGroupPublicKey result = Ok groupPublicKey /\
     DkgSubmit.AssembleDKGResult (DkgSubmit.chain drs) memberIndex
       groupPublicKey (DkgSubmit.OperatingMemberIndexes result)
       (DkgSubmit.ResultMisbehavedMembersIndexes result) signatures
       (DkgSubmit.groupSelectionResult drs) = Ok dkgResult) /\
  DkgSubmit.IsDKGResultValid (DkgSubmit.chain drs) dkgResult = Ok true /\
  exists m, In m timeline /\ height m = atBlock /\ ctxDone m = false.
Proof.
  unfold DkgSubmit.SubmitResult.
  destruct (DkgSubmit.prepareSubmission dkgResultSubmissionDelayStepBlocks
              drs memberIndex result signatures)
    as [[[dkgResult0 submissionBlock] |] | e | reason] eqn:Hprep;
    try (intros []).
  destruct (waitForBlock submissionBlock timeline) as [m |] eqn:Hwait;
    [| intros []].
  destruct (DkgSubmit.waitForBlockFnError drs); [intros [] |].
  destruct (ctxDone m) eqn:Hdone; [intros [] |].
  simpl. intros [H | []]. injection H as <- <-.
  split; [reflexivity |].
  unfold DkgSubmit.prepareSubmission in Hprep.
  destruct (Z.of_nat (size signatures)
            <? DkgSubmit.GroupQuorum (DkgSubmit.groupParameters drs));
    [discriminate |].
  apply bind_wrap_err_ok in Hprep. destruct Hprep as (state & Hstate & Hprep).
  destruct (decide (state = AwaitingResult)) as [-> | Hother];
    [| rewrite (bool_decide_eq_false_2 _ Hother) in Hprep; discriminate].
  rewrite bool_decide_eq_true_2 in Hprep by reflexivity. cbn [negb] in Hprep.
  apply bind_wrap_err_ok in Hprep. destruct Hprep as (key & Hkey & Hprep).
  apply bind_wrap_err_ok in Hprep. destruct Hprep as (assembled & Hassembled & Hprep).
  apply bind_wrap_err_ok in Hprep. destruct Hprep as (isValid & Hvalid & Hprep).
  destruct isValid; [| discriminate]. cbn [negb] in Hprep.
  destruct (DkgSubmit.GetBlockCounter (DkgSubmit.chain drs))
    as [blockCounter | |]; try discriminate.
  simpl in Hprep.
  apply bind_wrap_err_ok in Hprep. destruct Hprep as (currentBlock & _ & Hprep).
  injection Hprep as -> _.
  split; [exact Hstate |]. split; [exists key; auto |].
  split; [exact Hvalid |].
  exists m. split; [| auto].
  apply (waitForBlock_spec _ _ _ Hwait).
Qed.

(** X24. When the submitter of the node calls [SubmitDKGResult], it has dropped
    its subscription to the submitted results first, and drops it again on
    return; the call is its only submission, made for this member with the
    DKG awaiting the result and the group public key of the result at
    hand. *)
Theorem Node_SubmitResult_unsubscribes_before_submitting
  chain timeline memberIndex result signatures startBlockNumber atBlock index :
  In (Node.SubmitDKGResultCalled atBlock index)
     (fst (Node.SubmitResult chain timeline memberIndex result signatures
             startBlockNumber)) ->
  fst (Node.SubmitResult chain timeline memberIndex result signatures
         startBlockNumber)
  = [Node.Unsubscribed; Node.SubmitDKGResultCalled atBlock memberIndex;
     Node.Unsubscribed] /\
  index = memberIndex /\
  Node.GetDKGState chain = Ok AwaitingResult /\
  is_ok (Node.ResultGroupPublicKeyBytes result) = true /\
  snd (Node.SubmitResult chain timeline memberIndex result signatures
         startBlockNumber)
  = Returned match Node.SubmitDKGResult chain memberIndex result signatures with
             | Some e => Err e
             | None => Ok tt
             end.
Proof.
  unfold Node.SubmitResult. cbv zeta.
  destruct (Z.of_nat (size signatures)
            <? Node.HonestThreshold (Node.GetConfig chain)); [intros [] |].
  destruct (Node.GetDKGState chain) as [state | e | reason] eqn:Hstate;
    try (simpl; intros [H | []]; discriminate H).
  destruct (decide (state = AwaitingResult)) as [-> | Hother];
    [rewrite bool_decide_eq_true_2 by reflexivity
    | rewrite (bool_decide_eq_false_2 _ Hother)]; cbn [negb];
    [| simpl; intros [H | []]; discriminate H].
  destruct (Node.setupEligibilityQueue chain startBlockNumber memberIndex)
    as [eligible | e | reason];
    try (simpl; intros [H | []]; discriminate H).
  destruct (select eligible timeline) as [[blockNumber | event] |];
    [| simpl; intros [H | []]; discriminate H | intros []].
  destruct (Node.ResultGroupPublicKeyBytes result) as [key | e | reason];
    try (simpl; intros [H | [H | []]]; discriminate H).
  simpl. intros [H | [H | [H | []]]]; try discriminate H.
  injection H as <- <-. auto.
Qed.

End SubmittedResult.

Lemma DkgSubmit_SubmitResult_submits_validated_result_witness :
  fst (DkgSubmit.SubmitResult 15 (Sample.submitter Tbtc.AwaitingResult)
         [Sample.at_ 1000 false; Sample.at_ 1030 false]
         3 Sample.submitResult Sample.fourSignatures)
  = [DkgSubmit.SubmitDKGResultCalled 1030 Sample.chainResult] /\
  DkgSubmit.IsDKGResultValid
    (DkgSubmit.chain (Sample.submitter Tbtc.AwaitingResult))
    Sample.chainResult = Ok true.
Proof.
  destruct (DkgSubmit_SubmitResult_submits_validated_result 15
              (Sample.submitter Tbtc.AwaitingResult)
              [Sample.at_ 1000 false; Sample.at_ 1030 false]
              3 Sample.submitResult Sample.fourSignatures
              1030 Sample.chainResult)
    as (Honly & _ & _ & Hvalid & _).
  - vm_compute. left. reflexivity.
  - split; [exact Honly | exact Hvalid].
Defined.

Lemma Node_SubmitResult_unsubscribes_before_submitting_witness :
  fst (Node.SubmitResult Sample.nodeChain
         [Sample.quiet 205; Sample.quiet 207; Sample.quiet 208]
         3 Sample.dkgResult Sample.threeSignatures 200)
  = [Node.Unsubscribed; Node.SubmitDKGResultCalled 207 3; Node.Unsubscribed].
Proof.
  apply (Node_SubmitResult_unsubscribes_before_submitting Sample.nodeChain
           [Sample.quiet 205; Sample.quiet 207; Sample.quiet 208]
           3 Sample.dkgResult Sample.threeSignatures 200 207 3).
  vm_compute. right. left. reflexivity.
Defined.


(** ** Joining the DKG *)

Section JoinIndexes.
Import DkgJoin.

Lemma indexesLoop_positions operatorAddress selected :
  forall index indexes,
    exists positions : list nat,
      indexesLoop operatorAddress selected index indexes
      = indexes ++ map (fun k => GoInt.uint8 (index + Z.of_nat k)) positions /\
      StronglySorted lt positions /\
      forall k, k ∈ positions <-> selected !! k = Some operatorAddress.
Proof.
  induction selected as [|operator later IH]; intros index indexes.
  - exists []. rewrite app_nil_r. split; [reflexivity |].
    split; [constructor |]. intros k. rewrite elem_of_nil, lookup_nil.
    split; [tauto | discriminate].
  - cbn [indexesLoop].
    destruct (IH (index + 1)
                (if bool_decide (operator = operatorAddress)
                 then indexes ++ [GoInt.uint8 index] else indexes))
      as (positions & -> & Hsorted & Hpositions).
    assert (Hshift :
      map (fun k => GoInt.uint8 (index + 1 + Z.of_nat k)) positions
      = map (fun k => GoInt.uint8 (index + Z.of_nat k)) (map S positions)).
    { rewrite map_map. apply map_ext. intros k. f_equal. lia. }
    assert (HsortedS : StronglySorted lt (map S positions)).
    { clear -Hsorted. induction Hsorted as [|k ks Hks IHks Hall];
        [constructor |]. cbn [map]. constructor; [exact IHks |].
      apply Forall_forall. intros j Hj.
      apply list_elem_of_fmap in Hj. destruct Hj as (j' & -> & Hj').
      rewrite Forall_forall in Hall. specialize (Hall j' Hj'). lia. }
    destruct (decide (operator = operatorAddress)) as [-> | Hne].
    + rewrite bool_decide_eq_true_2 by reflexivity.
      exists (0%nat :: map S positions). split.
      * rewrite <- app_assoc, Hshift. cbn [map app].
        rewrite Z.add_0_r. reflexivity.
      * split.
        -- constructor; [exact HsortedS |].
           apply Forall_forall. intros j Hj.
           apply list_elem_of_fmap in Hj. destruct Hj as (j' & -> & _). lia.
        -- intros [|k].
           ++ split; [reflexivity | intros _; apply elem_of_cons; auto].
           ++ rewrite elem_of_cons. simpl. rewrite <- Hpositions.
              split.
              ** intros [Heq | Hin]; [discriminate |].
                 apply list_elem_of_fmap in Hin.
                 destruct Hin as (j & Heq & Hin). injection Heq as ->.
                 exact Hin.
              ** intros Hin. right. apply list_elem_of_fmap. eauto.
    + rewrite (bool_decide_eq_false_2 _ Hne).
      exists (map S positions). split; [rewrite Hshift; reflexivity |].
      split; [exact HsortedS |].
      intros [|k].
      * split.
        -- intros Hin. apply list_elem_of_fmap in Hin.
           destruct Hin as (j & Heq & _). discriminate.
        -- cbn. intros Heq. congruence.
      * simpl. rewrite <- Hpositions. split.
        -- intros Hin. apply list_elem_of_fmap in Hin.
           destruct Hin as (j & Heq & Hin). injection Heq as ->. exact Hin.
        -- intros Hin. apply list_elem_of_fmap. eauto.
Qed.

(** X25. The members [joinDKGIfEligible] starts, in a group of at most 255
    seats, are the seats of the operator among the selected ones, counted
    from one: each is within the group size, and when any member is
    started, a member is started for every seat of the operator, in
    ascending order and once. *)
Theorem joinDKGIfEligible_member_indexes
  chain seed selected operatorPublicKey operatorAddress started :
  SelectGroup chain seed = Ok selected ->
  OperatorKeyPair chain = Ok operatorPublicKey ->
  PublicKeyToAddress chain operatorPublicKey = Ok operatorAddress ->
  Node.GroupSize (GetConfig chain) <= 255 ->
  joinDKGIfEligible chain seed = Ok started ->
  StronglySorted Z.lt started /\
  (forall memberIndex,
     memberIndex ∈ started ->
     1 <= memberIndex <= Node.GroupSize (GetConfig chain) /\
     selected !! Z.to_nat (memberIndex - 1) = Some operatorAddress) /\
  (started <> [] ->
   forall memberIndex,
     1 <= memberIndex ->
     selected !! Z.to_nat (memberIndex - 1) = Some operatorAddress ->
     memberIndex ∈ started).
Proof.
  intros Hselect Hkey Haddress Hsize. unfold joinDKGIfEligible.
  rewrite Hselect. cbv zeta.
  assert (Hnone : forall l : list Z,
    Ok (@nil Z) = Ok l ->
    StronglySorted Z.lt l /\
    (forall memberIndex,
       memberIndex ∈ l ->
       1 <= memberIndex <= Node.GroupSize (GetConfig chain) /\
       selected !! Z.to_nat (memberIndex - 1) = Some operatorAddress) /\
    (l <> [] ->
     forall memberIndex,
       1 <= memberIndex ->
       selected !! Z.to_nat (memberIndex - 1) = Some operatorAddress ->
       memberIndex ∈ l)).
  { intros l Hl. injection Hl as <-. split; [constructor |].
    split; [| congruence].
    intros memberIndex Hin. apply elem_of_nil in Hin. contradiction. }
  destruct (Z.ltb_spec (Node.GroupSize (GetConfig chain))
              (Z.of_nat (length selected))) as [| Hlength];
    [apply Hnone |].
  rewrite Hkey, Haddress.
  destruct (indexesLoop_positions operatorAddress selected 0 [])
    as (positions & Hloop & Hsorted & Hpositions).
  rewrite Hloop. cbn [app].
  destruct (0 <? length _)%nat; [| apply Hnone].
  destruct (BroadcastChannelFor chain seed); [apply Hnone |].
  destruct (GetBlockCounter chain); [apply Hnone |].
  intros H. injection H as <-.
  assert (Hbound : forall k, k ∈ positions -> (k < length selected)%nat).
  { intros k Hk. apply Hpositions in Hk. apply lookup_lt_Some in Hk. exact Hk. }
  assert (Hmap :
    map (fun index => GoInt.uint8 (index + 1))
        (map (fun k => GoInt.uint8 (0 + Z.of_nat k)) positions)
    = map (fun k => Z.of_nat k + 1) positions).
  { rewrite map_map. apply map_ext_in. intros k Hk.
    apply list_elem_of_In, Hbound in Hk.
    unfold GoInt.uint8. rewrite Z.add_0_l.
    rewrite (Z.mod_small (Z.of_nat k)) by lia.
    apply Z.mod_small. lia. }
  rewrite Hmap. split; [| split].
  - clear -Hsorted. induction Hsorted as [|k ks Hks IHks Hall];
      [constructor |]. cbn [map]. constructor; [exact IHks |].
    apply Forall_forall. intros j Hj.
    apply list_elem_of_fmap in Hj. destruct Hj as (j' & -> & Hj').
    rewrite Forall_forall in Hall. specialize (Hall j' Hj'). lia.
  - intros memberIndex Hin. apply list_elem_of_fmap in Hin.
    destruct Hin as (k & -> & Hk). pose proof (Hbound k Hk).
    split; [lia |].
    replace (Z.to_nat (Z.of_nat k + 1 - 1)) with k by lia.
    apply Hpositions. exact Hk.
  - intros _ memberIndex Hpos Hseat.
    apply list_elem_of_fmap. exists (Z.to_nat (memberIndex - 1)).
    split; [lia |]. apply Hpositions. exact Hseat.
Qed.

End JoinIndexes.

Lemma joinDKGIfEligible_member_indexes_witness :
  StronglySorted Z.lt [2; 4] /\
  (forall memberIndex,
     memberIndex ∈ [2; 4] ->
     1 <= memberIndex <= Node.GroupSize (DkgJoin.GetConfig Sample.joinChain) /\
     ["member1"; "operator"; "member3"; "operator"; "member5"]%string
       !! Z.to_nat (memberIndex - 1) = Some "operator"%string) /\
  ([2; 4] <> [] ->
   forall memberIndex,
     1 <= memberIndex ->
     ["member1"; "operator"; "member3"; "operator"; "member5"]%string
       !! Z.to_nat (memberIndex - 1) = Some "operator"%string ->
     memberIndex ∈ [2; 4]).
Proof.
  apply (joinDKGIfEligible_member_indexes Sample.joinChain 7
           ["member1"; "operator"; "member3"; "operator"; "member5"]%string
           [Byte.x04; Byte.xaa] "operator"%string [2; 4]).
  - reflexivity.
  - reflexivity.
  - reflexivity.
  - simpl. lia.
  - vm_compute. reflexivity.
Defined.


(** ** The control loop of the SPV maintainer *)

Section ControlLoop.
Import Spv SpvControl.

Variable transactionHash : Bitcoin.Transaction -> Bitcoin.Hash.
Variable AssembleSpvProof :
  Bitcoin.Hash -> Z -> Bitcoin.Chain -> outcome (Bitcoin.Transaction * SpvProof).
Variable parseTransactionInputs :
  Bitcoin.Chain -> Chain -> Bitcoin.Transaction ->
  outcome (Bitcoin.UnspentTransactionOutput * string).
Variable ctxErr : error.

Abbreviation proveOf :=
  (proveRound transactionHash AssembleSpvProof parseTransactionInputs).
Abbreviation maintain :=
  (maintainSpv transactionHash AssembleSpvProof parseTransactionInputs ctxErr).
Abbreviation control :=
  (controlLoop transactionHash AssembleSpvProof parseTransactionInputs ctxErr).
Abbreviation errorOf :=
  (roundError transactionHash AssembleSpvProof parseTransactionInputs).
Abbreviation provedBy := (fun r : round => fst (proveOf r)).

(** [maintainSpv] goes through the rounds that prove their sweeps while
    the context is not done, and returns at the first other round. *)
Lemma maintainSpv_returns rounds :
  forall submitted submitted' e done later,
    maintain rounds submitted = (submitted', Returns e done later) ->
    exists before r,
      rounds = before ++ r :: later /\
      Forall (fun r' => contextDone r' = false /\ errorOf r' = []) before /\
      done = contextDone r /\
      submitted' = submitted ++ flat_map provedBy (before ++ [r]) /\
      ((errorOf r = [e] /\ is_err (snd (proveOf r)) = true) \/
       (errorOf r = [] /\ contextDone r = true /\ e = ctxErr)).
Proof.
  induction rounds as [|r rounds IH];
    intros submitted submitted' e done later H; [discriminate |].
  cbn [maintainSpv] in H. unfold roundError.
  destruct (proveOf r) as [proved result] eqn:Hprove.
  destruct result as [[] | e0 | reason].
  - destruct (contextDone r) eqn:Hdone.
    + injection H as <- <- <- <-. exists [], r.
      split; [reflexivity |]. split; [constructor |].
      split; [symmetry; exact Hdone |].
      cbn [app flat_map]. rewrite Hprove, app_nil_r. auto.
    + apply IH in H.
      destruct H as (before & r' & -> & Hbefore & -> & -> & He).
      exists (r :: before), r'. split; [reflexivity |]. split.
      * constructor; [| exact Hbefore]. rewrite Hprove. auto.
      * split; [reflexivity |]. split; [| exact He].
        cbn [app flat_map]. rewrite Hprove, app_assoc. reflexivity.
  - injection H as <- <- <- <-. exists [], r.
    split; [reflexivity |]. split; [constructor |].
    split; [reflexivity |].
    cbn [app flat_map]. rewrite Hprove, app_nil_r. auto.
  - discriminate.
Qed.

Lemma maintainSpv_still_running rounds :
  forall submitted submitted',
    maintain rounds submitted = (submitted', StillRunning) ->
    Forall (fun r => errorOf r = []) rounds /\
    submitted' = submitted ++ flat_map provedBy rounds.
Proof.
  induction rounds as [|r rounds IH]; intros submitted submitted' H.
  - injection H as <-. rewrite app_nil_r. split; [constructor | reflexivity].
  - cbn [maintainSpv] in H. unfold roundError.
    destruct (proveOf r) as [proved result] eqn:Hprove.
    destruct result as [[] | e0 | reason]; try discriminate.
    destruct (contextDone r); [discriminate |].
    apply IH in H. destruct H as (Hall & ->).
    split; [constructor; [rewrite Hprove; reflexivity | exact Hall] |].
    cbn [flat_map]. rewrite Hprove, app_assoc. reflexivity.
Qed.

Lemma maintainSpv_panics rounds :
  forall submitted submitted' reason,
    maintain rounds submitted = (submitted', Panics reason) ->
    exists r, r ∈ rounds /\ snd (proveOf r) = Panic reason.
Proof.
  induction rounds as [|r rounds IH]; intros submitted submitted' reason H;
    [discriminate |].
  cbn [maintainSpv] in H.
  destruct (proveOf r) as [proved result] eqn:Hprove.
  destruct result as [[] | e0 | reason0]; try discriminate.
  - destruct (contextDone r); [discriminate |].
    apply IH in H. destruct H as (r' & Hin & Hr').
    exists r'. split; [apply elem_of_cons; auto | exact Hr'].
  - injection H as _ <-. exists r.
    split; [apply elem_of_cons; auto | rewrite Hprove; reflexivity].
Qed.

Lemma flat_map_no_error before :
  Forall (fun r => contextDone r = false /\ errorOf r = []) before ->
  flat_map errorOf before = [].
Proof.
  induction 1 as [|r before [_ Hr] _ IH]; [reflexivity |].
  cbn [flat_map]. rewrite Hr, IH. reflexivity.
Qed.

Lemma controlLoop_restarts restarts :
  forall rounds submitted logged,
    (length rounds < restarts)%nat ->
    Forall (fun r => contextDone r = false) rounds ->
    (forall r reason, r ∈ rounds -> snd (proveOf r) <> Panic reason) ->
    control restarts rounds submitted logged
    = (submitted ++ flat_map provedBy rounds,
       logged ++ flat_map errorOf rounds, Running).
Proof.
  induction restarts as [|restarts IH];
    intros rounds submitted logged Hfuel Hdone Hpanic; [lia |].
  cbn [controlLoop].
  destruct (maintain rounds submitted) as [submitted' [e done later | | reason]]
    eqn:Hmaintain.
  - apply maintainSpv_returns in Hmaintain.
    destruct Hmaintain as (before & r & -> & Hbefore & -> & -> & He).
    pose proof Hdone as Hdone'.
    apply Forall_app in Hdone'. destruct Hdone' as [_ Hdone'].
    inversion Hdone' as [|? ? Hr Hlater]; subst. rewrite Hr.
    destruct He as [[Herr _] | (_ & Hctx & _)]; [| congruence].
    rewrite IH.
    + rewrite !flat_map_app. cbn [flat_map].
      rewrite (flat_map_no_error before Hbefore), Herr, !app_nil_r.
      rewrite <- !app_assoc. reflexivity.
    + rewrite length_app in Hfuel. cbn [length] in Hfuel. lia.
    + exact Hlater.
    + intros r' reason Hin. apply Hpanic.
      apply elem_of_app. right. apply elem_of_cons. auto.
  - apply maintainSpv_still_running in Hmaintain.
    destruct Hmaintain as (Hall & ->).
    assert (Hnone : flat_map errorOf rounds = []).
    { clear -Hall. induction Hall as [|r rounds Hr _ IHall]; [reflexivity |].
      cbn [flat_map]. rewrite Hr, IHall. reflexivity. }
    rewrite Hnone, app_nil_r. reflexivity.
  - apply maintainSpv_panics in Hmaintain.
    destruct Hmaintain as (r & Hin & Hr).
    exfalso. apply (Hpanic r reason Hin Hr).
Qed.

(** X26. A round that fails does not end the maintainer. While the context is
    not done and no round panics, the control loop goes through every
    round: it is still running after the last, the proofs submitted are
    those of all the rounds, and it has logged one error for each round
    that failed. *)
Theorem startControlLoop_restarts_after_failure rounds :
  Forall (fun r => contextDone r = false) rounds ->
  (forall r reason, r ∈ rounds -> snd (proveOf r) <> Panic reason) ->
  startControlLoop transactionHash AssembleSpvProof parseTransactionInputs
    ctxErr rounds
  = (flat_map provedBy rounds, flat_map errorOf rounds, Running).
Proof.
  intros Hdone Hpanic. unfold startControlLoop.
  rewrite controlLoop_restarts; [reflexivity | lia | exact Hdone | exact Hpanic].
Qed.

Lemma controlLoop_stopped restarts :
  forall rounds submitted logged submitted' logged',
    control restarts rounds submitted logged = (submitted', logged', Stopped) ->
    exists before r later,
      rounds = before ++ r :: later /\
      Forall (fun r' => contextDone r' = false) before /\
      contextDone r = true /\
      submitted' = submitted ++ flat_map provedBy (before ++ [r]).
Proof.
  induction restarts as [|restarts IH];
    intros rounds submitted logged submitted' logged' H; [discriminate |].
  cbn [controlLoop] in H.
  destruct (maintain rounds submitted) as [submitted1 [e done later | | reason]]
    eqn:Hmaintain; try discriminate.
  apply maintainSpv_returns in Hmaintain.
  destruct Hmaintain as (before & r & -> & Hbefore & -> & -> & _).
  assert (Hquiet : Forall (fun r' => contextDone r' = false) before).
  { eapply Forall_impl; [exact Hbefore |]. intros r' [Hr' _]. exact Hr'. }
  destruct (contextDone r) eqn:Hdone.
  - injection H as <- _. exists before, r, later. auto.
  - apply IH in H.
    destruct H as (before' & r' & later' & -> & Hbefore' & Hdone' & ->).
    exists (before ++ r :: before'), r', later'.
    split; [rewrite <- app_assoc; reflexivity |]. split.
    + apply Forall_app. split; [exact Hquiet |]. constructor; assumption.
    + split; [exact Hdone' |].
      rewrite <- ?app_assoc, ?flat_map_app. cbn [app flat_map].
      rewrite ?flat_map_app, <- ?app_assoc. cbn [app flat_map].
      rewrite ?app_nil_r, <- ?app_assoc. reflexivity.
Qed.

(** X27. The control loop stops only once the context is done: it stops after
    the first round whose [select] finds the context done, the rounds
    before it have all been gone through, failed or not, and no round
    after it is started. *)
Theorem startControlLoop_stops_when_context_done rounds submitted logged :
  startControlLoop transactionHash AssembleSpvProof parseTransactionInputs
    ctxErr rounds = (submitted, logged, Stopped) ->
  exists before r later,
    rounds = before ++ r :: later /\
    Forall (fun r' => contextDone r' = false) before /\
    contextDone r = true /\
    submitted = flat_map provedBy (before ++ [r]).
Proof.
  unfold startControlLoop. intros H.
  apply controlLoop_stopped in H. exact H.
Qed.

End ControlLoop.

Lemma startControlLoop_restarts_after_failure_witness :
  Sample.controlLoopOver [Sample.failingRound false; Sample.provingRound false]
  = ([Sample.sweep2],
     [Wrapf "error while proving deposit sweep transactions: [%v]"
        (Wrapf "failed to assemble SPV proof: [%v]"
           (Errorf "not enough confirmations"))],
     SpvControl.Running).
Proof.
  unfold Sample.controlLoopOver.
  rewrite startControlLoop_restarts_after_failure.
  - vm_compute. reflexivity.
  - repeat constructor.
  - intros r reason Hin.
    repeat (apply elem_of_cons in Hin; destruct Hin as [-> | Hin];
            [vm_compute; discriminate |]).
    apply elem_of_nil in Hin. contradiction.
Defined.

Lemma startControlLoop_stops_when_context_done_witness :
  exists before r later,
    [Sample.failingRound false; Sample.provingRound true;
     Sample.failingRound false] = before ++ r :: later /\
    Forall (fun r' => SpvControl.contextDone r' = false) before /\
    SpvControl.contextDone r = true /\
    [Sample.sweep2]
    = flat_map
        (fun r => fst (SpvControl.proveRound Sample.transactionHash
                         Sample.AssembleSpvProof
                         Sample.parseTransactionInputs r))
        (before ++ [r]).
Proof.
  apply (startControlLoop_stops_when_context_done Sample.transactionHash
           Sample.AssembleSpvProof Sample.parseTransactionInputs
           (Errorf "context canceled")
           [Sample.failingRound false; Sample.provingRound true;
            Sample.failingRound false]
           [Sample.sweep2]
           [Wrapf "error while proving deposit sweep transactions: [%v]"
              (Wrapf "failed to assemble SPV proof: [%v]"
                 (Errorf "not enough confirmations"));
            Errorf "context canceled"]).
  vm_compute. reflexivity.
Defined.


Section MissingOutput.
Import Spv.

Variable chain : Chain.
Variable btcChain : Bitcoin.Chain.
Variable walletPublicKeyHash : list Byte.byte.

Lemma depositInputsLoop_panics before input rest deposit previousTransaction :
  Forall (fun i => isUnsweptDeposit chain i = true \/
                   isCurrentMainUtxo chain btcChain walletPublicKeyHash i = true)
         before ->
  depositOf chain input = Ok deposit ->
  RevealedAt deposit = 0 ->
  Bitcoin.GetTransaction btcChain
    (Bitcoin.TransactionHash (Bitcoin.InputOutpoint input))
  = Ok previousTransaction ->
  (length (Bitcoin.Outputs previousTransaction)
   <= Z.to_nat (Bitcoin.OutputIndex (Bitcoin.InputOutpoint input)))%nat ->
  forall hasDepositInputs,
    depositInputsLoop chain btcChain walletPublicKeyHash
      (before ++ input :: rest) hasDepositInputs
    = Panic "runtime error: index out of range".
Proof.
  intros Hbefore Hdeposit Hrevealed Hprevious Hshort.
  induction Hbefore as [|i before Hi _ IH]; intros hasDepositInputs.
  - cbn [app depositInputsLoop]. unfold depositOf in Hdeposit.
    rewrite Hdeposit. cbn [wrap_err bind]. rewrite Hrevealed. cbn [Z.eqb].
    unfold isInputCurrentWalletsMainUTXO. rewrite Hprevious.
    cbn [wrap_err bind].
    rewrite (lookup_ge_None_2 _ _ Hshort). reflexivity.
  - cbn [app depositInputsLoop].
    unfold isUnsweptDeposit, isCurrentMainUtxo, depositOf in Hi.
    destruct (Deposits chain
                (Bitcoin.TransactionHash (Bitcoin.InputOutpoint i))
                (Bitcoin.OutputIndex (Bitcoin.InputOutpoint i)))
      as [d | e | reason]; [| destruct Hi; discriminate ..].
    cbn [wrap_err bind].
    destruct (RevealedAt d =? 0) eqn:Hd; cbn [negb andb] in Hi.
    + destruct Hi as [Hi | Hi]; [discriminate |].
      destruct (isInputCurrentWalletsMainUTXO chain btcChain _ _ _)
        as [[|] | |]; try discriminate.
      cbn [negb]. apply IH.
    + destruct Hi as [Hi | Hi]; [| discriminate].
      rewrite Hi. apply IH.
Qed.

(** X28. The check of a transaction panics, with Go's index out of range, when
    it comes to an input the chain has no revealed deposit for and whose
    funding transaction, as the Bitcoin chain returns it, has no output at
    the index the input spends: the value of the output is read before
    anything else is looked at. *)
Theorem isUnprovenDepositSweepTransaction_panics_on_missing_output
  transaction before input rest deposit previousTransaction :
  length (Bitcoin.Outputs transaction) = 1%nat ->
  Bitcoin.Inputs transaction = before ++ input :: rest ->
  Forall (fun i => isUnsweptDeposit chain i = true \/
                   isCurrentMainUtxo chain btcChain walletPublicKeyHash i = true)
         before ->
  depositOf chain input = Ok deposit ->
  RevealedAt deposit = 0 ->
  Bitcoin.GetTransaction btcChain
    (Bitcoin.TransactionHash (Bitcoin.InputOutpoint input))
  = Ok previousTransaction ->
  (length (Bitcoin.Outputs previousTransaction)
   <= Z.to_nat (Bitcoin.OutputIndex (Bitcoin.InputOutpoint input)))%nat ->
  isUnprovenDepositSweepTransaction chain btcChain transaction
    walletPublicKeyHash
  = Panic "runtime error: index out of range".
Proof.
  intros Hone Hinputs Hbefore Hdeposit Hrevealed Hprevious Hshort.
  unfold isUnprovenDepositSweepTransaction. rewrite Hone, Hinputs.
  cbn [Nat.eqb negb].
  eapply depositInputsLoop_panics; eassumption.
Qed.

End MissingOutput.

Lemma isUnprovenDepositSweepTransaction_panics_on_missing_output_witness :
  Spv.isUnprovenDepositSweepTransaction Sample.spvChain Sample.spvBtcChain
    Sample.danglingSweep Sample.walletPKH
  = Panic "runtime error: index out of range".
Proof.
  apply (isUnprovenDepositSweepTransaction_panics_on_missing_output
           Sample.spvChain Sample.spvBtcChain Sample.walletPKH
           Sample.danglingSweep [Sample.input Byte.xa1] Sample.danglingInput []
           {| Spv.RevealedAt := 0; Spv.SweptAt := 0; Spv.Vault := None |}
           Sample.previous).
  - reflexivity.
  - reflexivity.
  - constructor; [left; vm_compute; reflexivity | constructor].
  - vm_compute. reflexivity.
  - reflexivity.
  - vm_compute. reflexivity.
  - vm_compute. lia.
Defined.
